(** * video_organizer: media identification, discovery walk and catalog assembly

    A shallow embedding of the media-identification core of the
    [video_organizer] package:

    - [core/identify/_media_identifier.py]: the [MediaInfo] class
      (per-path instance registry, probe invocation, format summary,
      per-stream classification, duration helpers);
    - [core/_process_media.py]: the [MediaProcessor] class (directory
      walk, keyword/extension filter, catalog assembly).

    The program is dynamically typed, so a probe document is a value of
    [pyval]; Python floats are IEEE binary64 values ([spec_float] at
    precision 53), exceptions are values of [result], dictionaries are
    insertion-ordered association lists compared with Python's [==], and
    class-level mutable attributes live in an explicit state record.
    Text is ASCII, and what the program prints is left out. *)

From Stdlib Require Import ZArith Bool Ascii String List Lia.
From Stdlib Require Import SpecFloat DecimalString.
From stdpp Require Import base option gmap strings list.

Local Open Scope Z_scope.

(* ====================================================================== *)
(** * Exceptions and the error monad *)
(* ====================================================================== *)

(** The exception classes the modelled code can raise: the package's
    own [QueryError] ([CreationError] is declared next to it and never
    raised) and the built-in ones. *)
Inductive exc_class : Set :=
  | RuntimeError
  | QueryError
  | CreationError
  | FileNotFoundError
  | JSONDecodeError
  | ValueError
  | TypeError
  | AttributeError
  | OverflowError
  | ZeroDivisionError
  | KeyError
  | OSError.

Global Instance exc_class_eq_dec : EqDecision exc_class.
Proof. solve_decision. Defined.

(** An exception value: its class and, when the package's code builds
    the text itself, the message.  Messages composed by the interpreter
    are not modelled ([None]). *)
Record pyexc : Set := mkExc { exc_cls : exc_class; exc_msg : option string }.

Global Instance pyexc_eq_dec : EqDecision pyexc.
Proof. solve_decision. Defined.

Inductive result (A : Type) : Type :=
  | Ok (a : A)
  | Raise (e : pyexc).
Arguments Ok {A} a.
Arguments Raise {A} e.

Definition builtin_error {A} (c : exc_class) : result A := Raise (mkExc c None).

Global Instance result_ret : MRet result := fun A a => Ok a.
Global Instance result_bind : MBind result := fun A B f m =>
  match m with
  | Ok a => f a
  | Raise e => Raise e
  end.

Global Instance result_fmap : FMap result := fun A B f m =>
  match m with
  | Ok a => Ok (f a)
  | Raise e => Raise e
  end.

Definition is_ok {A} (r : result A) : bool :=
  match r with Ok _ => true | Raise _ => false end.


(* ====================================================================== *)
(** * Binary64 arithmetic as CPython performs it *)
(* ====================================================================== *)

Module Float.

Definition prec : Z := 53.
Definition emax : Z := 1024.

Definition add := SFadd prec emax.
Definition sub := SFsub prec emax.
Definition mul := SFmul prec emax.
Definition div := SFdiv prec emax.
Definition eqb := SFeqb.
Definition ltb := SFltb.

Definition zero : spec_float := S754_zero false.

(** Nearest double of an integer (ties to even); infinite when the
    integer is beyond the double range. *)
Definition of_Z (z : Z) : spec_float := binary_normalize prec emax z 0 false.

Definition one : spec_float := of_Z 1.

(** Nearest double of the fraction [num / den]. *)
Definition of_ratio (neg : bool) (num den : positive) : spec_float :=
  let '(mz, ez, lz) := SFdiv_core_binary prec emax (Zpos num) 0 (Zpos den) 0 in
  binary_round_aux prec emax neg mz ez lz.

Definition half : spec_float := of_ratio false 1 2.

Definition is_nan (f : spec_float) : bool :=
  match f with S754_nan => true | _ => false end.

Definition is_inf (f : spec_float) : bool :=
  match f with S754_infinity _ => true | _ => false end.

Definition is_finite (f : spec_float) : bool :=
  match f with S754_zero _ | S754_finite _ _ _ => true | _ => false end.

Definition signbit (f : spec_float) : bool :=
  match f with
  | S754_zero s | S754_infinity s | S754_finite s _ _ => s
  | S754_nan => false
  end.

(** C's [if (x)] and Python's [bool(x)]: everything except the two
    zeros, NaN included. *)
Definition nonzero (f : spec_float) : bool := negb (eqb f zero).

Definition copysign_zero (f : spec_float) : spec_float := S754_zero (signbit f).

(** Round-half-even of the non-negative quotient [n / d]. *)
Definition rne_div (n d : Z) : Z :=
  let q := n / d in
  match (2 * (n mod d)) ?= d with
  | Lt => q
  | Gt => q + 1
  | Eq => if Z.even q then q else q + 1
  end.

(** Round-half-even of [m * 2^e * k], computed exactly. *)
Definition scaled_rne (m : positive) (e : Z) (k : Z) : Z :=
  if 0 <=? e then Zpos m * 2 ^ e * k
  else rne_div (Zpos m * k) (2 ^ (- e)).

(** Truncation towards zero of a finite double. *)
Definition trunc (f : spec_float) : option Z :=
  match f with
  | S754_zero _ => Some 0
  | S754_finite s m e =>
      let a := if 0 <=? e then Zpos m * 2 ^ e else Zpos m / 2 ^ (- e) in
      Some (if s then - a else a)
  | _ => None
  end.

(** C's [floor]. *)
Definition floor (f : spec_float) : spec_float :=
  match f with
  | S754_finite s m e =>
      if 0 <=? e then f
      else
        let q := Zpos m / 2 ^ (- e) in
        let exact := (Zpos m mod 2 ^ (- e)) =? 0 in
        if s then binary_normalize prec emax (- (if exact then q else q + 1)) 0 true
        else binary_normalize prec emax q 0 false
  | _ => f
  end.

(** C's [fmod]: the exact remainder of the magnitudes, with the sign
    of the dividend. *)
Definition fmod (x y : spec_float) : spec_float :=
  match x, y with
  | S754_nan, _ | _, S754_nan => S754_nan
  | S754_infinity _, _ => S754_nan
  | _, S754_zero _ => S754_nan
  | _, S754_infinity _ => x
  | S754_zero _, _ => x
  | S754_finite sx mx ex, S754_finite _ my ey =>
      let e := Z.min ex ey in
      let r := (Zpos mx * 2 ^ (ex - e)) mod (Zpos my * 2 ^ (ey - e)) in
      binary_normalize prec emax (if sx then - r else r) e sx
  end.

End Float.

(* ====================================================================== *)
(** * Strings and paths *)
(* ====================================================================== *)

Module Str.

Definition chars (s : string) : list ascii := list_ascii_of_string s.
Definition of_chars (l : list ascii) : string := string_of_list_ascii l.

Definition code (c : ascii) : nat := nat_of_ascii c.

Definition is_digit (c : ascii) : bool :=
  (Nat.leb 48 (code c)) && (Nat.leb (code c) 57).

Definition digit_val (c : ascii) : Z := Z.of_nat (code c) - 48.

(** The characters [str.strip()] and the numeric constructors drop
    (ASCII range). *)
Definition is_space (c : ascii) : bool :=
  let n := code c in
  ((Nat.leb 9 n) && (Nat.leb n 13)) || ((Nat.leb 28 n) && (Nat.leb n 32)).

Definition lower (c : ascii) : ascii :=
  let n := code c in
  if (Nat.leb 65 n) && (Nat.leb n 90) then ascii_of_nat (n + 32) else c.

Definition upper_char (c : ascii) : ascii :=
  let n := code c in
  if (Nat.leb 97 n) && (Nat.leb n 122) then ascii_of_nat (n - 32) else c.

(** [str.upper()] on ASCII text. *)
Definition upper (s : string) : string := of_chars (map upper_char (chars s)).

Fixpoint lstrip (l : list ascii) : list ascii :=
  match l with
  | c :: r => if is_space c then lstrip r else l
  | [] => []
  end.

Definition strip (l : list ascii) : list ascii := rev (lstrip (rev (lstrip l))).

Fixpoint starts_with (p s : string) : bool :=
  match p, s with
  | EmptyString, _ => true
  | String a p', String b s' => Ascii.eqb a b && starts_with p' s'
  | String _ _, EmptyString => false
  end.

(** [needle in hay] on strings. *)
Fixpoint contains (needle hay : string) : bool :=
  starts_with needle hay
  || match hay with
     | EmptyString => false
     | String _ hay' => contains needle hay'
     end.

(** [s.split(sep)] for a one-character separator. *)
Fixpoint split_on (sep : ascii) (s : string) : list string :=
  match s with
  | EmptyString => [EmptyString]
  | String c rest =>
      if Ascii.eqb c sep then EmptyString :: split_on sep rest
      else match split_on sep rest with
           | w :: ws => String c w :: ws
           | [] => [String c EmptyString]
           end
  end.

(** [s.rfind(c)], [None] standing for [-1]. *)
Fixpoint rfind_from (c : ascii) (s : string) (i : nat) : option nat :=
  match s with
  | EmptyString => None
  | String a rest =>
      match rfind_from c rest (S i) with
      | Some j => Some j
      | None => if Ascii.eqb a c then Some i else None
      end
  end.

Definition rfind (c : ascii) (s : string) : option nat := rfind_from c s 0.

Fixpoint drop (n : nat) (s : string) : string :=
  match n, s with
  | O, _ => s
  | S n', String _ rest => drop n' rest
  | S _, EmptyString => EmptyString
  end.

Fixpoint repeat_char (c : ascii) (n : nat) : string :=
  match n with
  | O => EmptyString
  | S n' => String c (repeat_char c n')
  end.

Definition of_Z (z : Z) : string := NilZero.string_of_int (Z.to_int z).

(** Sign-aware zero padding to a minimum width, as the format
    specifications [0Nd] and [0N.Pf] do. *)
Definition zero_pad (width : nat) (neg : bool) (digits : string) : string :=
  let body := (width - (if neg then 1 else 0) - String.length digits)%nat in
  ((if neg then "-" else EmptyString) +:+ repeat_char "0" body +:+ digits)%string.

End Str.

(** A [pathlib.Path], kept as its normalised text. *)
Record Path : Set := mkPath { path_str : string }.

Global Instance Path_eq_dec : EqDecision Path.
Proof. solve_decision. Defined.

Module PathOps.

(** [Path.name]: the final component; empty for [Path('.')] and for
    the root. *)
Definition name (p : Path) : string :=
  if String.eqb (path_str p) "." then EmptyString
  else List.last (Str.split_on "/" (path_str p)) EmptyString.

(** [Path.suffix] (CPython 3.12): the final component's last dot and
    what follows it, unless that dot is the first or the last
    character. *)
Definition suffix (p : Path) : string :=
  let name := name p in
  match Str.rfind "." name with
  | Some i =>
      if Nat.ltb 0 i && Nat.ltb i (String.length name - 1) then Str.drop i name
      else EmptyString
  | None => EmptyString
  end.

(** [parent / child] for a single component [child]. *)
Definition joinpath (parent : Path) (child : string) : Path :=
  if String.eqb (path_str parent) "." then mkPath child
  else if String.eqb (path_str parent) "/" then mkPath ("/" +:+ child)
  else mkPath (path_str parent +:+ "/" +:+ child).

End PathOps.

(* ====================================================================== *)
(** * Python values *)
(* ====================================================================== *)

(** What [json.loads] can return, plus [Path] objects. *)
#[warnings="-register-all"]
Inductive pyval : Type :=
  | PNone
  | PBool (b : bool)
  | PInt (z : Z)
  | PFloat (f : spec_float)
  | PStr (s : string)
  | PPath (p : Path)
  | PList (l : list pyval)
  | PDict (d : list (string * pyval)).

Module Py.

(** Truth value of an object. *)
Definition truthy (v : pyval) : bool :=
  match v with
  | PNone => false
  | PBool b => b
  | PInt z => negb (z =? 0)
  | PFloat f => Float.nonzero f
  | PStr s => negb (String.eqb s EmptyString)
  | PPath _ => true
  | PList l => match l with [] => false | _ => true end
  | PDict d => match d with [] => false | _ => true end
  end.

Definition is_none (v : pyval) : bool :=
  match v with PNone => true | _ => false end.

(** A document's objects are association lists; the first binding of
    a key is the one in force. *)
Fixpoint assoc (k : string) (d : list (string * pyval)) : option pyval :=
  match d with
  | [] => None
  | (k', v) :: rest => if String.eqb k' k then Some v else assoc k rest
  end.

(** [obj.get(key, default)]: only dictionaries have the method. *)
Definition get (obj : pyval) (key : string) (dflt : pyval) : result pyval :=
  match obj with
  | PDict d => Ok (default dflt (assoc key d))
  | _ => builtin_error AttributeError
  end.

(** [v == 'literal']. *)
Definition eq_str (v : pyval) (s : string) : bool :=
  match v with PStr t => String.eqb t s | _ => false end.

(** Lists and dictionaries cannot be dictionary keys. *)
Definition hashable (v : pyval) : bool :=
  match v with PList _ | PDict _ => false | _ => true end.

Definition float_eq_Z (f : spec_float) (z : Z) : bool :=
  match f with
  | S754_zero _ => z =? 0
  | S754_finite s m e =>
      let sgn (a : Z) := if s then - a else a in
      if 0 <=? e then sgn (Zpos m * 2 ^ e) =? z
      else ((Zpos m mod 2 ^ (- e)) =? 0) && (sgn (Zpos m / 2 ^ (- e)) =? z)
  | _ => false
  end.

Definition Z_of_bool (b : bool) : Z := if b then 1 else 0.

(** [a == b] between hashable objects: booleans, integers and floats
    compare by numeric value, strings and paths by their text, and
    objects of unrelated types are different. *)
Definition key_eq (a b : pyval) : bool :=
  match a, b with
  | PNone, PNone => true
  | PStr s, PStr t => String.eqb s t
  | PPath p, PPath q => String.eqb (path_str p) (path_str q)
  | PBool x, PBool y => Z_of_bool x =? Z_of_bool y
  | PBool x, PInt z | PInt z, PBool x => Z_of_bool x =? z
  | PInt x, PInt y => x =? y
  | PFloat f, PBool x | PBool x, PFloat f => float_eq_Z f (Z_of_bool x)
  | PFloat f, PInt z | PInt z, PFloat f => float_eq_Z f z
  | PFloat f, PFloat g => Float.eqb f g
  | _, _ => false
  end.

End Py.

(* ====================================================================== *)
(** * Built-in conversions and float operators *)
(* ====================================================================== *)

Module Builtins.

Import Str.

(** [digit (["_"] digit)*]: the value read so far, how many digits
    were read, and the unread rest. *)
Fixpoint digits_tail (acc : Z) (n : nat) (s : list ascii) : Z * nat * list ascii :=
  match s with
  | c :: r =>
      if is_digit c then digits_tail (acc * 10 + digit_val c) (S n) r
      else if Ascii.eqb c "_" then
        match r with
        | d :: r' =>
            if is_digit d then digits_tail (acc * 10 + digit_val d) (S n) r'
            else (acc, n, s)
        | [] => (acc, n, s)
        end
      else (acc, n, s)
  | [] => (acc, n, s)
  end.

Definition digitpart (s : list ascii) : option (Z * nat * list ascii) :=
  match s with
  | c :: r => if is_digit c then Some (digits_tail (digit_val c) 1 r) else None
  | [] => None
  end.

(** An optional sign: [true] for a minus. *)
Definition sign (s : list ascii) : bool * list ascii :=
  match s with
  | c :: r =>
      if Ascii.eqb c "-" then (true, r)
      else if Ascii.eqb c "+" then (false, r)
      else (false, s)
  | [] => (false, s)
  end.

(** [int(text)] in base 10. *)
Definition int_of_string (s : string) : option Z :=
  let '(neg, body) := sign (strip (chars s)) in
  match digitpart body with
  | Some (v, _, []) => Some (if neg then - v else v)
  | _ => None
  end.

(** The double nearest to [m * 10^e]. *)
Definition decimal_to_float (neg : bool) (m : Z) (e : Z) : spec_float :=
  match m with
  | Zpos p =>
      if 0 <=? e then
        binary_normalize Float.prec Float.emax
          (if neg then - (m * 10 ^ e) else m * 10 ^ e) 0 neg
      else Float.of_ratio neg p (Z.to_pos (10 ^ (- e)))
  | _ => S754_zero neg
  end.

(** [number ::= [digitpart] "." digitpart | digitpart ["."]]: mantissa
    and decimal exponent. *)
Definition number (s : list ascii) : option (Z * Z * list ascii) :=
  match digitpart s with
  | Some (ip, _, r) =>
      match r with
      | c :: r' =>
          if Ascii.eqb c "." then
            match r' with
            | d :: r2 =>
                if is_digit d then
                  let '(all, n, r'') := digits_tail (ip * 10 + digit_val d) 1 r2 in
                  Some (all, - Z.of_nat n, r'')
                else Some (ip, 0, r')
            | [] => Some (ip, 0, [])
            end
          else Some (ip, 0, r)
      | [] => Some (ip, 0, [])
      end
  | None =>
      match s with
      | c :: r' =>
          if Ascii.eqb c "." then
            match digitpart r' with
            | Some (fp, n, r'') => Some (fp, - Z.of_nat n, r'')
            | None => None
            end
          else None
      | [] => None
      end
  end.

(** [exponent ::= ("e" | "E") [sign] digitpart], optional. *)
Definition exponent (s : list ascii) : option (Z * list ascii) :=
  match s with
  | c :: r =>
      if Ascii.eqb (lower c) "e" then
        let '(neg, r') := sign r in
        match digitpart r' with
        | Some (v, _, rest) => Some (if neg then - v else v, rest)
        | None => None
        end
      else Some (0, s)
  | [] => Some (0, [])
  end.

(** [float(text)]: optional blanks and sign, then a decimal literal,
    [inf], [infinity] or [nan] in any letter case. *)
Definition float_of_string (s : string) : option spec_float :=
  let '(neg, body) := sign (strip (chars s)) in
  let word := of_chars (map lower body) in
  if String.eqb word "inf" || String.eqb word "infinity"
  then Some (S754_infinity neg)
  else if String.eqb word "nan" then Some S754_nan
  else
    match number body with
    | Some (m, e, r) =>
        match exponent r with
        | Some (x, []) => Some (decimal_to_float neg m (e + x))
        | _ => None
        end
    | None => None
    end.

(** [int(v)]. *)
Definition int (v : pyval) : result Z :=
  match v with
  | PBool b => Ok (Py.Z_of_bool b)
  | PInt z => Ok z
  | PFloat f =>
      match Float.trunc f with
      | Some z => Ok z
      | None =>
          if Float.is_nan f then builtin_error ValueError
          else builtin_error OverflowError
      end
  | PStr s =>
      match int_of_string s with
      | Some z => Ok z
      | None => builtin_error ValueError
      end
  | _ => builtin_error TypeError
  end.

(** Conversion of an integer operand to a double: too large an
    integer raises. *)
Definition int_to_float (z : Z) : result spec_float :=
  let f := Float.of_Z z in
  if Float.is_inf f then builtin_error OverflowError else Ok f.

(** [float(v)]. *)
Definition float (v : pyval) : result spec_float :=
  match v with
  | PBool b => Ok (Float.of_Z (Py.Z_of_bool b))
  | PInt z => int_to_float z
  | PFloat f => Ok f
  | PStr s =>
      match float_of_string s with
      | Some f => Ok f
      | None => builtin_error ValueError
      end
  | _ => builtin_error TypeError
  end.

(** [float.__divmod__]: quotient rounded towards minus infinity and
    remainder with the sign of the divisor. *)
Definition float_divmod (vx wx : spec_float) : result (spec_float * spec_float) :=
  if Float.eqb wx Float.zero then builtin_error ZeroDivisionError
  else
    let mod0 := Float.fmod vx wx in
    let div0 := Float.div (Float.sub vx mod0) wx in
    let '(mod1, div1) :=
      if Float.nonzero mod0 then
        if xorb (Float.ltb wx Float.zero) (Float.ltb mod0 Float.zero)
        then (Float.add mod0 wx, Float.sub div0 Float.one)
        else (mod0, div0)
      else (Float.copysign_zero wx, div0) in
    let floordiv :=
      if Float.nonzero div1 then
        let fl := Float.floor div1 in
        if Float.ltb Float.half (Float.sub div1 fl) then Float.add fl Float.one
        else fl
      else Float.copysign_zero (Float.div vx wx) in
    Ok (floordiv, mod1).

(** [x // n] and [x % n] for a double [x] and an integer [n]. *)
Definition floordiv_int (x : spec_float) (n : Z) : result spec_float :=
  w ← int_to_float n; fst <$> float_divmod x w.

Definition mod_int (x : spec_float) (n : Z) : result spec_float :=
  w ← int_to_float n; snd <$> float_divmod x w.

(** [x * n], [n / x] for a double [x] and an integer [n]. *)
Definition mul_int (x : spec_float) (n : Z) : result spec_float :=
  w ← int_to_float n; Ok (Float.mul x w).

Definition int_truediv (n : Z) (x : spec_float) : result spec_float :=
  w ← int_to_float n;
  if Float.eqb x Float.zero then builtin_error ZeroDivisionError
  else Ok (Float.div w x).

(** [round(x, ndigits)] for a small non-negative [ndigits]: the double
    nearest to the decimal obtained by rounding the exact value of [x]
    half-even at that digit. *)
Definition round (x : spec_float) (ndigits : Z) : spec_float :=
  match x with
  | S754_finite s m e =>
      match Float.scaled_rne m e (10 ^ ndigits) with
      | Zpos n => Float.of_ratio s n (Z.to_pos (10 ^ ndigits))
      | _ => S754_zero s
      end
  | _ => x
  end.

(** [f'{n:02d}']. *)
Definition format_02d (n : Z) : string :=
  zero_pad 2 (n <? 0) (of_Z (Z.abs n)).

(** [f'{x:06.3f}']. *)
Definition format_06_3f (x : spec_float) : string :=
  match x with
  | S754_nan => zero_pad 6 false "nan"
  | S754_infinity s => zero_pad 6 s "inf"
  | S754_zero s => zero_pad 6 s "0.000"
  | S754_finite s m e =>
      let n := Float.scaled_rne m e 1000 in
      let frac := of_Z (n mod 1000) in
      zero_pad 6 s (of_Z (n / 1000) +:+ "." +:+ zero_pad 3 false frac)
  end.

End Builtins.

(* ====================================================================== *)
(** * Dictionaries keyed by arbitrary objects *)
(* ====================================================================== *)

(** A [dict] whose keys come from the probe document: bindings in
    insertion order, keys compared with [Py.key_eq]. *)
Abbreviation pydict V := (list (pyval * V)).

Module Dict.
Section Ops.
Context {V : Type}.

Fixpoint lookup (k : pyval) (d : pydict V) : option V :=
  match d with
  | [] => None
  | (k', v) :: rest => if Py.key_eq k' k then Some v else lookup k rest
  end.

(** [k in d]; hashing an unhashable object raises. *)
Definition contains (k : pyval) (d : pydict V) : result bool :=
  if Py.hashable k then Ok (bool_decide (is_Some (lookup k d)))
  else builtin_error TypeError.

(** [d[k] = v] on a hashable [k]: an existing binding keeps its
    place and its key, a new one goes last. *)
Fixpoint update (k : pyval) (v : V) (d : pydict V) : pydict V :=
  match d with
  | [] => [(k, v)]
  | (k', v') :: rest =>
      if Py.key_eq k' k then (k', v) :: rest else (k', v') :: update k v rest
  end.

Definition setitem (k : pyval) (v : V) (d : pydict V) : result (pydict V) :=
  if Py.hashable k then Ok (update k v d) else builtin_error TypeError.

Definition len (d : pydict V) : Z := Z.of_nat (List.length d).
End Ops.
End Dict.

(* ====================================================================== *)
(** * Duration helpers ([_media_identifier.py], lines 427-443) *)
(* ====================================================================== *)

(** [_convert_duration_to_str]: seconds to [HH:MM:SS.SSS]. *)
Definition _convert_duration_to_str (duration : spec_float) : result string :=
  if Float.eqb duration Float.zero then Ok "00:00:00.000"%string
  else
    hq ← Builtins.floordiv_int duration 3600;
    h ← Builtins.int (PFloat hq);
    rem ← Builtins.mod_int duration 3600;
    mq ← Builtins.floordiv_int rem 60;
    m ← Builtins.int (PFloat mq);
    s ← Builtins.mod_int duration 60;
    Ok (Builtins.format_02d h +:+ ":" +:+ Builtins.format_02d m
        +:+ ":" +:+ Builtins.format_06_3f s).

(** [h, m, s = map(float, parts)]: three parts, each a float literal;
    a part that is no literal, too few parts and too many parts all
    raise [ValueError]. *)
Definition unpack_hms (parts : list string)
  : result (spec_float * spec_float * spec_float) :=
  match parts with
  | [a; b; c] =>
      h ← Builtins.float (PStr a);
      m ← Builtins.float (PStr b);
      s ← Builtins.float (PStr c);
      Ok (h, m, s)
  | _ => builtin_error ValueError
  end.

(** [_convert_duration_to_sec]: [HH:MM:SS.SSS] to seconds; the integer
    [0] for an empty (falsy) argument. *)
Definition _convert_duration_to_sec (duration_str : pyval) : result pyval :=
  if negb (Py.truthy duration_str) then Ok (PInt 0)
  else
    match duration_str with
    | PStr text =>
        '(h, m, s) ← unpack_hms (Str.split_on ":" text);
        h3600 ← Builtins.mul_int h 3600;
        m60 ← Builtins.mul_int m 60;
        Ok (PFloat (Float.add (Float.add h3600 m60) s))
    | _ => builtin_error AttributeError
    end.

(* ====================================================================== *)
(** * Lookup tables and the process environment *)
(* ====================================================================== *)

(** [base.VIDEO_RESOLUTION_STANDARDS] ([core/identify/_base.py]). *)
Definition VIDEO_RESOLUTION_STANDARDS : list (string * string) :=
  [ ("320x240", "QVGA"); ("352x240", "SIF"); ("352x288", "CIF");
     ("352x480", "480i"); ("480x320", "HVGA"); ("640x480", "480p");
     ("720x480", "SD_NTSC"); ("720x576", "576i"); ("768x576", "SD_PAL+");
     ("854x480", "FWVGA"); ("960x540", "qHD"); ("1024x576", "576p");
     ("1024x768", "XGA"); ("960x720", "720p"); ("1152x648", "720p");
     ("1280x720", "720p"); ("1280x800", "800p"); ("1280x960", "960p");
     ("1280x1080", "1080p"); ("1366x768", "768p"); ("1440x900", "WXGA+");
     ("1440x1080", "1080p"); ("1440x1440", "Square_HD"); ("1600x900", "900p");
     ("1600x1200", "UXGA"); ("1620x1080", "1080_WIDE"); ("1680x1050", "WSXGA+");
     ("1920x1080", "1080p"); ("1920x1200", "1200p"); ("2400x1600", "Full_HD+");
     ("2560x1080", "UWFHD"); ("3840x1080", "DFHD"); ("1920x1440", "QHD");
     ("1998x1080", "2K_Flat"); ("2048x858", "2K_Scope"); ("2048x1080", "2K_DCI");
     ("2048x1536", "2K_DCI"); ("2560x1440", "1440p"); ("2560x1600", "WQXGA");
     ("2560x2048", "QSXGA"); ("2732x1536", "iPad_Pro"); ("3200x1440", "WQHD+");
     ("3200x1800", "QHD+"); ("3440x1440", "2K_UWQHD"); ("3840x1600", "UWQHD+");
     ("3840x2400", "4K WQUXGA"); ("3996x2160", "4K_Flat"); ("4096x1716", "4K_Scope");
     ("4096x2160", "4K_DCI"); ("5120x1440", "DQHD"); ("5120x2880", "5K");
     ("5120x3200", "5K"); ("6016x3384", "6K"); ("7680x3200", "8K UWD");
     ("3840x2160", "2160p"); ("7680x4320", "4320p"); ("1828x1332", "2K_Academy");
     ("2880x2160", "3K"); ("3072x2160", "3K"); ("3656x2664", "4K_Academy");
     ("4096x2304", "4K UHD+"); ("4096x3072", "4K Full"); ("5120x2160", "5K");
     ("6144x3160", "6K_IMAX"); ("6144x3456", "6K Full"); ("8192x3428", "8K_Ultra");
     ("8192x4320", "8K_Full"); ("8192x5460", "8K Full"); ("10240x4320", "10K");
     ("11520x6480", "11K_IMAX") ]%string.

Fixpoint table_get (k : string) (t : list (string * string)) : option string :=
  match t with
  | [] => None
  | (k', v) :: rest => if String.eqb k' k then Some v else table_get k rest
  end.

(** What [subprocess.run] met: a child that exited with a status and
    some standard output, or an exception of its own (the tool could not
    be started, its output could not be decoded). *)
Inductive proc_outcome : Type :=
  | Exited (returncode : Z) (stdout : string)
  | RunError (e : pyexc).

(** What the program reads from outside its own source text. *)
Record environment : Type := mkEnv {
  (** [base.LANGUAGE_CODES], loaded from [info/ISO_639-2.json]: ISO
      639-2 code to language name. *)
  LANGUAGE_CODES : gmap string string;
  (** [shutil.which('ffprobe')]. *)
  which_ffprobe : option string;
  (** Running the tool found by [which] on a file. *)
  run_ffprobe : string → pyval → proc_outcome;
  (** [str(e)] of the [CalledProcessError] for an exit status. *)
  called_process_error_str : Z → string;
  (** [json.loads]; [None] when it raises [JSONDecodeError]. *)
  json_loads : string → option pyval;
  (** [str] of floats, lists and dictionaries. *)
  str_other : pyval → string;
}.

(** [str(v)], as f-strings apply it. *)
Definition py_str (env : environment) (v : pyval) : string :=
  match v with
  | PNone => "None"
  | PBool true => "True"
  | PBool false => "False"
  | PInt z => Str.of_Z z
  | PStr s => s
  | PPath p => path_str p
  | _ => str_other env v
  end.

(** [base.LANGUAGE_CODES.get(key, 'Unknown')]: the table's keys are
    strings, so any other hashable key is absent. *)
Definition language_get (env : environment) (key : pyval) : result string :=
  if Py.hashable key then
    Ok (match key with
        | PStr code => default "Unknown"%string (LANGUAGE_CODES env !! code)
        | _ => "Unknown"%string
        end)
  else builtin_error TypeError.

(** [v.upper()]: a string method. *)
Definition py_upper (v : pyval) : result string :=
  match v with
  | PStr s => Ok (Str.upper s)
  | _ => builtin_error AttributeError
  end.

(** [n / d] for an integer [n] and the value [_convert_duration_to_sec]
    returned. *)
Definition truediv (n : Z) (d : pyval) : result spec_float :=
  match d with
  | PFloat x => Builtins.int_truediv n x
  | PInt z =>
      if z =? 0 then builtin_error ZeroDivisionError
      else
        match n with
        | Z0 => Ok (S754_zero (z <? 0))
        | _ =>
            let q := Float.of_ratio (xorb (n <? 0) (z <? 0))
                       (Z.to_pos (Z.abs n)) (Z.to_pos (Z.abs z)) in
            if Float.is_inf q then builtin_error OverflowError else Ok q
        end
  | _ => builtin_error TypeError
  end.

(* ====================================================================== *)
(** * Data classes ([_media_identifier.py], lines 47-129) *)
(* ====================================================================== *)

(** Fields the code fills with whatever the document holds are of type
    [pyval]; fields it computes have the type of the computation. *)

Module FormatData.
Record t : Type := mk {
  score : Z;
  size : Z;
  duration : spec_float;
  duration_str : string;
  format : pyval;
  format_long_name : pyval;
  bitrate : Z;
  encoder : pyval;
  encoding_info : pyval;
}.
End FormatData.

Module VideoTrack.
Record t : Type := mk {
  index : pyval;
  default : pyval;
  forced : pyval;
  codec : pyval;
  language : string;
  duration : pyval;
  duration_sec : pyval;
  fps : pyval;
  bps : pyval;
  display_dimensions : string;
  display_width : pyval;
  display_height : pyval;
  display_aspect_ratio : pyval;
  display_resolution : string;
  pixel_width : pyval;
  pixel_height : pyval;
  pixel_dimensions : string;
  pixel_format : string;
  color_range : pyval;
  color_space : pyval;
  color_transfer : pyval;
  color_primaries : pyval;
}.
End VideoTrack.

Module AudioTrack.
Record t : Type := mk {
  index : pyval;
  codec : pyval;
  channels : pyval;
  sample_rate : pyval;
  language : string;
  bit_depth : pyval;
  duration : pyval;
}.
End AudioTrack.

Module SubtitleTrack.
Record t : Type := mk {
  index : pyval;
  codec : pyval;
  language : string;
  forced : pyval;
  default : pyval;
  hearing_impaired : pyval;
  visual_impaired : pyval;
  font_name : pyval;
  mimetype : pyval;
  duration : pyval;
}.
End SubtitleTrack.

Module AttachTrack.
Record t : Type := mk {
  index : pyval;
  codec : pyval;
  filename : pyval;
  mimetype : pyval;
  disposition : pyval;
}.
End AttachTrack.

(** [type TrackTypes = VideoTrack | AudioTrack | SubtitleTrack | AttachTrack] *)
Inductive TrackTypes : Type :=
  | Video (v : VideoTrack.t)
  | Audio (a : AudioTrack.t)
  | Subtitle (s : SubtitleTrack.t)
  | Attach (a : AttachTrack.t).

Definition track_index (d : TrackTypes) : pyval :=
  match d with
  | Video v => VideoTrack.index v
  | Audio a => AudioTrack.index a
  | Subtitle s => SubtitleTrack.index s
  | Attach a => AttachTrack.index a
  end.

(* ====================================================================== *)
(** * Track builders ([_media_identifier.py], lines 327-424) *)
(* ====================================================================== *)

Section Extract.
Variable env : environment.

Local Open Scope string_scope.

(** Lines 338-346 of [_extract_video_info]: the raw duration tag, its
    value in seconds and the frame rate derived from the frame count. *)
Definition derive_fps (_tags : pyval) : result (pyval * pyval * pyval) :=
  _duration ← Py.get _tags "DURATION" (PStr EmptyString);
  _duration_sec ← _convert_duration_to_sec _duration;
  frames ← Py.get _tags "NUMBER_OF_FRAMES" (PInt 0);
  _total_frames ← Builtins.int frames;
  _fps ←
    (if Py.truthy _duration_sec && negb (_total_frames =? 0)%Z
     then q ← truediv _total_frames _duration_sec;
          Ok (PFloat (Builtins.round q 5))
     else Ok (PInt 0));
  Ok (_duration, _duration_sec, _fps).

Definition _extract_video_info (track : pyval) : result VideoTrack.t :=
  _disposition ← Py.get track "disposition" (PDict []);
  _tags ← Py.get track "tags" (PDict []);
  _display_width ← Py.get track "width" (PInt 0);
  _display_height ← Py.get track "height" (PInt 0);
  _pixel_width ← Py.get track "coded_width" (PInt 0);
  _pixel_height ← Py.get track "coded_height" (PInt 0);
  let _display_dimensions :=
    py_str env _display_width +:+ "x" +:+ py_str env _display_height in
  let _pixel_dimensions :=
    py_str env _pixel_width +:+ "x" +:+ py_str env _pixel_height in
  '(_duration, _duration_sec, _fps) ← derive_fps _tags;
  index ← Py.get track "index" PNone;
  is_default ← Py.get _disposition "default" (PBool false);
  forced ← Py.get _disposition "forced" (PBool false);
  codec_name ← Py.get track "codec_name" (PStr "Unknown");
  codec ← Py.get track "codec_long_name" codec_name;
  lang_tag ← Py.get _tags "language" (PStr EmptyString);
  language ← language_get env lang_tag;
  bps ← Py.get _tags "BPS" (PInt 0);
  display_aspect_ratio ← Py.get track "display_aspect_ratio" (PStr "Unknown");
  pix_fmt ← Py.get track "pix_fmt" (PStr "Unknown");
  pixel_format ← py_upper pix_fmt;
  color_range ← Py.get track "color_range" (PStr "Unknown");
  color_space ← Py.get track "color_space" (PStr "Unknown");
  color_transfer ← Py.get track "color_transfer" (PStr "Unknown");
  color_primaries ← Py.get track "color_primaries" (PStr "Unknown");
  Ok {| VideoTrack.index := index;
        VideoTrack.default := is_default;
        VideoTrack.forced := forced;
        VideoTrack.codec := codec;
        VideoTrack.language := language;
        VideoTrack.duration := _duration;
        VideoTrack.duration_sec := _duration_sec;
        VideoTrack.fps := _fps;
        VideoTrack.bps := bps;
        VideoTrack.display_dimensions := _display_dimensions;
        VideoTrack.display_width := _display_width;
        VideoTrack.display_height := _display_height;
        VideoTrack.display_aspect_ratio := display_aspect_ratio;
        VideoTrack.display_resolution :=
          default "Unknown"
            (table_get _display_dimensions VIDEO_RESOLUTION_STANDARDS);
        VideoTrack.pixel_width := _pixel_width;
        VideoTrack.pixel_height := _pixel_height;
        VideoTrack.pixel_dimensions := _pixel_dimensions;
        VideoTrack.pixel_format := pixel_format;
        VideoTrack.color_range := color_range;
        VideoTrack.color_space := color_space;
        VideoTrack.color_transfer := color_transfer;
        VideoTrack.color_primaries := color_primaries |}.

Definition _extract_audio_info (track : pyval) : result AudioTrack.t :=
  index ← Py.get track "index" PNone;
  codec_name ← Py.get track "codec_name" (PStr "Unknown");
  codec ← Py.get track "codec_long_name" codec_name;
  channels ← Py.get track "channels" (PInt 0);
  sample_rate ← Py.get track "sample_rate" (PInt 0);
  lang_tag ← Py.get track "language" (PStr EmptyString);
  language ← language_get env lang_tag;
  bit_depth ← Py.get track "bits_per_sample" (PInt 0);
  duration ← Py.get track "duration" (PInt 0);
  Ok {| AudioTrack.index := index;
        AudioTrack.codec := codec;
        AudioTrack.channels := channels;
        AudioTrack.sample_rate := sample_rate;
        AudioTrack.language := language;
        AudioTrack.bit_depth := bit_depth;
        AudioTrack.duration := duration |}.

Definition _extract_subtitle_info (track : pyval) : result SubtitleTrack.t :=
  index ← Py.get track "index" PNone;
  codec ← Py.get track "codec_name" (PStr "Unknown");
  lang_tag ← Py.get track "language" (PStr EmptyString);
  language ← language_get env lang_tag;
  disposition ← Py.get track "disposition" (PDict []);
  forced ← Py.get disposition "forced" (PBool false);
  is_default ← Py.get disposition "default" (PBool false);
  hearing_impaired ← Py.get disposition "hearing_impaired" (PBool false);
  visual_impaired ← Py.get disposition "visual_impaired" (PBool false);
  tags ← Py.get track "tags" (PDict []);
  font_name ← Py.get tags "filename" (PStr "Unknown");
  mimetype ← Py.get tags "mimetype" (PStr "Unknown");
  duration ← Py.get track "duration" (PInt 0);
  Ok {| SubtitleTrack.index := index;
        SubtitleTrack.codec := codec;
        SubtitleTrack.language := language;
        SubtitleTrack.forced := forced;
        SubtitleTrack.default := is_default;
        SubtitleTrack.hearing_impaired := hearing_impaired;
        SubtitleTrack.visual_impaired := visual_impaired;
        SubtitleTrack.font_name := font_name;
        SubtitleTrack.mimetype := mimetype;
        SubtitleTrack.duration := duration |}.

Definition _extract_attach_info (track : pyval) : result AttachTrack.t :=
  _tags ← Py.get track "tags" (PDict []);
  index ← Py.get track "index" PNone;
  codec ← Py.get track "codec_name" (PStr "Unknown");
  filename ← Py.get _tags "filename" (PStr "Unknown");
  mimetype ← Py.get _tags "mimetype" (PStr "Unknown");
  disposition ← Py.get track "disposition" (PDict []);
  Ok {| AttachTrack.index := index;
        AttachTrack.codec := codec;
        AttachTrack.filename := filename;
        AttachTrack.mimetype := mimetype;
        AttachTrack.disposition := disposition |}.

End Extract.

(* ====================================================================== *)
(** * The [MediaInfo] class ([_media_identifier.py], lines 132-595) *)
(* ====================================================================== *)

(** The attributes [__init__] gives an instance. *)
Module MediaInfo.
Record t : Type := mk {
  _file_path : pyval;
  _raw_info : pyval;
  _format_data : FormatData.t;
  _tracks : pydict string;
  _tracks_by_type : gmap string (list pyval);
  _video_tracks : pydict VideoTrack.t;
  _audio_tracks : pydict AudioTrack.t;
  _subtitle_tracks : pydict SubtitleTrack.t;
  _attach_tracks : pydict AttachTrack.t;
  _attach_fonts : Z;
}.

Definition set_video_tracks (d : pydict VideoTrack.t) (o : t) : t :=
  mk (_file_path o) (_raw_info o) (_format_data o) (_tracks o)
     (_tracks_by_type o) d (_audio_tracks o) (_subtitle_tracks o)
     (_attach_tracks o) (_attach_fonts o).

Definition set_audio_tracks (d : pydict AudioTrack.t) (o : t) : t :=
  mk (_file_path o) (_raw_info o) (_format_data o) (_tracks o)
     (_tracks_by_type o) (_video_tracks o) d (_subtitle_tracks o)
     (_attach_tracks o) (_attach_fonts o).

Definition set_subtitle_tracks (d : pydict SubtitleTrack.t) (o : t) : t :=
  mk (_file_path o) (_raw_info o) (_format_data o) (_tracks o)
     (_tracks_by_type o) (_video_tracks o) (_audio_tracks o) d
     (_attach_tracks o) (_attach_fonts o).

Definition set_attach_tracks (d : pydict AttachTrack.t) (o : t) : t :=
  mk (_file_path o) (_raw_info o) (_format_data o) (_tracks o)
     (_tracks_by_type o) (_video_tracks o) (_audio_tracks o)
     (_subtitle_tracks o) d (_attach_fonts o).

Definition set_attach_fonts (n : Z) (o : t) : t :=
  mk (_file_path o) (_raw_info o) (_format_data o) (_tracks o)
     (_tracks_by_type o) (_video_tracks o) (_audio_tracks o)
     (_subtitle_tracks o) (_attach_tracks o) n.

Definition set_tracks (d : pydict string) (by_type : gmap string (list pyval))
    (o : t) : t :=
  mk (_file_path o) (_raw_info o) (_format_data o) d by_type
     (_video_tracks o) (_audio_tracks o) (_subtitle_tracks o)
     (_attach_tracks o) (_attach_fonts o).

(** The properties of lines 494-527. *)
Definition tracks_by_type (o : t) : gmap string (list pyval) := _tracks_by_type o.
Definition total_tracks (o : t) : Z := Dict.len (_tracks o).
Definition total_video_tracks (o : t) : Z := Dict.len (_video_tracks o).
Definition total_audio_tracks (o : t) : Z := Dict.len (_audio_tracks o).
Definition total_subtitle_tracks (o : t) : Z := Dict.len (_subtitle_tracks o).
Definition total_attach_tracks (o : t) : Z := Dict.len (_attach_tracks o).
Definition total_fonts (o : t) : Z := _attach_fonts o.
End MediaInfo.

(** [for x in v]: the items a value yields when iterated. *)
Definition py_iter (v : pyval) : result (list pyval) :=
  match v with
  | PList l => Ok l
  | PDict d => Ok (map (λ kv, PStr (fst kv)) d)
  | PStr s => Ok (map (λ c, PStr (String c EmptyString)) (Str.chars s))
  | _ => builtin_error TypeError
  end.

Fixpoint foldM {A B} (f : A → B → result A) (a : A) (l : list B) : result A :=
  match l with
  | [] => Ok a
  | b :: rest => a' ← f a b; foldM f a' rest
  end.

Section Classify.
Variable env : environment.

Local Open Scope string_scope.

(** [d[index] = data] unless [index in d] (lines 270-271 and their
    three siblings). *)
Definition store_first {V} (index : pyval) (data : V) (d : pydict V)
  : result (pydict V) :=
  present ← Dict.contains index d;
  if present : bool then Ok d else Dict.setitem index data d.

(** Lines 320-324: the statements after the [match], reached by every
    branch that did not [continue]. *)
Definition record_track (index : pyval) (track_type : string)
    (self : MediaInfo.t) : result MediaInfo.t :=
  tracks ← Dict.setitem index track_type (MediaInfo._tracks self);
  let by_type := MediaInfo._tracks_by_type self in
  let by_type :=
    match by_type !! track_type with
    | Some _ => by_type
    | None => <[track_type := []]> by_type
    end in
  let by_type := alter (λ l, (l ++ [index])%list) track_type by_type in
  Ok (MediaInfo.set_tracks tracks by_type self).

Definition font_codecs : list string := ["ttf"; "ttc"; "woff"; "woff2"].

(** One iteration of the loop of [_get_tracks_data] (lines 258-324).
    A [continue] returns the instance as it stands. *)
Definition classify (self : MediaInfo.t) (track : pyval) : result MediaInfo.t :=
  track_type ← Py.get track "codec_type" (PStr "Unknown");
  if Py.eq_str track_type "video" then
    data ← _extract_video_info env track;
    if Py.is_none (VideoTrack.index data) then Ok self
    else
      bucket ← store_first (VideoTrack.index data) data
                 (MediaInfo._video_tracks self);
      record_track (VideoTrack.index data) "video"
        (MediaInfo.set_video_tracks bucket self)
  else if Py.eq_str track_type "audio" then
    data ← _extract_audio_info env track;
    if Py.is_none (AudioTrack.index data) then Ok self
    else
      bucket ← store_first (AudioTrack.index data) data
                 (MediaInfo._audio_tracks self);
      record_track (AudioTrack.index data) "audio"
        (MediaInfo.set_audio_tracks bucket self)
  else if Py.eq_str track_type "subtitle" then
    data ← _extract_subtitle_info env track;
    if Py.is_none (SubtitleTrack.index data) then Ok self
    else
      bucket ← store_first (SubtitleTrack.index data) data
                 (MediaInfo._subtitle_tracks self);
      record_track (SubtitleTrack.index data) "subtitle"
        (MediaInfo.set_subtitle_tracks bucket self)
  else if Py.eq_str track_type "attachment" then
    data ← _extract_attach_info track;
    if Py.is_none (AttachTrack.index data) then Ok self
    else
      codec_name ← Py.get track "codec_name" (PStr EmptyString);
      let self :=
        if existsb (Py.eq_str codec_name) font_codecs
        then MediaInfo.set_attach_fonts (MediaInfo._attach_fonts self + 1) self
        else self in
      bucket ← store_first (AttachTrack.index data) data
                 (MediaInfo._attach_tracks self);
      record_track (AttachTrack.index data) "attachment"
        (MediaInfo.set_attach_tracks bucket self)
  else Ok self.

(** [_get_tracks_data] (lines 254-324). *)
Definition _get_tracks_data (self : MediaInfo.t) : result MediaInfo.t :=
  streams ← Py.get (MediaInfo._raw_info self) "streams" (PList []);
  _tracks ← py_iter streams;
  foldM classify self _tracks.

End Classify.

(* ====================================================================== *)
(** * Class-level state and instance creation *)
(* ====================================================================== *)

(** The class attributes of [_MediaInfo] (lines 135-138), the objects
    [object.__new__] has allocated, and a trace of the probe runs.  An
    object is [None] until [__init__] has set [created] on it. *)
Record ClassState : Type := mkState {
  _debug_mode : bool;
  _files : pydict nat;
  _total_file_size : Z;
  heap : list (option MediaInfo.t);
  probed : list pyval;
}.

Definition initial_state : ClassState :=
  {| _debug_mode := false; _files := []; _total_file_size := 0;
     heap := []; probed := [] |}.

Definition set_debug_mode (b : bool) (st : ClassState) : ClassState :=
  mkState b (_files st) (_total_file_size st) (heap st) (probed st).
Definition set_files (d : pydict nat) (st : ClassState) : ClassState :=
  mkState (_debug_mode st) d (_total_file_size st) (heap st) (probed st).
Definition set_total_file_size (n : Z) (st : ClassState) : ClassState :=
  mkState (_debug_mode st) (_files st) n (heap st) (probed st).
Definition set_heap (h : list (option MediaInfo.t)) (st : ClassState) : ClassState :=
  mkState (_debug_mode st) (_files st) (_total_file_size st) h (probed st).
Definition set_probed (l : list pyval) (st : ClassState) : ClassState :=
  mkState (_debug_mode st) (_files st) (_total_file_size st) (heap st) l.

(** Computations that read and write the class state and may raise; the
    state reached when an exception is raised is kept. *)
Definition M (A : Type) : Type := ClassState → result A * ClassState.

Definition ret {A} (a : A) : M A := λ st, (Ok a, st).
Definition bind {A B} (m : M A) (f : A → M B) : M B := λ st,
  match m st with
  | (Ok a, st') => f a st'
  | (Raise e, st') => (Raise e, st')
  end.
Definition lift {A} (r : result A) : M A := λ st, (r, st).
Definition modify (f : ClassState → ClassState) : M unit := λ st, (Ok tt, f st).
Definition get_state : M ClassState := λ st, (Ok st, st).

Declare Scope M_scope.
Delimit Scope M_scope with M.
Notation "x <- m ;; k" := (bind m (λ x, k))
  (at level 100, m at next level, right associativity) : M_scope.
Notation "m ;;; k" := (bind m (λ _, k))
  (at level 100, right associativity) : M_scope.

Section Create.
Variable env : environment.

Local Open Scope string_scope.
Local Open Scope M_scope.

(** [_increase_cached_size] (lines 180-182). *)
Definition _increase_cached_size (size : Z) : M unit :=
  modify (λ st, set_total_file_size (_total_file_size st + size) st).

(** [_get_raw_data] (lines 193-228), for [self._file_path = file_path]. *)
Definition _get_raw_data (file_path : pyval) : M pyval :=
  match which_ffprobe env with
  | None =>
      lift (Raise (mkExc RuntimeError
        (Some "ffprobe not found, please make sure you installed ffmpeg correctly.")))
  | Some ffprobe =>
      if String.eqb ffprobe EmptyString then
        lift (Raise (mkExc RuntimeError
          (Some "ffprobe not found, please make sure you installed ffmpeg correctly.")))
      else
        modify (λ st, set_probed (probed st ++ [file_path])%list st) ;;;
        match run_ffprobe env ffprobe file_path with
        | RunError e => lift (Raise e)
        | Exited returncode stdout =>
            if negb (returncode =? 0)%Z then
              lift (Raise (mkExc QueryError
                (Some ("[ERROR] Failed to execute ffprobe: "
                       +:+ called_process_error_str env returncode))))
            else if String.eqb stdout EmptyString then
              lift (Raise (mkExc QueryError
                (Some "Failed to get raw data from ffprobe.")))
            else
              match json_loads env stdout with
              | Some doc => ret doc
              | None => lift (builtin_error JSONDecodeError)
              end
        end
  end.

(** [_get_format_data] (lines 230-252), for [self._raw_info = raw]. *)
Definition _get_format_data (raw : pyval) : M FormatData.t :=
  _format <- lift (Py.get raw "format" (PDict [])) ;;
  _tags <- lift (Py.get _format "tags" (PDict [])) ;;
  _size <- lift (v ← Py.get _format "size" (PInt 0); Builtins.int v) ;;
  _duration <- lift (v ← Py.get _format "duration" (PInt 0); Builtins.float v) ;;
  _format_name <- lift (Py.get _format "format_name" (PStr "Unknown")) ;;
  _format_long_name <- lift (Py.get _format "format_long_name" _format_name) ;;
  _increase_cached_size _size ;;;
  score <- lift (v ← Py.get _format "probe_score" (PInt 0); Builtins.int v) ;;
  duration_str <- lift (_convert_duration_to_str _duration) ;;
  bitrate <- lift (v ← Py.get _format "bit_rate" (PInt 0); Builtins.int v) ;;
  encoder <- lift (Py.get _tags "ENCODER" (PStr "Unknown")) ;;
  encoding_info <- lift (Py.get _tags "ENCODING_INFO" (PStr "Unknown")) ;;
  ret {| FormatData.score := score;
         FormatData.size := _size;
         FormatData.duration := _duration;
         FormatData.duration_str := duration_str;
         FormatData.format := _format_name;
         FormatData.format_long_name := _format_long_name;
         FormatData.bitrate := bitrate;
         FormatData.encoder := encoder;
         FormatData.encoding_info := encoding_info |}.

(** [__new__] (lines 140-150) for the public class [MediaInfo], whose
    name does not start with an underscore.  The result is a
    reference into [heap]. *)
Definition __new__ (file_path : pyval) : M nat :=
  st <- get_state ;;
  present <- lift (Dict.contains file_path (_files st)) ;;
  (if negb present then
     let file := List.length (heap st) in
     modify (λ st, set_heap (heap st ++ [None])%list st) ;;;
     modify (λ st, set_files
               (Dict.update (PStr (py_str env file_path)) file (_files st)) st)
   else ret tt) ;;;
  st <- get_state ;;
  match Dict.lookup (PStr (py_str env file_path)) (_files st) with
  | Some file => ret file
  | None => lift (builtin_error KeyError)
  end.

(** [__init__] (lines 152-170). *)
Definition __init__ (self : nat) (file_path : pyval) (debug : bool) : M unit :=
  st <- get_state ;;
  match heap st !! self with
  | Some (Some _) => ret tt
  | _ =>
      modify (set_debug_mode debug) ;;;
      _raw_info <- _get_raw_data file_path ;;
      _format_data <- _get_format_data _raw_info ;;
      obj <- lift (_get_tracks_data env
               {| MediaInfo._file_path := file_path;
                  MediaInfo._raw_info := _raw_info;
                  MediaInfo._format_data := _format_data;
                  MediaInfo._tracks := [];
                  MediaInfo._tracks_by_type := ∅;
                  MediaInfo._video_tracks := [];
                  MediaInfo._audio_tracks := [];
                  MediaInfo._subtitle_tracks := [];
                  MediaInfo._attach_tracks := [];
                  MediaInfo._attach_fonts := 0 |}) ;;
      modify (λ st, set_heap (<[self := Some obj]> (heap st)) st)
  end.

(** The call [MediaInfo(file_path, debug)]: [__new__], then
    [__init__] on the object it returned. *)
Definition MediaInfo_call (file_path : pyval) (debug : bool) : M nat :=
  self <- __new__ file_path ;;
  __init__ self file_path debug ;;;
  ret self.

End Create.

(* ====================================================================== *)
(** * The [MediaProcessor] class ([core/_process_media.py]) *)
(* ====================================================================== *)

(** The attributes [_Processor.__init__] copies from the configuration
    ([core/_base.py], lines 49-61); [no_subdir] is [self.args.no_subdir]. *)
Record Processor : Type := mkProcessor {
  path : Path;
  debug : bool;
  quiet : bool;
  quiet_flow : bool;
  includes : list string;
  excludes : list string;
  extensions : list string;
  no_subdir : bool;
}.

(** What a path leads to: a regular file, a directory with its entries
    in the order [iterdir] yields them, or something that exists and is
    neither (a socket, a device).  A tree has no cycles, so neither has
    the walk. *)
#[warnings="-register-all"]
Inductive fsnode : Type :=
  | FsFile
  | FsDir (entries : list (string * fsnode))
  | FsOther.

Definition is_dir (n : fsnode) : bool :=
  match n with FsDir _ => true | _ => false end.
Definition is_file (n : fsnode) : bool :=
  match n with FsFile => true | _ => false end.

Definition nonempty {A} (l : list A) : bool :=
  match l with [] => false | _ => true end.

Section Walk.
Variable self : Processor.

(** [self.includes and not any(keyword in file.name ...)] *)
Definition misses_includes (file : Path) : bool :=
  nonempty (includes self)
  && negb (existsb (λ keyword, Str.contains keyword (PathOps.name file))
             (includes self)).

(** [self.excludes and any(keyword in file.name ...)] *)
Definition hits_excludes (file : Path) : bool :=
  nonempty (excludes self)
  && existsb (λ keyword, Str.contains keyword (PathOps.name file))
       (excludes self).

(** [self.extensions and file.suffix not in self.extensions] *)
Definition wrong_extension (file : Path) : bool :=
  nonempty (extensions self)
  && negb (existsb (String.eqb (PathOps.suffix file)) (extensions self)).

(** [_filter] (lines 59-83); [node] is what [file] leads to. *)
Definition _filter (file : Path) (node : fsnode) : bool :=
  if is_dir node then
    if misses_includes file || hits_excludes file then false else true
  else if is_file node then
    if misses_includes file || hits_excludes file || wrong_extension file
    then false else true
  else true.

(** The body of [_search_files] (lines 90-128) on an existing path;
    appending to the list that is passed along is the list's growth. *)
Fixpoint search_node (path : Path) (node : fsnode) (target_files : list Path)
  {struct node} : list Path :=
  match node with
  | FsFile =>
      if _filter path node then target_files ++ [path] else target_files
  | FsDir entries =>
      (fix iterdir (es : list (string * fsnode)) (target_files : list Path)
         {struct es} : list Path :=
         match es with
         | [] => target_files
         | (entry, child) :: rest =>
             let f := PathOps.joinpath path entry in
             if negb (_filter f child) then iterdir rest target_files
             else
               match child with
               | FsDir _ =>
                   if no_subdir self then iterdir rest target_files
                   else iterdir rest (search_node f child target_files)
               | FsFile => iterdir rest (target_files ++ [f])
               | FsOther => iterdir rest target_files
               end
         end) entries target_files
  | FsOther => target_files
  end.

(** [_search_files] (lines 85-128); [node] is [None] when the path
    does not exist. *)
Definition _search_files (path : Path) (node : option fsnode)
    (target_files : list Path) : result (list Path) :=
  match node with
  | None => Raise (mkExc FileNotFoundError None)
  | Some n => Ok (search_node path n target_files)
  end.

(** The call [self._search_files(self.path)] of [__init__] (line 44).
    The omitted argument is the list object created once, when the
    [def] statement ran; [defaults] is that object's content before
    the call and the second component its content after. *)
Definition search_from_default (node : option fsnode) (defaults : list Path)
  : result (list Path) * list Path :=
  match _search_files (path self) node defaults with
  | Ok found => (Ok found, found)
  | Raise e => (Raise e, defaults)
  end.


End Walk.

Section Catalog.
Variable env : environment.
Variable self : Processor.

Local Open Scope M_scope.

(** The loop of [_get_media_info] (lines 137-155). *)
Fixpoint catalog_loop (target_files : list Path) (extracted : Z)
    (data : gmap Z nat) : M (gmap Z nat) :=
  match target_files with
  | [] => ret data
  | file :: rest =>
      if String.eqb (PathOps.suffix file) ".mkv" then
        let extracted := extracted + 1 in
        info <- MediaInfo_call env (PPath file) (debug self) ;;
        catalog_loop rest extracted (<[extracted := info]> data)
      else catalog_loop rest extracted data
  end.

(** [_get_media_info] (lines 130-157); the catalog maps a sequence
    number to a reference to the instance. *)
Definition _get_media_info (target_files : list Path) : M (gmap Z nat) :=
  catalog_loop target_files 0 ∅.

End Catalog.

(* ====================================================================== *)
(** * Fixtures *)
(* ====================================================================== *)

(** A small run: one Matroska file with an H.264 video stream (index 0,
    1920x1080, tagged [eng]) and an AAC audio stream (index 1, two
    channels, tagged [eng]), probed by a tool that is installed. *)
Module Sample.

Local Open Scope string_scope.

Definition iso_639_2 : gmap string string :=
  <["eng" := "English"]> (<["jpn" := "Japanese"]> ∅).

Definition movie : Path := mkPath "films/movie.mkv".

Definition video_stream : pyval :=
  PDict [ ("index", PInt 0); ("codec_name", PStr "h264");
          ("codec_long_name", PStr "H.264 / AVC / MPEG-4 AVC / MPEG-4 part 10");
          ("codec_type", PStr "video");
          ("width", PInt 1920); ("height", PInt 1080);
          ("coded_width", PInt 1920); ("coded_height", PInt 1088);
          ("pix_fmt", PStr "yuv420p");
          ("disposition", PDict [("default", PInt 1); ("forced", PInt 0)]);
          ("tags", PDict [ ("language", PStr "eng");
                           ("DURATION", PStr "01:02:03.456000000");
                           ("NUMBER_OF_FRAMES", PStr "89272") ]) ].

Definition audio_stream : pyval :=
  PDict [ ("index", PInt 1); ("codec_name", PStr "aac");
          ("codec_type", PStr "audio");
          ("channels", PInt 2); ("sample_rate", PStr "48000");
          ("tags", PDict [("language", PStr "eng")]) ].

Definition subtitle_stream : pyval :=
  PDict [ ("index", PInt 2); ("codec_name", PStr "ass");
          ("codec_type", PStr "subtitle");
          ("tags", PDict [("language", PStr "eng")]) ].

Definition format_block : pyval :=
  PDict [ ("format_name", PStr "matroska,webm");
          ("duration", PStr "3723.456000"); ("size", PStr "1000");
          ("bit_rate", PStr "2148"); ("probe_score", PInt 100) ].

Definition document : pyval :=
  PDict [ ("streams", PList [video_stream; audio_stream]);
          ("format", format_block) ].

(** The tool's report, as text, and the parse of exactly that text. *)
Definition report : string := "{'streams': [...], 'format': {...}}".

Definition env : environment :=
  {| LANGUAGE_CODES := iso_639_2;
     which_ffprobe := Some "/usr/bin/ffprobe";
     run_ffprobe := λ _ _, Exited 0 report;
     called_process_error_str := λ status,
       "Command returned non-zero exit status " +:+ Str.of_Z status +:+ ".";
     json_loads := λ text, if String.eqb text report then Some document else None;
     str_other := λ _, EmptyString |}.


Definition without_tool : environment :=
  mkEnv iso_639_2 None (run_ffprobe env)
    (called_process_error_str env) (json_loads env) (str_other env).

(** Two streams of one type reporting one index. *)
Definition twin_a : pyval :=
  PDict [ ("index", PInt 0); ("codec_type", PStr "video");
          ("codec_name", PStr "h264") ].
Definition twin_b : pyval :=
  PDict [ ("index", PInt 0); ("codec_type", PStr "video");
          ("codec_name", PStr "hevc") ].

Definition processor : Processor :=
  {| path := movie; debug := false; quiet := false; quiet_flow := false;
     includes := []; excludes := []; extensions := [".mkv"; ".txt"];
     no_subdir := false |}.

End Sample.

(* ====================================================================== *)
(** * Vocabulary of the statements *)
(* ====================================================================== *)

(** [obj] is a dictionary without the key [key]. *)
Definition absent (key : string) (obj : pyval) : Prop :=
  ∃ d, obj = PDict d ∧ Py.assoc key d = None.

(** Every key of the dictionary is a [str]. *)
Definition str_keys {V} (d : pydict V) : Prop :=
  Forall (λ kv, ∃ s, kv.1 = PStr s) d.

(** The four stream types [_get_tracks_data] recognises. *)
Inductive kind : Set := KVideo | KAudio | KSubtitle | KAttachment.

Global Instance kind_eq_dec : EqDecision kind.
Proof. solve_decision. Defined.

Definition kind_name (k : kind) : string :=
  match k with
  | KVideo => "video"
  | KAudio => "audio"
  | KSubtitle => "subtitle"
  | KAttachment => "attachment"
  end.

(** The builder the loop dispatches to for a type. *)
Definition extract (env : environment) (k : kind) (track : pyval)
  : result TrackTypes :=
  match k with
  | KVideo => Video <$> _extract_video_info env track
  | KAudio => Audio <$> _extract_audio_info env track
  | KSubtitle => Subtitle <$> _extract_subtitle_info env track
  | KAttachment => Attach <$> _extract_attach_info track
  end.

(** A type's bucket, its records seen as [TrackTypes]. *)
Definition bucket (k : kind) (o : MediaInfo.t) : pydict TrackTypes :=
  match k with
  | KVideo => prod_map id Video <$> MediaInfo._video_tracks o
  | KAudio => prod_map id Audio <$> MediaInfo._audio_tracks o
  | KSubtitle => prod_map id Subtitle <$> MediaInfo._subtitle_tracks o
  | KAttachment => prod_map id Attach <$> MediaInfo._attach_tracks o
  end.

(** [total_<type>_tracks]. *)
Definition total_of (k : kind) (o : MediaInfo.t) : Z :=
  match k with
  | KVideo => MediaInfo.total_video_tracks o
  | KAudio => MediaInfo.total_audio_tracks o
  | KSubtitle => MediaInfo.total_subtitle_tracks o
  | KAttachment => MediaInfo.total_attach_tracks o
  end.

(** No two bindings of the dictionary have equal keys. *)
Definition keys_distinct {V} (d : pydict V) : Prop :=
  ∀ (i j : nat) ki vi kj vj,
    (i < j)%nat → d !! i = Some (ki, vi) → d !! j = Some (kj, vj) →
    Py.key_eq ki kj = false.

(** An instance as [__init__] has it just before [_get_tracks_data]. *)
Definition fresh_instance (file_path raw : pyval) (fd : FormatData.t)
  : MediaInfo.t :=
  {| MediaInfo._file_path := file_path;
     MediaInfo._raw_info := raw;
     MediaInfo._format_data := fd;
     MediaInfo._tracks := [];
     MediaInfo._tracks_by_type := ∅;
     MediaInfo._video_tracks := [];
     MediaInfo._audio_tracks := [];
     MediaInfo._subtitle_tracks := [];
     MediaInfo._attach_tracks := [];
     MediaInfo._attach_fonts := 0 |}.

(** The files of a list that pass the suffix test of [_get_media_info]. *)
Definition mkv_files (files : list Path) : list Path :=
  List.filter (λ file, String.eqb (PathOps.suffix file) ".mkv") files.


(* ====================================================================== *)
(** * The walk, entry by entry *)
(* ====================================================================== *)

(** What one entry of a directory contributes to the walk of that
    directory, started from an empty list (lines 103-126). *)
Definition entry_files (self : Processor) (path : Path)
    (entry : string * fsnode) : list Path :=
  let f := PathOps.joinpath path entry.1 in
  if negb (_filter self f entry.2) then []
  else
    match entry.2 with
    | FsDir _ => if no_subdir self then [] else search_node self f entry.2 []
    | FsFile => [f]
    | FsOther => []
    end.

(** [f] is a regular file of the tree at [path] that the walk can get
    to: the root itself when the root is a file, or a file below a
    directory root, each directory on the way (the root excepted)
    passing the filter, and none entered when [no_subdir] is set; the
    file itself passes the filter. *)
Inductive found_in (self : Processor) : Path → fsnode → Path → Prop :=
  | found_root path :
      _filter self path FsFile = true →
      found_in self path FsFile path
  | found_file path entries entry :
      (entry, FsFile) ∈ entries →
      _filter self (PathOps.joinpath path entry) FsFile = true →
      found_in self path (FsDir entries) (PathOps.joinpath path entry)
  | found_below path entries entry sub f :
      (entry, FsDir sub) ∈ entries →
      _filter self (PathOps.joinpath path entry) (FsDir sub) = true →
      no_subdir self = false →
      found_in self (PathOps.joinpath path entry) (FsDir sub) f →
      found_in self path (FsDir entries) f.

(** Every regular file of a tree, directories first to last. *)
Fixpoint all_files (path : Path) (node : fsnode) {struct node} : list Path :=
  match node with
  | FsFile => [path]
  | FsDir entries =>
      (fix below (es : list (string * fsnode)) : list Path :=
         match es with
         | [] => []
         | (entry, child) :: rest =>
             match child with
             | FsFile => [PathOps.joinpath path entry]
             | FsDir _ => all_files (PathOps.joinpath path entry) child
             | FsOther => []
             end ++ below rest
         end) entries
  | FsOther => []
  end.

(** The loop over [path.iterdir()] inside [_search_files] (lines
    103-126), by itself. *)
Definition iterdir_loop (self : Processor) (path : Path)
  : list (string * fsnode) → list Path → list Path :=
  fix iterdir (es : list (string * fsnode)) (target_files : list Path)
    {struct es} : list Path :=
    match es with
    | [] => target_files
    | (entry, child) :: rest =>
        let f := PathOps.joinpath path entry in
        if negb (_filter self f child) then iterdir rest target_files
        else
          match child with
          | FsDir _ =>
              if no_subdir self then iterdir rest target_files
              else iterdir rest (search_node self f child target_files)
          | FsFile => iterdir rest (target_files ++ [f])
          | FsOther => iterdir rest target_files
          end
    end.

(** A small tree for the walk: two files, a directory with two more,
    and a socket; and a processor that excludes samples. *)
Module SampleTree.

Local Open Scope string_scope.

Definition root : Path := mkPath "films".

Definition tree : fsnode :=
  FsDir [ ("movie.mkv", FsFile);
          ("notes.txt", FsFile);
          ("extras", FsDir [ ("clip.mkv", FsFile);
                             ("sample-trailer.mkv", FsFile) ]);
          ("control.sock", FsOther) ].

Definition processor : Processor :=
  {| path := root; debug := false; quiet := false; quiet_flow := false;
     includes := []; excludes := ["sample"]; extensions := [".mkv"];
     no_subdir := false |}.

Definition flat_processor : Processor :=
  {| path := root; debug := false; quiet := false; quiet_flow := false;
     includes := []; excludes := []; extensions := [".mkv"];
     no_subdir := true |}.

Definition plain_processor : Processor :=
  {| path := root; debug := false; quiet := false; quiet_flow := false;
     includes := []; excludes := []; extensions := [".mkv"];
     no_subdir := false |}.

Definition dotless_processor : Processor :=
  {| path := root; debug := false; quiet := false; quiet_flow := false;
     includes := []; excludes := []; extensions := ["mkv"; "mp4"];
     no_subdir := false |}.

Definition text_processor : Processor :=
  {| path := root; debug := false; quiet := false; quiet_flow := false;
     includes := []; excludes := []; extensions := [".mkv"; ".txt"];
     no_subdir := false |}.

End SampleTree.

(* ====================================================================== *)
(** * The configuration's keyword lists ([config.py]) *)
(* ====================================================================== *)

(** [config.SUPPORTED_EXTENSIONS] (lines 29-35). *)
Definition SUPPORTED_EXTENSIONS : list string :=
  [".mkv"; ".mp4"; ".avi"; ".mov"; ".wmv"]%string.

(** [x.strip()]. *)
Definition strip_text (x : string) : string :=
  Str.of_chars (Str.strip (Str.chars x)).

(** [_strip_args] (lines 114-116): the comma-separated fields of the
    argument, each stripped, the empty ones left out. *)
Definition _strip_args (arg : string) : list string :=
  List.filter (λ x, negb (String.eqb x EmptyString))
    (strip_text <$> Str.split_on "," arg).

(** [self._extensions] (lines 101-103) for the [--extensions] argument. *)
Definition config_extensions (arg : string) : list string :=
  match _strip_args arg with
  | [] => SUPPORTED_EXTENSIONS
  | given => given
  end.

(** [sep.join(l)]. *)
Fixpoint join (sep : string) (l : list string) : string :=
  match l with
  | [] => EmptyString
  | [x] => x
  | x :: rest => (x +:+ sep +:+ join sep rest)%string
  end.

(* ====================================================================== *)
(** * Reading tracks back ([_media_identifier.py], lines 446-454) *)
(* ====================================================================== *)

(** [getattr(self, f'_{track}_tracks', {})]: the four bucket attributes
    are [_video_tracks], [_audio_tracks], [_subtitle_tracks] and
    [_attach_tracks]; any other name has no attribute and gives the
    empty dictionary. *)
Definition tracks_attr (self : MediaInfo.t) (track : string)
  : pydict TrackTypes :=
  if String.eqb track "video" then bucket KVideo self
  else if String.eqb track "audio" then bucket KAudio self
  else if String.eqb track "subtitle" then bucket KSubtitle self
  else if String.eqb track "attach" then bucket KAttachment self
  else [].

(** [get]: the record of the track with the given index, [None] when
    there is none.  Keys are compared by value. *)
Definition MediaInfo_get (self : MediaInfo.t) (index : pyval)
  : result (option TrackTypes) :=
  if Py.hashable index then
    let track := default EmptyString (Dict.lookup index (MediaInfo._tracks self)) in
    if String.eqb track EmptyString then Ok None
    else Ok (Dict.lookup index (tracks_attr self track))
  else builtin_error TypeError.

(** The value is a JSON object. *)
Definition is_dict (v : pyval) : bool :=
  match v with PDict _ => true | _ => false end.

(** A stream the loop counts as a font: an attachment with an index
    whose codec name is one of the font codecs (lines 295-304). *)
Definition font_attachment (track : pyval) : bool :=
  match Py.get track "codec_type" (PStr "Unknown"),
        Py.get track "index" PNone,
        Py.get track "codec_name" (PStr EmptyString) with
  | Ok track_type, Ok index, Ok codec_name =>
      Py.eq_str track_type "attachment"
      && negb (Py.is_none index)
      && existsb (Py.eq_str codec_name) font_codecs
  | _, _, _ => false
  end.

(** A stream the loop passes over: an object whose [codec_type] is
    missing or none of the four. *)
Definition unrecognised (track : pyval) : Prop :=
  ∃ d, track = PDict d
       ∧ ∀ k, Py.eq_str (default (PStr "Unknown") (Py.assoc "codec_type" d))
                (kind_name k) = false.

(** The values of the index map are names of the four types. *)
Definition tracks_typed (self : MediaInfo.t) : Prop :=
  Forall (λ kv, ∃ k, kv.2 = kind_name k) (MediaInfo._tracks self).

(** What [__init__] leaves in place of [fresh_instance] before the
    loop starts is [fresh_instance] itself; the attachment example: two
    font attachments with one index. *)
Module SampleFonts.

Local Open Scope string_scope.

Definition font_a : pyval :=
  PDict [ ("index", PInt 3); ("codec_type", PStr "attachment");
          ("codec_name", PStr "ttf");
          ("tags", PDict [("filename", PStr "a.ttf")]) ].

Definition font_b : pyval :=
  PDict [ ("index", PInt 3); ("codec_type", PStr "attachment");
          ("codec_name", PStr "ttf");
          ("tags", PDict [("filename", PStr "b.ttf")]) ].

(** A data stream ([codec_type] none of the four) and a video stream
    without an index. *)
Definition data_stream : pyval :=
  PDict [ ("index", PInt 4); ("codec_type", PStr "data") ].

Definition unindexed_video : pyval :=
  PDict [ ("codec_type", PStr "video"); ("codec_name", PStr "h264") ].

Definition blank : MediaInfo.t :=
  fresh_instance (PPath Sample.movie) (PDict [])
    (FormatData.mk 0 0 Float.zero "00:00:00.000" PNone PNone 0 PNone PNone).

End SampleFonts.

(* ====================================================================== *)
(** * The registry and the byte counter *)
(* ====================================================================== *)


(** The sizes the format summaries of the instances report, added up. *)
Definition sizes (objs : list MediaInfo.t) : Z :=
  foldr (λ o acc, FormatData.size (MediaInfo._format_data o) + acc)%Z 0%Z objs.

(* ====================================================================== *)
(** * Constructing a [MediaProcessor] ([core/_base.py], [core/_process_media.py]) *)
(* ====================================================================== *)

(** What the call [MediaProcessor(config)] comes to: the object, an
    exception of the construction, or the [TaskExistsError] of
    [_Processor.__new__] with the key it reports. *)
Inductive outcome (A : Type) : Type :=
  | Built (a : A)
  | Failed (e : pyexc)
  | TaskExists (key : string).
Arguments Built {A} a.
Arguments Failed {A} e.
Arguments TaskExists {A} key.

(** What a run shares between processors: the keys of
    [_Processor._tasks] in insertion order, the content of the default
    list of [_search_files], and the class state of [MediaInfo]. *)
Record RunState : Type := mkRun {
  _tasks : list string;
  default_files : list Path;
  media : ClassState;
}.

(** The attributes [_MediaProcessor.__init__] adds (lines 45-46). *)
Record MediaProcessor : Type := mkMediaProcessor {
  _total_files : Z;
  _data : gmap Z nat;
}.

(** [_count_files] (lines 48-57): the length of the list; the rest of
    the body prints. *)
Definition _count_files (files : list Path) : Z := Z.of_nat (List.length files).

Section Construct.
Variable env : environment.
Variable self : Processor.

(** [key = str(config.path)] ([core/_base.py], line 37). *)
Definition task_key : string := path_str (path self).

(** [MediaProcessor(config)]: [_Processor.__new__] (lines 31-47 of
    [core/_base.py]) on the public class, then, when it returned an
    object, [_MediaProcessor.__init__] (lines 41-46) on that object,
    which has no [created] yet; [node] is what [config.path] leads to. *)
Definition MediaProcessor_call (node : option fsnode) (rs : RunState)
  : outcome MediaProcessor * RunState :=
  if existsb (String.eqb task_key) (_tasks rs) then (TaskExists task_key, rs)
  else
    let tasks := (_tasks rs ++ [task_key])%list in
    match search_from_default self node (default_files rs) with
    | (Raise e, defaults) => (Failed e, mkRun tasks defaults (media rs))
    | (Ok _target_files, defaults) =>
        let total := _count_files _target_files in
        match _get_media_info env self _target_files (media rs) with
        | (Raise e, st) => (Failed e, mkRun tasks defaults st)
        | (Ok data, st) =>
            (Built (mkMediaProcessor total data), mkRun tasks defaults st)
        end
    end.

End Construct.

Definition initial_run : RunState := mkRun [] [] initial_state.

(* ====================================================================== *)
(** * Properties *)
(* ====================================================================== *)

Ltac unfold_result :=
  unfold mbind, result_bind, fmap, result_fmap, mret, result_ret,
    builtin_error in *.

Ltac unfold_M := unfold bind, ret, lift, modify, get_state in *.

(** ** What the runtime operations can raise *)


Lemma get_dict d key dflt :
  Py.get (PDict d) key dflt = Ok (default dflt (Py.assoc key d)).
Proof. reflexivity. Qed.


Lemma float_str_raises s e :
  Builtins.float (PStr s) = Raise e → exc_cls e = ValueError.
Proof.
  simpl. unfold_result. destruct (Builtins.float_of_string s); [discriminate|].
  intros [= <-]; reflexivity.
Qed.

Lemma mul_int_3600 h : Builtins.mul_int h 3600 = Ok (Float.mul h (Float.of_Z 3600)).
Proof. reflexivity. Qed.

Lemma mul_int_60 m : Builtins.mul_int m 60 = Ok (Float.mul m (Float.of_Z 60)).
Proof. reflexivity. Qed.



(** The value in seconds is the integer [0] or a float. *)
Lemma convert_duration_to_sec_shape v sec :
  _convert_duration_to_sec v = Ok sec →
  sec = PInt 0 ∨ ∃ x, sec = PFloat x.
Proof.
  unfold _convert_duration_to_sec.
  destruct (Py.truthy v); cbn [negb]; [|intros [= <-]; auto].
  unfold_result.
  destruct v; try discriminate.
  destruct (unpack_hms _) as [[[h m] s0]|e'] eqn:Hu; [|discriminate].
  rewrite mul_int_3600, mul_int_60. intros [= <-]. eauto.
Qed.



(** ** C9: duration formatting and parsing *)

(** C9. Formatting 3723.456 seconds gives ["01:02:03.456"], and parsing
    that text gives back the very same double (so the round trip is
    within any tolerance).  [x] is the double the literal [3723.456]
    denotes. *)
Theorem duration_round_trip_3723_456 :
  ∃ x : spec_float,
    Builtins.float (PStr "3723.456") = Ok x
    ∧ _convert_duration_to_str x = Ok "01:02:03.456"%string
    ∧ _convert_duration_to_sec (PStr "01:02:03.456") = Ok (PFloat x).
Proof.
  exists (S754_finite false 8187966335024628 (-41)).
  repeat split; vm_compute; reflexivity.
Qed.

(** The round trip is not the identity on every millisecond count:
    61.029 comes back one unit in the last place lower. *)
Example duration_round_trip_61_029 :
  ∃ x y : spec_float,
    Builtins.float (PStr "61.029") = Ok x
    ∧ _convert_duration_to_str x = Ok "00:01:01.029"%string
    ∧ _convert_duration_to_sec (PStr "00:01:01.029") = Ok (PFloat y)
    ∧ x ≠ y
    ∧ Float.ltb (Float.sub x y) (Float.of_ratio false 1 1000000000) = true.
Proof.
  exists (S754_finite false 8589068176837313 (-47)),
         (S754_finite false 8589068176837312 (-47)).
  repeat split; try (vm_compute; reflexivity). discriminate.
Qed.

(** ** C5: frame-rate derivation *)




(** Nor is the result always finite: a [DURATION] of ["nan:0:0"] gives a
    NaN frame rate, a frame count beyond the double range makes the
    division raise [OverflowError], and a duration of the smallest
    positive double gives an infinite frame rate. *)
Example derive_fps_nan :
  derive_fps (PDict [("DURATION", PStr "nan:0:0"); ("NUMBER_OF_FRAMES", PStr "100")])
  = Ok (PStr "nan:0:0", PFloat S754_nan, PFloat S754_nan).
Proof. vm_compute. reflexivity. Qed.

Example derive_fps_overflow :
  derive_fps (PDict [("DURATION", PStr "0:0:1"); ("NUMBER_OF_FRAMES", PInt (10 ^ 309))])
  = Raise (mkExc OverflowError None).
Proof. vm_compute. reflexivity. Qed.

Example derive_fps_infinite :
  derive_fps (PDict [("DURATION", PStr "0:0:5e-324"); ("NUMBER_OF_FRAMES", PStr "100")])
  = Ok (PStr "0:0:5e-324", PFloat (S754_finite false 1 (-1074)),
        PFloat (S754_infinity false)).
Proof. vm_compute. reflexivity. Qed.

(** ** C3: defaults of the format summary *)

Lemma get_absent key obj dflt : absent key obj → Py.get obj key dflt = Ok dflt.
Proof. intros (d & -> & H). simpl. rewrite H. reflexivity. Qed.

(** The steps of a successful [_get_format_data], one by one. *)
Lemma get_format_data_ok raw st fd st' :
  _get_format_data raw st = (Ok fd, st') →
  ∃ fmt tags vsize vdur vscore vbr,
    Py.get raw "format" (PDict []) = Ok fmt
    ∧ Py.get fmt "tags" (PDict []) = Ok tags
    ∧ Py.get fmt "size" (PInt 0) = Ok vsize
    ∧ Builtins.int vsize = Ok (FormatData.size fd)
    ∧ Py.get fmt "duration" (PInt 0) = Ok vdur
    ∧ Builtins.float vdur = Ok (FormatData.duration fd)
    ∧ Py.get fmt "format_name" (PStr "Unknown") = Ok (FormatData.format fd)
    ∧ Py.get fmt "format_long_name" (FormatData.format fd)
        = Ok (FormatData.format_long_name fd)
    ∧ Py.get fmt "probe_score" (PInt 0) = Ok vscore
    ∧ Builtins.int vscore = Ok (FormatData.score fd)
    ∧ _convert_duration_to_str (FormatData.duration fd)
        = Ok (FormatData.duration_str fd)
    ∧ Py.get fmt "bit_rate" (PInt 0) = Ok vbr
    ∧ Builtins.int vbr = Ok (FormatData.bitrate fd)
    ∧ Py.get tags "ENCODER" (PStr "Unknown") = Ok (FormatData.encoder fd)
    ∧ Py.get tags "ENCODING_INFO" (PStr "Unknown")
        = Ok (FormatData.encoding_info fd)
    ∧ st' = set_total_file_size (_total_file_size st + FormatData.size fd) st.
Proof.
  unfold _get_format_data, _increase_cached_size. unfold_M.
  unfold mbind, result_bind.
  destruct (Py.get raw "format" _) as [fmt|] eqn:E1; [|discriminate].
  destruct (Py.get fmt "tags" _) as [tags|] eqn:E2; [|discriminate].
  destruct (Py.get fmt "size" _) as [vsize|] eqn:E3; [|discriminate].
  destruct (Builtins.int vsize) as [sz|] eqn:E4; [|discriminate].
  destruct (Py.get fmt "duration" _) as [vdur|] eqn:E5; [|discriminate].
  destruct (Builtins.float vdur) as [dur|] eqn:E6; [|discriminate].
  destruct (Py.get fmt "format_name" _) as [name|] eqn:E7; [|discriminate].
  destruct (Py.get fmt "format_long_name" _) as [long|] eqn:E8; [|discriminate].
  destruct (Py.get fmt "probe_score" _) as [vscore|] eqn:E9; [|discriminate].
  destruct (Builtins.int vscore) as [score|] eqn:E10; [|discriminate].
  destruct (_convert_duration_to_str dur) as [dstr|] eqn:E11; [|discriminate].
  destruct (Py.get fmt "bit_rate" _) as [vbr|] eqn:E12; [|discriminate].
  destruct (Builtins.int vbr) as [br|] eqn:E13; [|discriminate].
  destruct (Py.get tags "ENCODER" _) as [enc|] eqn:E14; [|discriminate].
  destruct (Py.get tags "ENCODING_INFO" _) as [info|] eqn:E15; [|discriminate].
  intros [= <- <-]. simpl.
  exists fmt, tags, vsize, vdur, vscore, vbr. repeat split; assumption.
Qed.

(** C3, as the code has it.  In a format summary that was built, a
    numeric field missing from the format block is 0 (the duration
    [0.0], shown as ["00:00:00.000"]), a missing short format name,
    encoder or encoding-info tag is ["Unknown"], and a missing long
    format name is the short format name. *)
Theorem format_data_defaults raw st fd st' fmt tags :
  _get_format_data raw st = (Ok fd, st') →
  Py.get raw "format" (PDict []) = Ok fmt →
  Py.get fmt "tags" (PDict []) = Ok tags →
  (absent "size" fmt → FormatData.size fd = 0)
  ∧ (absent "duration" fmt →
       FormatData.duration fd = Float.zero
       ∧ FormatData.duration_str fd = "00:00:00.000"%string)
  ∧ (absent "bit_rate" fmt → FormatData.bitrate fd = 0)
  ∧ (absent "probe_score" fmt → FormatData.score fd = 0)
  ∧ (absent "format_name" fmt → FormatData.format fd = PStr "Unknown")
  ∧ (absent "format_long_name" fmt →
       FormatData.format_long_name fd = FormatData.format fd)
  ∧ (absent "ENCODER" tags → FormatData.encoder fd = PStr "Unknown")
  ∧ (absent "ENCODING_INFO" tags → FormatData.encoding_info fd = PStr "Unknown").
Proof.
  intros H Hfmt Htags.
  apply get_format_data_ok in H
    as (fmt' & tags' & vsize & vdur & vscore & vbr & E1 & E2 & E3 & E4 & E5
        & E6 & E7 & E8 & E9 & E10 & E11 & E12 & E13 & E14 & E15 & _).
  rewrite Hfmt in E1. injection E1 as <-.
  rewrite Htags in E2. injection E2 as <-.
  repeat apply conj; intros Ha.
  - rewrite (get_absent _ _ _ Ha) in E3. injection E3 as <-.
    simpl in E4. congruence.
  - rewrite (get_absent _ _ _ Ha) in E5. injection E5 as <-.
    change (Builtins.float (PInt 0)) with (Ok Float.zero) in E6.
    injection E6 as E6. rewrite <- E6 in E11.
    change (_convert_duration_to_str Float.zero)
      with (Ok "00:00:00.000"%string) in E11.
    split; congruence.
  - rewrite (get_absent _ _ _ Ha) in E12. injection E12 as <-.
    simpl in E13. congruence.
  - rewrite (get_absent _ _ _ Ha) in E9. injection E9 as <-.
    simpl in E10. congruence.
  - rewrite (get_absent _ _ _ Ha) in E7. congruence.
  - rewrite (get_absent _ _ _ Ha) in E8. congruence.
  - rewrite (get_absent _ _ _ Ha) in E14. congruence.
  - rewrite (get_absent _ _ _ Ha) in E15. congruence.
Qed.

(** A report whose format block names only the short format. *)
Lemma format_data_defaults_witness :
  ∃ fd st',
    _get_format_data
      (PDict [("format", PDict [("format_name", PStr "matroska,webm")])])
      initial_state = (Ok fd, st')
    ∧ FormatData.size fd = 0
    ∧ FormatData.format_long_name fd = PStr "matroska,webm"
    ∧ FormatData.encoder fd = PStr "Unknown".
Proof.
  set (fmt := PDict [("format_name", PStr "matroska,webm")]).
  set (raw := PDict [("format", fmt)]).
  destruct (_get_format_data raw initial_state) as [r st'] eqn:E.
  assert (Hr : ∃ fd, r = Ok fd) by (vm_compute in E; injection E as <- _; eauto).
  destruct Hr as [fd ->].
  pose proof (format_data_defaults raw initial_state fd st' fmt
                (PDict []) E eq_refl eq_refl)
    as (Hsize & _ & _ & _ & _ & Hlong & Henc & _).
  exists fd, st'. repeat split.
  - apply Hsize. exists [("format_name", PStr "matroska,webm")]. split; reflexivity.
  - rewrite Hlong by (exists [("format_name", PStr "matroska,webm")]; split; reflexivity).
    vm_compute in E. injection E as <- _. reflexivity.
  - apply Henc. exists []. split; reflexivity.
Defined.

(** A report without a format block: every field is its default. *)
Example format_data_of_empty_report :
  _get_format_data (PDict []) initial_state =
  (Ok (FormatData.mk 0 0 Float.zero "00:00:00.000" (PStr "Unknown")
         (PStr "Unknown") 0 (PStr "Unknown") (PStr "Unknown")),
   initial_state).
Proof. vm_compute. reflexivity. Qed.

(** C3 as stated fails: with [format_name] present and
    [format_long_name] absent, the long name is the short name, not
    ["Unknown"]. *)
Lemma long_name_defaults_to_short_name :
  ∃ fd st',
    _get_format_data
      (PDict [("format", PDict [("format_name", PStr "matroska,webm")])])
      initial_state = (Ok fd, st')
    ∧ absent "format_long_name" (PDict [("format_name", PStr "matroska,webm")])
    ∧ FormatData.format_long_name fd = PStr "matroska,webm"
    ∧ FormatData.format_long_name fd ≠ PStr "Unknown".
Proof.
  eexists _, _. split; [vm_compute; reflexivity|].
  split; [exists [("format_name", PStr "matroska,webm")]; split; reflexivity|].
  split; [reflexivity|discriminate].
Qed.

(** ** C4: language of audio and subtitle tracks *)

(** The audio builder looks the language up under the stream's own
    [language] key; what the stream's [tags] hold plays no part. *)
Lemma audio_language_source env track a :
  _extract_audio_info env track = Ok a →
  ∃ key, Py.get track "language" (PStr EmptyString) = Ok key
         ∧ language_get env key = Ok (AudioTrack.language a).
Proof.
  unfold _extract_audio_info. unfold mbind, result_bind.
  destruct track; try discriminate. rewrite !get_dict.
  destruct (language_get env _) as [lang|] eqn:El; [|discriminate].
  intros [= <-]. eexists. split; [reflexivity|exact El].
Qed.

Lemma subtitle_language_source env track s :
  _extract_subtitle_info env track = Ok s →
  ∃ key, Py.get track "language" (PStr EmptyString) = Ok key
         ∧ language_get env key = Ok (SubtitleTrack.language s).
Proof.
  unfold _extract_subtitle_info. unfold mbind, result_bind.
  destruct track; try discriminate. rewrite !get_dict.
  destruct (language_get env _) as [lang|] eqn:El; [|discriminate].
  destruct (Py.get _ "forced" _); [|discriminate].
  destruct (Py.get _ "default" _); [|discriminate].
  destruct (Py.get _ "hearing_impaired" _); [|discriminate].
  destruct (Py.get _ "visual_impaired" _); [|discriminate].
  destruct (Py.get _ "filename" _); [|discriminate].
  destruct (Py.get _ "mimetype" _); [|discriminate].
  intros [= <-]. eexists. split; [reflexivity|exact El].
Qed.

(** C4 at the failing input.  With ["eng"] mapped to ["English"], an
    audio stream and a subtitle stream tagged [tags.language = "eng"]
    both come out as ["Unknown"], while the video builder, which does
    read [tags.language], answers ["English"] for the same tags. *)
Theorem tagged_language_ignored :
  LANGUAGE_CODES Sample.env !! "eng"%string = Some "English"%string
  ∧ AudioTrack.language <$> _extract_audio_info Sample.env Sample.audio_stream
    = Ok "Unknown"%string
  ∧ SubtitleTrack.language
      <$> _extract_subtitle_info Sample.env Sample.subtitle_stream
    = Ok "Unknown"%string
  ∧ VideoTrack.language <$> _extract_video_info Sample.env Sample.video_stream
    = Ok "English"%string.
Proof. repeat split; vm_compute; reflexivity. Qed.

(** ** C2: how a probe fails *)

Section Probe.
Variable env : environment.
Variable tool : string.
Hypothesis tool_found : which_ffprobe env = Some tool.
Hypothesis tool_named : tool ≠ EmptyString.

End Probe.





(** ** Dictionaries *)

Section DictFacts.
Context {V : Type}.
Implicit Types (d : pydict V) (k : pyval) (v : V).


Lemma update_absent k v d :
  Dict.lookup k d = None → Dict.update k v d = d ++ [(k, v)].
Proof.
  induction d as [|[k0 v0] d IH]; simpl; [reflexivity|].
  destruct (Py.key_eq k0 k); [discriminate|].
  intros H. rewrite IH by exact H. reflexivity.
Qed.

Lemma update_present k v d :
  is_Some (Dict.lookup k d) → List.length (Dict.update k v d) = List.length d.
Proof.
  induction d as [|[k0 v0] d IH]; simpl; [intros [? [=]]|].
  destruct (Py.key_eq k0 k); [reflexivity|].
  intros H. simpl. rewrite IH by exact H. reflexivity.
Qed.



(** [store_first] on a hashable index: the bucket as it was when the
    index is already a key, and one binding longer when it is not. *)
Lemma store_first_spec k v d :
  Py.hashable k = true →
  store_first k v d =
    Ok (match Dict.lookup k d with Some _ => d | None => d ++ [(k, v)] end).
Proof.
  intros Hh. unfold store_first, Dict.contains, Dict.setitem. rewrite Hh.
  unfold mbind, result_bind.
  destruct (Dict.lookup k d) as [x|] eqn:E.
  - rewrite bool_decide_eq_true_2 by eauto. reflexivity.
  - rewrite bool_decide_eq_false_2 by (intros [? [=]]).
    rewrite update_absent by exact E. reflexivity.
Qed.

Lemma store_first_unhashable k v d :
  Py.hashable k = false → store_first k v d = Raise (mkExc TypeError None).
Proof.
  intros Hh. unfold store_first, Dict.contains. rewrite Hh. reflexivity.
Qed.
End DictFacts.

Lemma lookup_view {V W} (f : V → W) k (d : pydict V) :
  Dict.lookup k (prod_map id f <$> d) = f <$> Dict.lookup k d.
Proof.
  induction d as [|[k0 v0] d IH]; simpl; [reflexivity|].
  destruct (Py.key_eq k0 k); [reflexivity|exact IH].
Qed.

Lemma keys_distinct_view {V W} (f : V → W) (d : pydict V) :
  keys_distinct d → keys_distinct (prod_map id f <$> d).
Proof.
  intros Hd i j ki vi kj vj Hij Hi Hj.
  rewrite list_lookup_fmap in Hi, Hj.
  destruct (d !! i) as [[ki' vi']|] eqn:Ei; [|discriminate].
  destruct (d !! j) as [[kj' vj']|] eqn:Ej; [|discriminate].
  simpl in Hi, Hj. injection Hi as <- _. injection Hj as <- _.
  eapply Hd; eauto.
Qed.

(** Equal keys are both hashable, and neither or both are [None]. *)
Lemma key_eq_hashable a b :
  Py.key_eq a b = true →
  Py.hashable a = true ∧ Py.hashable b = true ∧ (a = PNone ↔ b = PNone).
Proof.
  destruct a, b; simpl; try discriminate; intros _;
    (split; [reflexivity|split; [reflexivity|split; congruence]]).
Qed.

(** ** The classification loop *)

Lemma is_none_false v : v ≠ PNone → Py.is_none v = false.
Proof. destruct v; simpl; congruence. Qed.

Lemma is_none_true v : Py.is_none v = true → v = PNone.
Proof. destruct v; simpl; congruence. Qed.

(** Lines 320-324 on a hashable index. *)
Lemma record_track_spec index ty self :
  Py.hashable index = true →
  record_track index ty self =
    Ok (MediaInfo.set_tracks
          (Dict.update index ty (MediaInfo._tracks self))
          (<[ty := default [] (MediaInfo._tracks_by_type self !! ty) ++ [index]]>
             (MediaInfo._tracks_by_type self))
          self).
Proof.
  intros Hh. unfold record_track, Dict.setitem. rewrite Hh.
  cbn [mbind result_bind]. do 2 f_equal.
  apply map_eq. intros key.
  destruct (decide (ty = key)) as [<-|Hne].
  - rewrite lookup_alter_eq, lookup_insert_eq.
    destruct (MediaInfo._tracks_by_type self !! ty) as [l|] eqn:E; simpl.
    + rewrite E. reflexivity.
    + rewrite lookup_insert_eq. reflexivity.
  - rewrite lookup_alter_ne, lookup_insert_ne by exact Hne.
    destruct (MediaInfo._tracks_by_type self !! ty) as [l|] eqn:E; simpl.
    + reflexivity.
    + rewrite lookup_insert_ne by exact Hne. reflexivity.
Qed.

Lemma view_store {V} (f : V → TrackTypes) index (v : V) (d : pydict V) :
  prod_map id f <$>
    match Dict.lookup index d with Some _ => d | None => d ++ [(index, v)] end
  = match Dict.lookup index (prod_map id f <$> d) with
    | Some _ => prod_map id f <$> d
    | None => (prod_map id f <$> d) ++ [(index, f v)]
    end.
Proof.
  rewrite lookup_view. destruct (Dict.lookup index d); simpl; [reflexivity|].
  rewrite fmap_app. reflexivity.
Qed.

Ltac classify_tail Hnone Hhash :=
  cbn [mbind result_bind track_index] in *;
  rewrite (is_none_false _ Hnone);
  rewrite (store_first_spec _ _ _ Hhash); cbn [mbind result_bind];
  rewrite (record_track_spec _ _ _ Hhash);
  eexists; split; [reflexivity|];
  split; [cbn; apply view_store|];
  split; [intros k' Hk'; destruct k'; try congruence; reflexivity|];
  split; reflexivity.

(** A stream of a recognised type whose record has an index: the bucket
    takes the record unless the index is already a key; the index map
    and the per-type index list take the index in either case. *)
Lemma classify_recognised env k self track d :
  Py.get track "codec_type" (PStr "Unknown") = Ok (PStr (kind_name k)) →
  extract env k track = Ok d →
  track_index d ≠ PNone → Py.hashable (track_index d) = true →
  ∃ self',
    classify env self track = Ok self'
    ∧ bucket k self' =
        match Dict.lookup (track_index d) (bucket k self) with
        | Some _ => bucket k self
        | None => bucket k self ++ [(track_index d, d)]
        end
    ∧ (∀ k', k' ≠ k → bucket k' self' = bucket k' self)
    ∧ MediaInfo._tracks self' =
        Dict.update (track_index d) (kind_name k) (MediaInfo._tracks self)
    ∧ MediaInfo._tracks_by_type self' =
        <[kind_name k :=
            default [] (MediaInfo._tracks_by_type self !! kind_name k)
            ++ [track_index d]]> (MediaInfo._tracks_by_type self).
Proof.
  intros Hty Hex Hnone Hhash. unfold classify. rewrite Hty.
  destruct k; cbn -[_extract_video_info _extract_audio_info _extract_subtitle_info
         _extract_attach_info store_first record_track existsb] in *.
  - destruct (_extract_video_info env track) as [v|] eqn:Ev; [|discriminate].
    cbn in Hex. injection Hex as <-. classify_tail Hnone Hhash.
  - destruct (_extract_audio_info env track) as [v|] eqn:Ev; [|discriminate].
    cbn in Hex. injection Hex as <-. classify_tail Hnone Hhash.
  - destruct (_extract_subtitle_info env track) as [v|] eqn:Ev; [|discriminate].
    cbn in Hex. injection Hex as <-. classify_tail Hnone Hhash.
  - destruct (_extract_attach_info track) as [v|] eqn:Ev; [|discriminate].
    cbn in Hex. injection Hex as <-.
    cbn [mbind result_bind track_index] in *.
    rewrite (is_none_false _ Hnone).
    destruct track; try discriminate. rewrite get_dict. cbn [mbind result_bind].
    rewrite (store_first_spec _ _ _ Hhash). cbn [mbind result_bind].
    rewrite (record_track_spec _ _ _ Hhash).
    eexists; split; [reflexivity|].
    split; [destruct (existsb _ _); cbn; apply view_store|].
    split; [intros k' Hk'; destruct k'; try congruence;
            destruct (existsb _ _); reflexivity|].
    split; destruct (existsb _ _); reflexivity.
Qed.

Lemma eq_str_true v s : Py.eq_str v s = true → v = PStr s.
Proof.
  destruct v; simpl; try discriminate. intros H.
  apply String.eqb_eq in H. congruence.
Qed.

(** A successful iteration either left the instance alone (a
    [continue]) or handled a stream of a recognised type whose record
    has a hashable index. *)
Lemma classify_inv env self track self' :
  classify env self track = Ok self' →
  self' = self
  ∨ ∃ k d,
      Py.get track "codec_type" (PStr "Unknown") = Ok (PStr (kind_name k))
      ∧ extract env k track = Ok d
      ∧ track_index d ≠ PNone
      ∧ Py.hashable (track_index d) = true.
Proof.
  unfold classify.
  destruct (Py.get track "codec_type" _) as [ty|] eqn:Ety; [|discriminate].
  cbn [mbind result_bind].
  destruct (Py.eq_str ty "video") eqn:E1;
    [|destruct (Py.eq_str ty "audio") eqn:E2;
      [|destruct (Py.eq_str ty "subtitle") eqn:E3;
        [|destruct (Py.eq_str ty "attachment") eqn:E4]]].
  - apply eq_str_true in E1 as ->.
    destruct (_extract_video_info env track) as [v|] eqn:Ev; [|discriminate].
    cbn [mbind result_bind].
    destruct (Py.is_none (VideoTrack.index v)) eqn:En; [intros [= <-]; auto|].
    destruct (Py.hashable (VideoTrack.index v)) eqn:Eh;
      [|rewrite store_first_unhashable by exact Eh; discriminate].
    intros _. right. exists KVideo, (Video v). cbn. rewrite Ev.
    repeat split; auto. intros E; rewrite E in En; discriminate.
  - apply eq_str_true in E2 as ->.
    destruct (_extract_audio_info env track) as [v|] eqn:Ev; [|discriminate].
    cbn [mbind result_bind].
    destruct (Py.is_none (AudioTrack.index v)) eqn:En; [intros [= <-]; auto|].
    destruct (Py.hashable (AudioTrack.index v)) eqn:Eh;
      [|rewrite store_first_unhashable by exact Eh; discriminate].
    intros _. right. exists KAudio, (Audio v). cbn. rewrite Ev.
    repeat split; auto. intros E; rewrite E in En; discriminate.
  - apply eq_str_true in E3 as ->.
    destruct (_extract_subtitle_info env track) as [v|] eqn:Ev; [|discriminate].
    cbn [mbind result_bind].
    destruct (Py.is_none (SubtitleTrack.index v)) eqn:En; [intros [= <-]; auto|].
    destruct (Py.hashable (SubtitleTrack.index v)) eqn:Eh;
      [|rewrite store_first_unhashable by exact Eh; discriminate].
    intros _. right. exists KSubtitle, (Subtitle v). cbn. rewrite Ev.
    repeat split; auto. intros E; rewrite E in En; discriminate.
  - apply eq_str_true in E4 as ->.
    destruct (_extract_attach_info track) as [v|] eqn:Ev; [|discriminate].
    cbn [mbind result_bind].
    destruct (Py.is_none (AttachTrack.index v)) eqn:En; [intros [= <-]; auto|].
    destruct (Py.get track "codec_name" _); [|discriminate].
    cbn [mbind result_bind].
    destruct (Py.hashable (AttachTrack.index v)) eqn:Eh;
      [|rewrite store_first_unhashable by exact Eh; discriminate].
    intros _. right. exists KAttachment, (Attach v). cbn. rewrite Ev.
    repeat split; auto. intros E; rewrite E in En; discriminate.
  - intros [= <-]. auto.
Qed.



Lemma get_tracks_data_loop env self self' :
  _get_tracks_data env self = Ok self' →
  ∃ streams tracks,
    Py.get (MediaInfo._raw_info self) "streams" (PList []) = Ok streams
    ∧ py_iter streams = Ok tracks
    ∧ foldM (classify env) self tracks = Ok self'.
Proof.
  unfold _get_tracks_data. unfold mbind, result_bind.
  destruct (Py.get _ "streams" _) as [streams|]; [|discriminate].
  destruct (py_iter streams) as [tracks|] eqn:Ei; [|discriminate].
  intros H. exists streams, tracks. auto.
Qed.


(** Two streams of one type reporting one index, alone in a document:
    the state the loop ends in. *)
Lemma two_streams_same_index env file_path raw fd k s1 s2 d1 d2 :
  Py.get raw "streams" (PList []) = Ok (PList [s1; s2]) →
  Py.get s1 "codec_type" (PStr "Unknown") = Ok (PStr (kind_name k)) →
  Py.get s2 "codec_type" (PStr "Unknown") = Ok (PStr (kind_name k)) →
  extract env k s1 = Ok d1 →
  extract env k s2 = Ok d2 →
  track_index d1 ≠ PNone →
  Py.key_eq (track_index d1) (track_index d2) = true →
  ∃ self',
    _get_tracks_data env (fresh_instance file_path raw fd) = Ok self'
    ∧ bucket k self' = [(track_index d1, d1)]
    ∧ MediaInfo._tracks self' = [(track_index d1, kind_name k)]
    ∧ MediaInfo._tracks_by_type self' !! kind_name k
      = Some [track_index d1; track_index d2].
Proof.
  intros Hraw Ht1 Ht2 He1 He2 Hn1 Heq.
  destruct (key_eq_hashable _ _ Heq) as (Hh1 & Hh2 & Hnone).
  assert (Hn2 : track_index d2 ≠ PNone) by (intros E; apply Hn1, Hnone, E).
  set (self0 := fresh_instance file_path raw fd).
  destruct (classify_recognised env k self0 s1 d1 Ht1 He1 Hn1 Hh1)
    as (self1 & Hc1 & Hb1 & _ & Htr1 & Hby1).
  destruct (classify_recognised env k self1 s2 d2 Ht2 He2 Hn2 Hh2)
    as (self2 & Hc2 & Hb2 & _ & Htr2 & Hby2).
  assert (Hb0 : bucket k self0 = []) by (destruct k; reflexivity).
  rewrite Hb0 in Hb1. simpl in Hb1.
  rewrite Hb1 in Hb2. simpl in Hb2. rewrite Heq in Hb2.
  exists self2. split; [|split; [exact Hb2|split]].
  - unfold _get_tracks_data. change (MediaInfo._raw_info self0) with raw.
    rewrite Hraw. cbn [mbind result_bind py_iter foldM].
    rewrite Hc1. cbn [mbind result_bind]. rewrite Hc2. reflexivity.
  - rewrite Htr2, Htr1. simpl. rewrite Heq. reflexivity.
  - rewrite Hby2, lookup_insert_eq, Hby1, lookup_insert_eq. reflexivity.
Qed.

Lemma total_of_bucket k o : total_of k o = Z.of_nat (List.length (bucket k o)).
Proof.
  destruct k; unfold total_of, bucket; cbn;
    unfold Dict.len; rewrite length_fmap; reflexivity.
Qed.

(** ** C6: a duplicate index within a type *)



(** ** C10: the index lists count duplicates *)

(** C10. For a stream of a recognised type whose record has a (hashable)
    index, the iteration assigns the index in the index-to-type map and
    appends it to the type's index list, and does so also when the index
    is already a key of the type's bucket, in which case the bucket is
    left as it is.  Hence, after two streams of one type with equal
    indices, the type's index list holds both indices, one more than the
    bucket holds records, while the index-to-type map holds one entry. *)
Theorem index_recorded_despite_duplicate env k :
  (∀ self track d,
     Py.get track "codec_type" (PStr "Unknown") = Ok (PStr (kind_name k)) →
     extract env k track = Ok d →
     track_index d ≠ PNone →
     Py.hashable (track_index d) = true →
     ∃ self',
       classify env self track = Ok self'
       ∧ MediaInfo._tracks self' =
           Dict.update (track_index d) (kind_name k) (MediaInfo._tracks self)
       ∧ MediaInfo.tracks_by_type self' !! kind_name k =
           Some (default [] (MediaInfo.tracks_by_type self !! kind_name k)
                 ++ [track_index d])
       ∧ (is_Some (Dict.lookup (track_index d) (bucket k self)) →
          bucket k self' = bucket k self))
  ∧ (∀ file_path raw fd s1 s2 d1 d2,
       Py.get raw "streams" (PList []) = Ok (PList [s1; s2]) →
       Py.get s1 "codec_type" (PStr "Unknown") = Ok (PStr (kind_name k)) →
       Py.get s2 "codec_type" (PStr "Unknown") = Ok (PStr (kind_name k)) →
       extract env k s1 = Ok d1 →
       extract env k s2 = Ok d2 →
       track_index d1 ≠ PNone →
       Py.key_eq (track_index d1) (track_index d2) = true →
       ∃ self' indices,
         _get_tracks_data env (fresh_instance file_path raw fd) = Ok self'
         ∧ MediaInfo.tracks_by_type self' !! kind_name k = Some indices
         ∧ indices = [track_index d1; track_index d2]
         ∧ total_of k self' = 1
         ∧ Z.of_nat (List.length indices) > total_of k self'
         ∧ MediaInfo.total_tracks self' = 1).
Proof.
  split.
  - intros self track d Hty Hex Hn Hh.
    destruct (classify_recognised env k self track d Hty Hex Hn Hh)
      as (self' & Hc & Hb & _ & Htr & Hby).
    exists self'.
    split; [exact Hc|]. split; [exact Htr|]. split.
    + unfold MediaInfo.tracks_by_type. rewrite Hby, lookup_insert_eq. reflexivity.
    + intros [x Hx]. rewrite Hx in Hb. exact Hb.
  - intros file_path raw fd s1 s2 d1 d2 Hraw Ht1 Ht2 He1 He2 Hn1 Heq.
    destruct (two_streams_same_index env file_path raw fd k s1 s2 d1 d2
                Hraw Ht1 Ht2 He1 He2 Hn1 Heq) as (self' & Hrun & Hb & Htr & Hby).
    assert (Htot : total_of k self' = 1)
      by (rewrite total_of_bucket, Hb; reflexivity).
    exists self', [track_index d1; track_index d2].
    split; [exact Hrun|]. split; [exact Hby|]. split; [reflexivity|].
    split; [exact Htot|]. split; [rewrite Htot; cbn; lia|].
    unfold MediaInfo.total_tracks, Dict.len. rewrite Htr. reflexivity.
Qed.

(** Two video streams, both with index 0: [tracks_by_type["video"]] is
    [[0, 0]], with one video record and one entry in the index map. *)
Lemma index_recorded_despite_duplicate_witness :
  ∃ self',
    _get_tracks_data Sample.env
      (fresh_instance (PPath Sample.movie)
         (PDict [("streams", PList [Sample.twin_a; Sample.twin_b])])
         (FormatData.mk 0 0 Float.zero "00:00:00.000" PNone PNone 0 PNone PNone))
    = Ok self'
    ∧ MediaInfo.tracks_by_type self' !! "video"%string = Some [PInt 0; PInt 0]
    ∧ MediaInfo.total_video_tracks self' = 1
    ∧ MediaInfo.total_tracks self' = 1.
Proof.
  set (raw := PDict [("streams", PList [Sample.twin_a; Sample.twin_b])]).
  destruct (_extract_video_info Sample.env Sample.twin_a) as [va|] eqn:Ea;
    [|vm_compute in Ea; discriminate].
  destruct (_extract_video_info Sample.env Sample.twin_b) as [vb|] eqn:Eb;
    [|vm_compute in Eb; discriminate].
  assert (Hia : VideoTrack.index va = PInt 0)
    by (vm_compute in Ea; injection Ea as <-; reflexivity).
  assert (Hib : VideoTrack.index vb = PInt 0)
    by (vm_compute in Eb; injection Eb as <-; reflexivity).
  destruct (proj2 (index_recorded_despite_duplicate Sample.env KVideo)
              (PPath Sample.movie) raw
              (FormatData.mk 0 0 Float.zero "00:00:00.000" PNone PNone 0 PNone PNone)
              Sample.twin_a Sample.twin_b (Video va) (Video vb))
    as (self' & indices & Hrun & Hby & -> & Htot & _ & Hall).
  - reflexivity.
  - reflexivity.
  - reflexivity.
  - cbn [extract]. rewrite Ea. reflexivity.
  - cbn [extract]. rewrite Eb. reflexivity.
  - cbn [track_index]. rewrite Hia. discriminate.
  - cbn [track_index]. rewrite Hia, Hib. reflexivity.
  - exists self'. cbn [track_index kind_name] in Hby. rewrite Hia, Hib in Hby.
    split; [exact Hrun|]. split; [exact Hby|]. split; [exact Htot|exact Hall].
Defined.

(** ** C8: discovery from a single file *)



(** ** Instance creation *)

Lemma lookup_str_keys {V} (d : pydict V) p :
  str_keys d → Dict.lookup (PPath p) d = None.
Proof.
  induction 1 as [|[k v] d [s Hs] _ IH]; simpl; [reflexivity|].
  simpl in Hs. subst k. simpl. exact IH.
Qed.

Lemma lookup_update_same {V} (d : pydict V) k v :
  Py.key_eq k k = true → Dict.lookup k (Dict.update k v d) = Some v.
Proof.
  intros Hk. induction d as [|[k0 v0] d IH]; simpl.
  - rewrite Hk. reflexivity.
  - destruct (Py.key_eq k0 k) eqn:E; simpl; rewrite E; [reflexivity|exact IH].
Qed.

Lemma update_str_keys {V} (d : pydict V) s v :
  str_keys d → str_keys (Dict.update (PStr s) v d).
Proof.
  induction 1 as [|[k0 v0] d Hk Hd IH]; simpl.
  - repeat constructor. exists s. reflexivity.
  - destruct (Py.key_eq k0 (PStr s)); constructor; assumption.
Qed.

(** [__new__] on a [Path]: the registry's keys are strings, a path is
    never among them, and a new object is allocated each time. *)
Lemma new_on_path env p st :
  str_keys (_files st) →
  __new__ env (PPath p) st =
  (Ok (List.length (heap st)),
   set_files (Dict.update (PStr (path_str p)) (List.length (heap st)) (_files st))
     (set_heap (heap st ++ [None]) st)).
Proof.
  intros Hk. unfold __new__, Dict.contains. unfold_M. cbn [Py.hashable].
  rewrite (lookup_str_keys _ p Hk).
  rewrite bool_decide_eq_false_2 by (intros [? [=]]).
  cbn [negb py_str set_files set_heap _files heap].
  rewrite lookup_update_same by apply String.eqb_refl.
  reflexivity.
Qed.

Lemma get_raw_data_frame env file_path st r st' :
  _get_raw_data env file_path st = (r, st') →
  (st' = st ∨ st' = set_probed (probed st ++ [file_path]) st)
  ∧ (is_ok r = true → st' = set_probed (probed st ++ [file_path]) st).
Proof.
  unfold _get_raw_data. unfold_M.
  destruct (which_ffprobe env) as [tool|];
    [|intros [= <- <-]; split; [auto|discriminate]].
  destruct (String.eqb tool EmptyString);
    [intros [= <- <-]; split; [auto|discriminate]|].
  destruct (run_ffprobe env tool file_path) as [rc out|e];
    [|intros [= <- <-]; auto].
  destruct (negb (rc =? 0)); [intros [= <- <-]; auto|].
  destruct (String.eqb out EmptyString); [intros [= <- <-]; auto|].
  destruct (json_loads env out); intros [= <- <-]; auto.
Qed.

Lemma get_format_data_frame raw st r st' :
  _get_format_data raw st = (r, st') →
  _files st' = _files st ∧ heap st' = heap st ∧ probed st' = probed st.
Proof.
  unfold _get_format_data, _increase_cached_size. unfold_M.
  unfold mbind, result_bind.
  repeat match goal with
         | |- context [match ?x with Ok _ => _ | Raise _ => _ end] =>
             destruct x
         end;
    intros [= <- <-]; auto.
Qed.

Lemma record_track_attrs index ty self self' :
  record_track index ty self = Ok self' →
  MediaInfo._file_path self' = MediaInfo._file_path self
  ∧ MediaInfo._format_data self' = MediaInfo._format_data self.
Proof.
  unfold record_track. unfold mbind, result_bind.
  destruct (Dict.setitem _ _ _); [|discriminate].
  intros [= <-]. split; reflexivity.
Qed.

(** The loop leaves the path and the format summary alone. *)
Lemma classify_attrs env self track self' :
  classify env self track = Ok self' →
  MediaInfo._file_path self' = MediaInfo._file_path self
  ∧ MediaInfo._format_data self' = MediaInfo._format_data self.
Proof.
  unfold classify. unfold mbind, result_bind.
  destruct (Py.get track "codec_type" _) as [ty|]; [|discriminate].
  repeat match goal with
         | |- context [if ?b then _ else _] => destruct b
         | |- context [match ?x with Ok _ => _ | Raise _ => _ end] =>
             lazymatch x with
             | record_track _ _ _ => fail
             | _ => destruct x
             end
         end;
    try discriminate; try (intros [= <-]; split; reflexivity);
    intros H; apply record_track_attrs in H; exact H.
Qed.

Lemma get_tracks_data_attrs env self self' :
  _get_tracks_data env self = Ok self' →
  MediaInfo._file_path self' = MediaInfo._file_path self
  ∧ MediaInfo._format_data self' = MediaInfo._format_data self.
Proof.
  intros H. apply get_tracks_data_loop in H as (streams & tracks & _ & _ & H).
  revert self H. induction tracks as [|track tracks IH]; intros self; simpl.
  - intros [= <-]. split; reflexivity.
  - unfold mbind, result_bind.
    destruct (classify env self track) as [self1|] eqn:E1; [|discriminate].
    intros H. apply IH in H as [H1 H2].
    apply classify_attrs in E1 as [H3 H4]. split; congruence.
Qed.

Lemma call_on_path env p dbg st r st' :
  str_keys (_files st) →
  MediaInfo_call env (PPath p) dbg st = (r, st') →
  str_keys (_files st')
  ∧ (probed st' = probed st ∨ probed st' = probed st ++ [PPath p])
  ∧ (∃ x, heap st' = heap st ++ [x])
  ∧ match r with
    | Ok ref =>
        ref = List.length (heap st)
        ∧ probed st' = probed st ++ [PPath p]
        ∧ ∃ o, heap st' = heap st ++ [Some o]
               ∧ MediaInfo._file_path o = PPath p
               ∧ _total_file_size st' =
                   _total_file_size st + FormatData.size (MediaInfo._format_data o)
    | Raise _ => True
    end.
Proof.
  intros Hk. unfold MediaInfo_call. unfold bind at 1.
  rewrite (new_on_path env p st Hk).
  set (stA := set_files _ _).
  assert (HkA : str_keys (_files stA)) by (apply update_str_keys; exact Hk).
  assert (Hl : heap stA !! List.length (heap st) = Some None).
  { cbn. rewrite lookup_app_r by lia. rewrite Nat.sub_diag. reflexivity. }
  unfold __init__, bind, get_state, modify, ret, lift. cbv beta iota.
  rewrite Hl.
  set (stB := set_debug_mode dbg stA).
  destruct (_get_raw_data env (PPath p) stB) as [[raw|e] stC] eqn:Eraw.
  all: destruct (get_raw_data_frame _ _ _ _ _ Eraw) as [Hc Hc'].
  2:{ intros [= <- <-]. split; [|split; [|split; [|exact I]]].
      - destruct Hc as [-> | ->]; exact HkA.
      - destruct Hc as [-> | ->]; cbn; auto.
      - destruct Hc as [-> | ->]; cbn; eauto. }
  specialize (Hc' eq_refl). clear Hc.
  destruct (_get_format_data raw stC) as [[fd|e] stD] eqn:Efd.
  all: destruct (get_format_data_frame _ _ _ _ Efd) as (Hf & Hh & Hp).
  2:{ intros [= <- <-]. rewrite Hf, Hh, Hp, Hc'. cbn.
      split; [exact HkA|]. split; [auto|]. split; [eauto|exact I]. }
  apply get_format_data_ok in Efd as Hfd.
  destruct Hfd as (_ & _ & _ & _ & _ & _ & _ & _ & _ & _ & _ & _ & _ & _ & _ & _ & _ & _ & _ & _ & _ & Hsize).
  destruct (_get_tracks_data env _) as [obj|e] eqn:Etr.
  2:{ intros [= <- <-]. rewrite Hf, Hh, Hp, Hc'. cbn.
      split; [exact HkA|]. split; [auto|]. split; [eauto|exact I]. }
  intros [= <- <-]. cbn [_files heap probed set_heap _total_file_size].
  rewrite Hf, Hh, Hp, Hc'. cbn.
  destruct (get_tracks_data_attrs _ _ _ Etr) as [Hpath Hfmt].
  assert (Hins : <[List.length (heap st) := Some obj]> (heap st ++ [None])
                 = heap st ++ [Some obj]).
  { rewrite insert_app_r_alt by lia. rewrite Nat.sub_diag. reflexivity. }
  rewrite Hins.
  split; [apply update_str_keys; exact Hk|]. split; [auto|].
  split; [eauto|]. split; [reflexivity|]. split; [reflexivity|].
  exists obj. split; [reflexivity|]. split; [exact Hpath|].
  rewrite Hfmt, Hsize, Hc'. reflexivity.
Qed.

(** ** C1: one instance per path *)

(** C1 at the failing input.  [__new__] tests [file_path in cls._files]
    with the [Path] it was given while the registry is keyed by
    [str(file_path)], so the test never succeeds: constructing
    [MediaInfo] on the same path twice gives a second object, probes the
    file a second time and adds its size to the byte counter again. *)
Theorem path_construction_never_reuses env p dbg st r1 st1 r2 st2 :
  str_keys (_files st) →
  MediaInfo_call env (PPath p) dbg st = (Ok r1, st1) →
  MediaInfo_call env (PPath p) dbg st1 = (Ok r2, st2) →
  r2 ≠ r1
  ∧ probed st2 = probed st ++ [PPath p; PPath p]
  ∧ ∃ o1 o2,
      heap st2 !! r1 = Some (Some o1)
      ∧ heap st2 !! r2 = Some (Some o2)
      ∧ _total_file_size st2 =
          _total_file_size st
          + FormatData.size (MediaInfo._format_data o1)
          + FormatData.size (MediaInfo._format_data o2).
Proof.
  intros Hk H1 H2.
  destruct (call_on_path _ _ _ _ _ _ Hk H1)
    as (Hk1 & _ & _ & -> & Hp1 & o1 & Hh1 & _ & Hs1).
  destruct (call_on_path _ _ _ _ _ _ Hk1 H2)
    as (_ & _ & _ & -> & Hp2 & o2 & Hh2 & _ & Hs2).
  rewrite Hh1, length_app. cbn [List.length].
  split; [lia|]. split.
  - rewrite Hp2, Hp1, <- app_assoc. reflexivity.
  - exists o1, o2. rewrite Hh2, Hh1. split; [|split].
    + rewrite lookup_app_l by (rewrite length_app; simpl; lia).
      rewrite lookup_app_r by lia. rewrite Nat.sub_diag. reflexivity.
    + rewrite lookup_app_r by (rewrite length_app; simpl; lia).
      rewrite length_app. cbn [List.length].
      replace (List.length (heap st) + 1 - (List.length (heap st) + 1))%nat
        with 0%nat by lia.
      reflexivity.
    + rewrite Hs2, Hs1. reflexivity.
Qed.

(** The sample file, 1000 bytes long, constructed twice in a fresh
    process: objects 0 and 1, two probe runs, 2000 bytes counted. *)
Lemma path_construction_never_reuses_witness :
  ∃ st1 st2,
    MediaInfo_call Sample.env (PPath Sample.movie) false initial_state
      = (Ok 0%nat, st1)
    ∧ MediaInfo_call Sample.env (PPath Sample.movie) false st1 = (Ok 1%nat, st2)
    ∧ probed st2 = [PPath Sample.movie; PPath Sample.movie]
    ∧ _total_file_size st2 = 2000.
Proof.
  destruct (MediaInfo_call Sample.env (PPath Sample.movie) false initial_state)
    as [r1 st1] eqn:E1.
  assert (Hr1 : r1 = Ok 0%nat) by (vm_compute in E1; congruence).
  subst r1.
  destruct (MediaInfo_call Sample.env (PPath Sample.movie) false st1)
    as [r2 st2] eqn:E2.
  assert (Hr2 : r2 = Ok 1%nat).
  { assert (E1' := E1). vm_compute in E1'. injection E1' as <-.
    vm_compute in E2. congruence. }
  subst r2.
  destruct (path_construction_never_reuses Sample.env Sample.movie false
              initial_state 0%nat st1 1%nat st2 (Forall_nil_2 _) E1 E2)
    as (_ & Hp & _).
  exists st1, st2. split; [reflexivity|]. split; [exact E2|].
  split; [exact Hp|].
  assert (E1' := E1). vm_compute in E1'. injection E1' as <-.
  vm_compute in E2. injection E2 as <-. reflexivity.
Defined.

(** The registry does work when the argument is the text itself: the
    second construction returns the first object, without a probe. *)
Example str_construction_reuses :
  ∃ st1 st2,
    MediaInfo_call Sample.env (PStr "films/movie.mkv") false initial_state
      = (Ok 0%nat, st1)
    ∧ MediaInfo_call Sample.env (PStr "films/movie.mkv") false st1
      = (Ok 0%nat, st2)
    ∧ probed st2 = [PStr "films/movie.mkv"]
    ∧ _total_file_size st2 = 1000.
Proof.
  eexists _, _. split; [vm_compute; reflexivity|].
  split; [vm_compute; reflexivity|]. split; reflexivity.
Qed.

(** ** C7: the catalog and its suffix test *)

Lemma mkv_files_cons file files :
  mkv_files (file :: files) =
  if String.eqb (PathOps.suffix file) ".mkv" then file :: mkv_files files
  else mkv_files files.
Proof. reflexivity. Qed.

Lemma catalog_loop_spec env self files : ∀ extracted data st r st',
  str_keys (_files st) →
  catalog_loop env self files extracted data st = (r, st') →
  (∃ n, probed st' = probed st ++ (PPath <$> take n (mkv_files files)))
  ∧ (∃ objs, heap st' = heap st ++ objs)
  ∧ ∀ data', r = Ok data' →
      probed st' = probed st ++ (PPath <$> mkv_files files)
      ∧ (∀ k, k ≤ extracted → data' !! k = data !! k)
      ∧ (∀ k, extracted + Z.of_nat (List.length (mkv_files files)) < k →
              data' !! k = data !! k)
      ∧ (∀ (j : nat) f, mkv_files files !! j = Some f →
           ∃ ref o,
             data' !! (extracted + 1 + Z.of_nat j) = Some ref
             ∧ heap st' !! ref = Some (Some o)
             ∧ MediaInfo._file_path o = PPath f).
Proof.
  induction files as [|file files IH]; intros extracted data st r st' Hk.
  - cbn. unfold ret. intros [= <- <-].
    split; [exists 0%nat; cbn; rewrite app_nil_r; reflexivity|].
    split; [exists []; rewrite app_nil_r; reflexivity|].
    intros data' [= <-]. cbn. rewrite app_nil_r.
    split; [reflexivity|]. split; [reflexivity|]. split; [reflexivity|].
    intros j f H. destruct j; discriminate.
  - cbn [catalog_loop]. rewrite mkv_files_cons.
    destruct (String.eqb (PathOps.suffix file) ".mkv"); [|apply IH; exact Hk].
    unfold bind at 1.
    destruct (MediaInfo_call env (PPath file) (debug self) st)
      as [[ref|e] st1] eqn:E1.
    + destruct (call_on_path _ _ _ _ _ _ Hk E1)
        as (Hk1 & _ & _ & -> & Hp1 & o & Hh1 & Hpath & _).
      intros H.
      destruct (IH _ _ _ _ _ Hk1 H) as ((n & Hn) & (objs & Hobjs) & Hok).
      split; [exists (S n); rewrite Hn, Hp1; cbn; rewrite <- app_assoc;
              reflexivity|].
      split; [exists (Some o :: objs); rewrite Hobjs, Hh1, <- app_assoc;
              reflexivity|].
      intros data' ->. destruct (Hok data' eq_refl) as (Hp & Hle & Hgt & Hin).
      split; [rewrite Hp, Hp1; cbn; rewrite <- app_assoc; reflexivity|].
      split; [intros k Hkle; rewrite Hle by lia;
              apply lookup_insert_ne; lia|].
      split; [intros k Hkgt; cbn [List.length] in Hkgt; rewrite Hgt by lia;
              apply lookup_insert_ne; lia|].
      intros [|j] f Hj.
      * cbn in Hj. injection Hj as <-. exists (List.length (heap st)), o.
        rewrite Z.add_0_r, Hle by lia. rewrite lookup_insert_eq.
        split; [reflexivity|]. split; [|exact Hpath].
        rewrite Hobjs, Hh1, <- app_assoc.
        rewrite lookup_app_r by lia. rewrite Nat.sub_diag. reflexivity.
      * cbn in Hj. destruct (Hin j f Hj) as (ref & o' & Hd & Hhp & Hfp).
        exists ref, o'. split; [|split; assumption].
        rewrite <- Hd. f_equal. lia.
    + destruct (call_on_path _ _ _ _ _ _ Hk E1)
        as (_ & Hp1 & (x & Hh1) & _).
      intros [= <- <-].
      split; [|split; [exists [x]; exact Hh1|discriminate]].
      destruct Hp1 as [Hp1|Hp1]; [exists 0%nat|exists 1%nat]; rewrite Hp1; cbn;
        [rewrite app_nil_r|rewrite take_0]; reflexivity.
Qed.

(** C7. [_get_media_info] runs the probe on files whose suffix is
    [.mkv] and on no other, in the order of the list (whatever the
    outcome, the runs it made are an initial part of those files).
    When it returns, it has probed every such file, the catalog's keys
    are exactly 1, ..., the number of such files, and key [j + 1] leads
    to the instance built for the [j]-th of them. *)
Theorem catalog_gate_and_keys env self files st r st' :
  str_keys (_files st) →
  _get_media_info env self files st = (r, st') →
  (∃ n, probed st' = probed st ++ (PPath <$> take n (mkv_files files)))
  ∧ ∀ data, r = Ok data →
      probed st' = probed st ++ (PPath <$> mkv_files files)
      ∧ (∀ k : Z, is_Some (data !! k)
                  ↔ 1 ≤ k ≤ Z.of_nat (List.length (mkv_files files)))
      ∧ (∀ (j : nat) file, mkv_files files !! j = Some file →
           ∃ ref o,
             data !! (Z.of_nat j + 1) = Some ref
             ∧ heap st' !! ref = Some (Some o)
             ∧ MediaInfo._file_path o = PPath file).
Proof.
  intros Hk H. unfold _get_media_info in H.
  destruct (catalog_loop_spec _ _ _ _ _ _ _ _ Hk H) as (Hn & _ & Hok).
  split; [exact Hn|]. intros data ->.
  destruct (Hok data eq_refl) as (Hp & Hle & Hgt & Hin).
  split; [exact Hp|]. split.
  - intros k. split.
    + intros Hs.
      destruct (decide (k ≤ 0)) as [Hk0|Hk0];
        [rewrite Hle in Hs by lia; rewrite lookup_empty in Hs;
         destruct Hs as [? [=]]|].
      destruct (decide (Z.of_nat (List.length (mkv_files files)) < k)) as [Hk1|Hk1];
        [rewrite Hgt in Hs by lia; rewrite lookup_empty in Hs;
         destruct Hs as [? [=]]|].
      lia.
    + intros [H1 H2].
      destruct (lookup_lt_is_Some_2 (mkv_files files) (Z.to_nat (k - 1)))
        as [file Hf]; [lia|].
      destruct (Hin _ _ Hf) as (ref & o & Hd & _).
      replace (0 + 1 + Z.of_nat (Z.to_nat (k - 1))) with k in Hd by lia.
      eauto.
  - intros j file Hj. destruct (Hin j file Hj) as (ref & o & Hd & Hh & Hf).
    exists ref, o. split; [|split; assumption].
    rewrite <- Hd. f_equal. lia.
Qed.

(** A text file, the sample film, an upper-case [.MKV] and a second
    film: two probe runs, keys 1 and 2. *)
Lemma catalog_gate_and_keys_witness :
  ∃ data st',
    _get_media_info Sample.env Sample.processor
      [mkPath "notes.txt"; Sample.movie; mkPath "b.MKV"; mkPath "c.mkv"]
      initial_state = (Ok data, st')
    ∧ probed st' = [PPath Sample.movie; PPath (mkPath "c.mkv")]
    ∧ (∀ k : Z, is_Some (data !! k) ↔ 1 ≤ k ≤ 2).
Proof.
  set (files := [mkPath "notes.txt"; Sample.movie; mkPath "b.MKV"; mkPath "c.mkv"]).
  destruct (_get_media_info Sample.env Sample.processor files initial_state)
    as [r st'] eqn:E.
  assert (Hr : ∃ data, r = Ok data)
    by (assert (E' := E); vm_compute in E'; injection E' as <- _; eauto).
  destruct Hr as [data ->].
  destruct (catalog_gate_and_keys Sample.env Sample.processor files
              initial_state (Ok data) st' (Forall_nil_2 _) E) as (_ & H).
  destruct (H data eq_refl) as (Hp & Hkeys & _).
  exists data, st'. split; [reflexivity|]. split; [exact Hp|exact Hkeys].
Defined.

(* ====================================================================== *)
(** * Further properties *)
(* ====================================================================== *)

(** ** The directory walk *)

Lemma fsnode_nested_ind (P : fsnode → Prop) :
  P FsFile → P FsOther →
  (∀ entries, Forall (λ e, P e.2) entries → P (FsDir entries)) →
  ∀ node, P node.
Proof.
  intros Hf Ho Hd. fix IH 1. intros [|entries|]; [exact Hf| |exact Ho].
  apply Hd. induction entries as [|[e c] es IHes]; constructor;
    [apply IH|exact IHes].
Qed.

Lemma search_node_dir self path entries target_files :
  search_node self path (FsDir entries) target_files
  = iterdir_loop self path entries target_files.
Proof. reflexivity. Qed.

Lemma iterdir_loop_cons self path entry child rest target_files :
  iterdir_loop self path ((entry, child) :: rest) target_files =
  let f := PathOps.joinpath path entry in
  if negb (_filter self f child) then iterdir_loop self path rest target_files
  else
    match child with
    | FsDir _ =>
        if no_subdir self then iterdir_loop self path rest target_files
        else iterdir_loop self path rest (search_node self f child target_files)
    | FsFile => iterdir_loop self path rest (target_files ++ [f])
    | FsOther => iterdir_loop self path rest target_files
    end.
Proof. reflexivity. Qed.

(** The loop, as the concatenation of what each entry contributes,
    provided the walks of the subdirectories only append. *)
Lemma iterdir_loop_concat self path entries :
  Forall (λ e, ∀ p acc, search_node self p e.2 acc
                        = acc ++ search_node self p e.2 []) entries →
  ∀ target_files,
    iterdir_loop self path entries target_files
    = target_files ++ flat_map (entry_files self path) entries.
Proof.
  induction 1 as [|[e c] es Hc _ IH]; intros acc.
  - cbn. rewrite app_nil_r. reflexivity.
  - rewrite iterdir_loop_cons. cbn [flat_map]. unfold entry_files at 1.
    cbn [fst snd]. cbv zeta.
    destruct (negb (_filter self (PathOps.joinpath path e) c));
      [rewrite IH; reflexivity|].
    destruct c as [|sub|].
    + rewrite IH, <- app_assoc. reflexivity.
    + destruct (no_subdir self); [rewrite IH; reflexivity|].
      rewrite IH. cbn [snd] in Hc. rewrite (Hc _ acc), <- app_assoc.
      reflexivity.
    + rewrite IH. reflexivity.
Qed.

Lemma search_node_app self node : ∀ path target_files,
  search_node self path node target_files
  = target_files ++ search_node self path node [].
Proof.
  induction node as [| |entries IH] using fsnode_nested_ind;
    intros path target_files.
  - cbn [search_node]. destruct (_filter self path FsFile); [reflexivity|].
    rewrite app_nil_r. reflexivity.
  - cbn [search_node]. rewrite app_nil_r. reflexivity.
  - rewrite !search_node_dir.
    rewrite (iterdir_loop_concat self path entries IH target_files).
    rewrite (iterdir_loop_concat self path entries IH []). reflexivity.
Qed.

(** X1. The walk only appends to the list it is given: its result is
    that list followed by what the walk finds from an empty list. *)
Theorem search_node_appends self node : ∀ path target_files,
  search_node self path node target_files
  = target_files ++ search_node self path node [].
Proof. apply search_node_app. Qed.

Lemma search_dir_flat self path entries target_files :
  search_node self path (FsDir entries) target_files
  = target_files ++ flat_map (entry_files self path) entries.
Proof.
  rewrite search_node_dir. apply iterdir_loop_concat.
  apply Forall_forall. intros e _ p acc. apply search_node_app.
Qed.

(** X2. The walk of a directory is the concatenation, in the order of
    [iterdir], of what each entry contributes: nothing for an entry the
    filter rejects, the entry itself for a file, the walk of the
    subdirectory for a directory (nothing under [no_subdir]), nothing
    for anything else. *)
Theorem search_dir_concat self path entries target_files :
  search_node self path (FsDir entries) target_files
  = target_files ++ flat_map (entry_files self path) entries.
Proof. apply search_dir_flat. Qed.

Lemma elem_of_flat_map {A B} (f : A → list B) (l : list A) (y : B) :
  y ∈ flat_map f l ↔ ∃ x, x ∈ l ∧ y ∈ f x.
Proof.
  rewrite list_elem_of_In, in_flat_map. split; intros (x & Hx & Hy); exists x.
  - rewrite !list_elem_of_In. auto.
  - rewrite <- !list_elem_of_In. auto.
Qed.

Lemma search_node_found self node : ∀ path f,
  f ∈ search_node self path node [] ↔ found_in self path node f.
Proof.
  induction node as [| |entries IH] using fsnode_nested_ind; intros path f.
  - cbn [search_node]. split.
    + destruct (_filter self path FsFile) eqn:E; cbn.
      * intros H. apply list_elem_of_singleton in H as ->.
        constructor. exact E.
      * intros H. apply elem_of_nil in H. destruct H.
    + intros H. inversion H; subst.
      rewrite H0. cbn. apply list_elem_of_singleton. reflexivity.
  - cbn [search_node]. split; intros H; [apply elem_of_nil in H; destruct H|].
    inversion H.
  - rewrite search_dir_flat. cbn [app]. rewrite elem_of_flat_map. split.
    + intros ([e c] & Hin & Hf). unfold entry_files in Hf. cbn [fst snd] in Hf.
      cbv zeta in Hf.
      destruct (_filter self (PathOps.joinpath path e) c) eqn:E; cbn [negb] in Hf;
        [|apply elem_of_nil in Hf; destruct Hf].
      destruct c as [|sub|].
      * apply list_elem_of_singleton in Hf as ->.
        eapply found_file; eassumption.
      * destruct (no_subdir self) eqn:En; [apply elem_of_nil in Hf; destruct Hf|].
        rewrite Forall_forall in IH. apply (IH _ Hin) in Hf.
        eapply found_below; eassumption.
      * apply elem_of_nil in Hf. destruct Hf.
    + intros H. inversion H as [|? ? e Hin Hfl|? ? e sub ? Hin Hfl Hn Hbelow]; subst.
      * exists (e, FsFile). split; [exact Hin|].
        unfold entry_files. cbn [fst snd]. cbv zeta. rewrite Hfl. cbn.
        apply list_elem_of_singleton. reflexivity.
      * exists (e, FsDir sub). split; [exact Hin|].
        unfold entry_files. cbn [fst snd]. cbv zeta. rewrite Hfl, Hn. cbn [negb].
        rewrite Forall_forall in IH. apply (IH _ Hin). exact Hbelow.
Qed.

(** X3. What the walk returns, as a set: exactly the regular files it
    can get to.  Each returned path is a file that passes the file
    filter, below directories that each pass the directory filter (and
    directly below the root under [no_subdir]); and every such file is
    returned. *)
Theorem search_node_finds self node : ∀ path f,
  f ∈ search_node self path node [] ↔ found_in self path node f.
Proof. apply search_node_found. Qed.

(** A file passes the filter exactly when its name and suffix do. *)
Lemma filter_file self f :
  _filter self f FsFile = true ↔
    misses_includes self f = false
    ∧ hits_excludes self f = false
    ∧ wrong_extension self f = false.
Proof.
  unfold _filter. cbn [is_dir is_file].
  destruct (misses_includes self f), (hits_excludes self f),
    (wrong_extension self f); cbn; intuition congruence.
Qed.

Lemma found_in_passes self path node f :
  found_in self path node f → _filter self f FsFile = true.
Proof. induction 1; assumption. Qed.

(** X4. No path the walk returns has a name with an excluded keyword
    in it, each has a name with one of the include keywords in it when
    there are any, and each has a suffix among the extensions when there
    are any. *)
Theorem search_node_respects_filter self path node f :
  f ∈ search_node self path node [] →
  (∀ keyword, keyword ∈ excludes self →
     Str.contains keyword (PathOps.name f) = false)
  ∧ (includes self ≠ [] →
     ∃ keyword, keyword ∈ includes self
                ∧ Str.contains keyword (PathOps.name f) = true)
  ∧ (extensions self ≠ [] → PathOps.suffix f ∈ extensions self).
Proof.
  intros H. apply search_node_found, found_in_passes, filter_file in H
    as (Hi & He & Hx).
  split; [|split].
  - intros keyword Hk. unfold hits_excludes in He.
    destruct (excludes self) as [|k0 ks] eqn:Ee; [apply elem_of_nil in Hk; destruct Hk|].
    cbn [nonempty andb] in He. rewrite <- Ee in He.
    destruct (Str.contains keyword (PathOps.name f)) eqn:Ec; [|reflexivity].
    assert (existsb (λ k, Str.contains k (PathOps.name f)) (excludes self) = true).
    { apply existsb_exists. exists keyword. rewrite Ee.
      split; [apply list_elem_of_In; exact Hk|exact Ec]. }
    congruence.
  - intros Hne. unfold misses_includes in Hi.
    destruct (includes self) as [|k0 ks] eqn:Ei; [congruence|].
    cbn [nonempty andb] in Hi. apply negb_false_iff, existsb_exists in Hi
      as (keyword & Hin & Hc).
    exists keyword. split; [apply list_elem_of_In; exact Hin|exact Hc].
  - intros Hne. unfold wrong_extension in Hx.
    destruct (extensions self) as [|k0 ks] eqn:Ex; [congruence|].
    cbn [nonempty andb] in Hx. apply negb_false_iff, existsb_exists in Hx
      as (ext & Hin & Hc).
    apply String.eqb_eq in Hc. subst ext. apply list_elem_of_In. exact Hin.
Qed.

Lemma search_node_respects_filter_witness :
  mkPath "films/extras/clip.mkv"
    ∈ search_node SampleTree.processor SampleTree.root SampleTree.tree []
  ∧ Str.contains "sample" (PathOps.name (mkPath "films/extras/clip.mkv")) = false
  ∧ PathOps.suffix (mkPath "films/extras/clip.mkv")
      ∈ extensions SampleTree.processor.
Proof.
  assert (H : mkPath "films/extras/clip.mkv"
                ∈ search_node SampleTree.processor SampleTree.root SampleTree.tree [])
    by (vm_compute; apply list_elem_of_In; simpl; auto).
  destruct (search_node_respects_filter _ _ _ _ H) as (He & _ & Hx).
  split; [exact H|]. split.
  - apply He. apply list_elem_of_In. simpl. auto.
  - apply Hx. discriminate.
Defined.

(** X5. Under [no_subdir] the walk of a directory returns its own
    files that pass the filter, in the order of [iterdir], and nothing
    from below any of its subdirectories. *)
Theorem search_no_subdir self path entries :
  no_subdir self = true →
  search_node self path (FsDir entries) []
  = PathOps.joinpath path
      <$> (fst <$> List.filter
                     (λ e, is_file e.2
                           && _filter self (PathOps.joinpath path e.1) FsFile)
                     entries).
Proof.
  intros Hn. rewrite search_dir_flat. cbn [app].
  induction entries as [|[e c] es IH]; [reflexivity|].
  cbn [flat_map List.filter fst snd]. rewrite IH.
  unfold entry_files. cbn [fst snd]. cbv zeta. rewrite Hn.
  destruct c as [|sub|]; cbn [is_file andb].
  - destruct (_filter self (PathOps.joinpath path e) FsFile); reflexivity.
  - destruct (_filter self _ _); reflexivity.
  - destruct (_filter self _ _); reflexivity.
Qed.

Lemma search_no_subdir_witness :
  search_node SampleTree.flat_processor SampleTree.root SampleTree.tree []
  = [mkPath "films/movie.mkv"].
Proof.
  unfold SampleTree.tree.
  rewrite (search_no_subdir SampleTree.flat_processor) by reflexivity.
  reflexivity.
Defined.

Lemma all_files_dir path entries :
  all_files path (FsDir entries)
  = flat_map (λ e, match e.2 with
                   | FsFile => [PathOps.joinpath path e.1]
                   | FsDir _ => all_files (PathOps.joinpath path e.1) e.2
                   | FsOther => []
                   end) entries.
Proof.
  cbn [all_files]. induction entries as [|[e c] es IH]; [reflexivity|].
  cbn [flat_map fst snd]. rewrite <- IH. reflexivity.
Qed.

Lemma filter_flat_map {A B} (P : B → bool) (f : A → list B) (l : list A) :
  List.filter P (flat_map f l) = flat_map (λ x, List.filter P (f x)) l.
Proof.
  induction l as [|x l IH]; [reflexivity|].
  cbn [flat_map]. rewrite List.filter_app, IH. reflexivity.
Qed.

(** X6. Without include and exclude keywords, and with subdirectories
    entered, the walk returns the regular files of the tree that have an
    allowed suffix, all of them, in the order of the traversal. *)
Theorem search_without_keywords self node :
  includes self = [] → excludes self = [] → no_subdir self = false →
  ∀ path,
    search_node self path node []
    = List.filter (λ f, negb (wrong_extension self f)) (all_files path node).
Proof.
  intros Hi He Hn.
  assert (Hfile : ∀ f, _filter self f FsFile = negb (wrong_extension self f)).
  { intros f. unfold _filter, misses_includes, hits_excludes.
    rewrite Hi, He. cbn. destruct (wrong_extension self f); reflexivity. }
  assert (Hdir : ∀ f sub, _filter self f (FsDir sub) = true).
  { intros f sub. unfold _filter, misses_includes, hits_excludes.
    rewrite Hi, He. reflexivity. }
  induction node as [| |entries IH] using fsnode_nested_ind; intros path.
  - cbn [search_node all_files List.filter]. rewrite Hfile.
    destruct (negb (wrong_extension self path)); reflexivity.
  - reflexivity.
  - rewrite search_dir_flat, all_files_dir, filter_flat_map. cbn [app].
    induction IH as [|[e c] es Hc _ IHes]; [reflexivity|].
    cbn [flat_map fst snd]. rewrite IHes. f_equal.
    unfold entry_files. cbn [fst snd]. cbv zeta.
    destruct c as [|sub|].
    + rewrite Hfile. cbn [List.filter].
      destruct (negb (wrong_extension self _)); reflexivity.
    + rewrite Hdir, Hn. cbn [negb]. apply Hc.
    + destruct (_filter self _ _); reflexivity.
Qed.

Lemma search_without_keywords_witness :
  search_node SampleTree.plain_processor SampleTree.root SampleTree.tree []
  = List.filter (λ f, negb (wrong_extension SampleTree.plain_processor f))
      (all_files SampleTree.root SampleTree.tree)
  ∧ all_files SampleTree.root SampleTree.tree
    = [mkPath "films/movie.mkv"; mkPath "films/notes.txt";
       mkPath "films/extras/clip.mkv"; mkPath "films/extras/sample-trailer.mkv"].
Proof.
  split; [|reflexivity].
  apply (search_without_keywords SampleTree.plain_processor SampleTree.tree);
    reflexivity.
Defined.

(** X7. The list argument of [_search_files], when omitted, is one
    list shared by all such calls: a first call returns what it finds,
    and a second one returns the first call's files followed by its
    own, whichever processor and root it is made for. *)
Theorem default_list_accumulates self1 node1 self2 node2 :
  ∃ defaults1 defaults2,
    search_from_default self1 (Some node1) []
      = (Ok (search_node self1 (path self1) node1 []), defaults1)
    ∧ search_from_default self2 (Some node2) defaults1
      = (Ok (search_node self1 (path self1) node1 []
             ++ search_node self2 (path self2) node2 []), defaults2).
Proof.
  eexists _, _. unfold search_from_default, _search_files. split; [reflexivity|].
  rewrite (search_node_app self2 node2 (path self2)). reflexivity.
Qed.

(** ** Suffixes and extensions *)

Lemma rfind_from_drop c s : ∀ i j,
  Str.rfind_from c s i = Some j →
  ∃ k rest, j = (i + k)%nat ∧ Str.drop k s = String c rest.
Proof.
  induction s as [|a s IH]; intros i j; cbn [Str.rfind_from]; [discriminate|].
  destruct (Str.rfind_from c s (S i)) as [j'|] eqn:E.
  - intros [= <-]. destruct (IH _ _ E) as (k & rest & -> & Hd).
    exists (S k), rest. split; [lia|exact Hd].
  - destruct (Ascii.eqb a c) eqn:Ea; [|discriminate].
    intros [= <-]. apply Ascii.eqb_eq in Ea as ->.
    exists 0%nat, s. split; [lia|reflexivity].
Qed.

(** A suffix is empty or starts with a dot. *)
Lemma suffix_dot p :
  PathOps.suffix p = EmptyString
  ∨ ∃ rest, PathOps.suffix p = String "." rest.
Proof.
  unfold PathOps.suffix. cbv zeta.
  destruct (Str.rfind "." (PathOps.name p)) as [i|] eqn:E; [|auto].
  destruct (Nat.ltb 0 i && Nat.ltb i (String.length (PathOps.name p) - 1));
    [|auto].
  right. destruct (rfind_from_drop _ _ _ _ E) as (k & rest & -> & Hd).
  exists rest. exact Hd.
Qed.

(** X8. Extensions are compared with [Path.suffix], which has its
    leading dot: when the extensions are all written without one (and
    none is empty), no file passes the filter and the walk of any tree
    returns nothing. *)
Theorem dotless_extensions_find_nothing self path node :
  extensions self ≠ [] →
  (∀ ext, ext ∈ extensions self →
     ext ≠ EmptyString ∧ Str.starts_with "." ext = false) →
  search_node self path node [] = [].
Proof.
  intros Hne Hext.
  assert (Hrej : ∀ f, _filter self f FsFile = false).
  { intros f. destruct (_filter self f FsFile) eqn:E; [|reflexivity].
    apply filter_file in E as (_ & _ & Hx). unfold wrong_extension in Hx.
    destruct (extensions self) as [|e0 es] eqn:Ee; [congruence|].
    cbn [nonempty andb] in Hx. apply negb_false_iff, existsb_exists in Hx
      as (ext & Hin & Heq).
    apply String.eqb_eq in Heq. apply list_elem_of_In in Hin.
    destruct (Hext ext Hin) as [Hnonempty Hdot].
    destruct (suffix_dot f) as [Hs|[rest Hs]]; rewrite Hs in Heq; subst ext.
    - congruence.
    - cbn in Hdot. discriminate. }
  destruct (search_node self path node []) as [|f l] eqn:E; [reflexivity|].
  assert (Hin : f ∈ search_node self path node [])
    by (rewrite E; apply list_elem_of_here).
  apply search_node_found, found_in_passes in Hin. rewrite Hrej in Hin.
  discriminate.
Qed.

Lemma dotless_extensions_find_nothing_witness :
  search_node SampleTree.dotless_processor SampleTree.root SampleTree.tree [] = [].
Proof.
  apply dotless_extensions_find_nothing; [discriminate|].
  intros ext Hin. apply list_elem_of_In in Hin.
  destruct Hin as [<-|[<-|[]]]; split; try discriminate; reflexivity.
Defined.

(** ** Keyword lists of the configuration *)

Lemma lstrip_split l :
  ∃ blanks, l = blanks ++ Str.lstrip l ∧ Forall (λ c, Str.is_space c = true) blanks.
Proof.
  induction l as [|c l (blanks & Hl & Hb)]; [exists []; split; [reflexivity|constructor]|].
  cbn [Str.lstrip]. destruct (Str.is_space c) eqn:E.
  - exists (c :: blanks). split; [cbn; congruence|constructor; assumption].
  - exists []. split; [reflexivity|constructor].
Qed.

Lemma lstrip_head l :
  match Str.lstrip l with
  | [] => True
  | c :: _ => Str.is_space c = false
  end.
Proof.
  induction l as [|c l IH]; [exact I|].
  cbn [Str.lstrip]. destruct (Str.is_space c) eqn:E; [exact IH|exact E].
Qed.

Lemma lstrip_fixed l :
  match l with [] => True | c :: _ => Str.is_space c = false end →
  Str.lstrip l = l.
Proof. destruct l as [|c l]; [reflexivity|]. cbn. intros ->. reflexivity. Qed.

Lemma strip_idempotent l : Str.strip (Str.strip l) = Str.strip l.
Proof.
  unfold Str.strip. set (a := Str.lstrip l). set (b := Str.lstrip (rev a)).
  assert (Hb : Str.lstrip b = b) by (apply lstrip_fixed, lstrip_head).
  assert (Hrb : Str.lstrip (rev b) = rev b).
  { apply lstrip_fixed.
    destruct (lstrip_split (rev a)) as (blanks & Hsplit & _). fold b in Hsplit.
    apply (f_equal (@rev _)) in Hsplit. rewrite rev_involutive, rev_app_distr in Hsplit.
    pose proof (lstrip_head l) as Ha. fold a in Ha.
    destruct (rev b) as [|c r]; [exact I|].
    rewrite Hsplit in Ha. exact Ha. }
  rewrite Hrb, rev_involutive, Hb. reflexivity.
Qed.

Lemma elem_of_rev_1 {A} (x : A) l : x ∈ rev l → x ∈ l.
Proof. rewrite !list_elem_of_In. apply in_rev. Qed.

Lemma strip_sublist l c : c ∈ Str.strip l → c ∈ l.
Proof.
  unfold Str.strip. intros H.
  apply elem_of_rev_1 in H.
  destruct (lstrip_split (rev (Str.lstrip l))) as (b1 & H1 & _).
  assert (H2 : c ∈ rev (Str.lstrip l)) by (rewrite H1; apply elem_of_app; auto).
  apply elem_of_rev_1 in H2.
  destruct (lstrip_split l) as (b2 & H3 & _).
  rewrite H3. apply elem_of_app; auto.
Qed.

Lemma chars_of_chars l : Str.chars (Str.of_chars l) = l.
Proof. apply list_ascii_of_string_of_list_ascii. Qed.

Lemma of_chars_chars s : Str.of_chars (Str.chars s) = s.
Proof. apply string_of_list_ascii_of_string. Qed.

Lemma split_on_no_sep sep s x :
  x ∈ Str.split_on sep s → sep ∉ Str.chars x.
Proof.
  revert x. induction s as [|c s IH]; intros x; cbn [Str.split_on].
  - intros H. apply list_elem_of_singleton in H as ->. cbn. apply not_elem_of_nil.
  - destruct (Ascii.eqb c sep) eqn:E.
    + intros H. apply elem_of_cons in H as [->|H]; [cbn; apply not_elem_of_nil|].
      apply IH, H.
    + destruct (Str.split_on sep s) as [|w ws]; cbn.
      * intros H. apply list_elem_of_singleton in H as ->. cbn.
        intros Hin. apply list_elem_of_singleton in Hin. subst.
        rewrite Ascii.eqb_refl in E. discriminate.
      * intros H. apply elem_of_cons in H as [->|H].
        -- cbn. intros Hin. apply elem_of_cons in Hin as [<-|Hin].
           ++ rewrite Ascii.eqb_refl in E. discriminate.
           ++ apply (IH w); [apply list_elem_of_here|exact Hin].
        -- apply IH. apply list_elem_of_further. exact H.
Qed.

(** X9. Every keyword [_strip_args] returns is non-empty, has no blank
    at either end and contains no comma. *)
Theorem strip_args_clean arg x :
  x ∈ _strip_args arg →
  x ≠ EmptyString ∧ strip_text x = x ∧ ("," : ascii) ∉ Str.chars x.
Proof.
  unfold _strip_args. intros H.
  apply list_elem_of_In, filter_In in H as [H Hne].
  apply list_elem_of_In, list_elem_of_fmap in H as (field & -> & Hfield).
  split; [|split].
  - intros E. rewrite E in Hne. discriminate.
  - unfold strip_text. rewrite chars_of_chars, strip_idempotent. reflexivity.
  - unfold strip_text. rewrite chars_of_chars. intros Hin.
    apply strip_sublist in Hin. exact (split_on_no_sep _ _ _ Hfield Hin).
Qed.

Lemma strip_args_clean_witness :
  "sample"%string ∈ _strip_args " sample , ,trailer"
  ∧ strip_text "sample" = "sample"%string.
Proof.
  assert (H : "sample"%string ∈ _strip_args " sample , ,trailer")
    by (vm_compute; apply list_elem_of_here).
  destruct (strip_args_clean _ _ H) as (_ & Hs & _).
  split; [exact H|exact Hs].
Defined.

Lemma split_on_nonempty sep s : Str.split_on sep s ≠ [].
Proof.
  destruct s as [|c s]; cbn [Str.split_on]; [discriminate|].
  destruct (Ascii.eqb c sep); [discriminate|].
  destruct (Str.split_on sep s); discriminate.
Qed.

Lemma split_on_no_sep_text sep x :
  sep ∉ Str.chars x → Str.split_on sep x = [x].
Proof.
  induction x as [|c x IH]; cbn; [reflexivity|]. intros H.
  destruct (Ascii.eqb c sep) eqn:E.
  - apply Ascii.eqb_eq in E as ->. exfalso. apply H, list_elem_of_here.
  - rewrite IH; [reflexivity|]. intros Hin. apply H, list_elem_of_further, Hin.
Qed.

Lemma split_on_field sep x rest :
  sep ∉ Str.chars x →
  Str.split_on sep (x +:+ String sep rest) = x :: Str.split_on sep rest.
Proof.
  induction x as [|c x IH]; intros H.
  - change (EmptyString +:+ String sep rest)%string with (String sep rest).
    cbn [Str.split_on]. rewrite Ascii.eqb_refl. reflexivity.
  - change (String c x +:+ String sep rest)%string
      with (String c (x +:+ String sep rest))%string.
    cbn [Str.split_on]. cbn [Str.chars list_ascii_of_string] in H.
    destruct (Ascii.eqb c sep) eqn:E.
    + apply Ascii.eqb_eq in E as ->. exfalso. apply H, list_elem_of_here.
    + rewrite IH; [reflexivity|]. intros Hin. apply H, list_elem_of_further, Hin.
Qed.

Lemma split_join l :
  l ≠ [] → (∀ x, x ∈ l → ("," : ascii) ∉ Str.chars x) →
  Str.split_on "," (join "," l) = l.
Proof.
  induction l as [|x l IH]; [congruence|]. intros _ Hl.
  destruct l as [|y l].
  - cbn [join]. apply split_on_no_sep_text, Hl, list_elem_of_here.
  - change (join "," (x :: y :: l))
      with (x +:+ String "," (join "," (y :: l)))%string.
    rewrite split_on_field by (apply Hl, list_elem_of_here).
    rewrite IH; [reflexivity|discriminate|].
    intros z Hz. apply Hl, list_elem_of_further, Hz.
Qed.

(** X10. A list of keywords that are non-empty, without blanks at
    either end and without commas is what [_strip_args] returns for
    the keywords joined by commas. *)
Theorem strip_args_join l :
  (∀ x, x ∈ l →
     x ≠ EmptyString ∧ strip_text x = x ∧ ("," : ascii) ∉ Str.chars x) →
  _strip_args (join "," l) = l.
Proof.
  intros Hl. unfold _strip_args.
  destruct l as [|x0 l0] eqn:El; [reflexivity|]. rewrite <- El in *.
  rewrite split_join; [|rewrite El; discriminate|intros x Hx; apply Hl, Hx].
  clear El. induction l as [|x l IH]; [reflexivity|].
  destruct (Hl x (list_elem_of_here _ _)) as (Hne & Hs & _).
  cbn [fmap list_fmap List.filter]. rewrite Hs.
  apply String.eqb_neq in Hne. rewrite Hne. cbn [negb]. f_equal.
  apply IH. intros y Hy. apply Hl, list_elem_of_further, Hy.
Qed.

Lemma strip_args_join_witness :
  _strip_args (join "," [".mkv"; ".mp4"]%string) = [".mkv"; ".mp4"]%string.
Proof.
  apply strip_args_join. intros x Hx. apply list_elem_of_In in Hx.
  destruct Hx as [<-|[<-|[]]]; (split; [discriminate|split; [reflexivity|]]);
    intros H; apply list_elem_of_In in H; cbn in H; intuition discriminate.
Defined.

(** ** Streams the loop passes over *)

Lemma foldM_app {A B} (f : A → B → result A) l1 l2 a :
  foldM f a (l1 ++ l2) = (a' ← foldM f a l1; foldM f a' l2).
Proof.
  revert a. induction l1 as [|b l1 IH]; intros a; cbn [app foldM]; [reflexivity|].
  unfold mbind, result_bind in *. destruct (f a b); [apply IH|reflexivity].
Qed.

Lemma classify_unrecognised env self track :
  unrecognised track → classify env self track = Ok self.
Proof.
  intros (d & -> & H). unfold classify.
  rewrite (get_dict d "codec_type" (PStr "Unknown")).
  cbn [mbind result_bind].
  pose proof (H KVideo) as Hv. pose proof (H KAudio) as Ha.
  pose proof (H KSubtitle) as Hs. pose proof (H KAttachment) as Ht.
  cbn [kind_name] in Hv, Ha, Hs, Ht. rewrite Hv, Ha, Hs, Ht. reflexivity.
Qed.

Lemma classify_unindexed env k self track d :
  Py.get track "codec_type" (PStr "Unknown") = Ok (PStr (kind_name k)) →
  extract env k track = Ok d →
  track_index d = PNone →
  classify env self track = Ok self.
Proof.
  intros Hty Hex Hnone. unfold classify. rewrite Hty.
  destruct k; cbn -[_extract_video_info _extract_audio_info _extract_subtitle_info
         _extract_attach_info store_first record_track existsb] in *.
  - destruct (_extract_video_info env track) as [v|]; [|discriminate].
    cbn in Hex. injection Hex as <-. cbn in Hnone. cbn [mbind result_bind].
    rewrite Hnone. reflexivity.
  - destruct (_extract_audio_info env track) as [v|]; [|discriminate].
    cbn in Hex. injection Hex as <-. cbn in Hnone. cbn [mbind result_bind].
    rewrite Hnone. reflexivity.
  - destruct (_extract_subtitle_info env track) as [v|]; [|discriminate].
    cbn in Hex. injection Hex as <-. cbn in Hnone. cbn [mbind result_bind].
    rewrite Hnone. reflexivity.
  - destruct (_extract_attach_info track) as [v|]; [|discriminate].
    cbn in Hex. injection Hex as <-. cbn in Hnone. cbn [mbind result_bind].
    rewrite Hnone. reflexivity.
Qed.

(** X11. A stream that is an object with a missing or unknown
    [codec_type] can be taken out of the stream list without changing
    what the loop does: the same instance, or the same exception. *)
Theorem unrecognised_stream_ignored env self before track after :
  unrecognised track →
  foldM (classify env) self (before ++ track :: after)
  = foldM (classify env) self (before ++ after).
Proof.
  intros H. rewrite !foldM_app. unfold mbind, result_bind.
  destruct (foldM (classify env) self before) as [self1|]; [|reflexivity].
  cbn [foldM]. rewrite (classify_unrecognised env self1 track H). reflexivity.
Qed.

Lemma unrecognised_stream_ignored_witness :
  foldM (classify Sample.env) SampleFonts.blank
    ([Sample.video_stream] ++ SampleFonts.data_stream :: [Sample.audio_stream])
  = foldM (classify Sample.env) SampleFonts.blank
      ([Sample.video_stream] ++ [Sample.audio_stream]).
Proof.
  apply unrecognised_stream_ignored.
  eexists. split; [reflexivity|]. intros []; reflexivity.
Defined.

(** X12. A stream of a recognised type whose record has no index (the
    key is missing or null) is dropped whole: taking it out of the
    stream list changes nothing, not even the font counter. *)
Theorem unindexed_stream_dropped env self before track after k d :
  Py.get track "codec_type" (PStr "Unknown") = Ok (PStr (kind_name k)) →
  extract env k track = Ok d →
  track_index d = PNone →
  foldM (classify env) self (before ++ track :: after)
  = foldM (classify env) self (before ++ after).
Proof.
  intros Hty Hex Hnone. rewrite !foldM_app. unfold mbind, result_bind.
  destruct (foldM (classify env) self before) as [self1|]; [|reflexivity].
  cbn [foldM]. rewrite (classify_unindexed env k self1 track d Hty Hex Hnone).
  reflexivity.
Qed.

Lemma unindexed_stream_dropped_witness :
  foldM (classify Sample.env) SampleFonts.blank
    ([] ++ SampleFonts.unindexed_video :: [Sample.audio_stream])
  = foldM (classify Sample.env) SampleFonts.blank ([] ++ [Sample.audio_stream]).
Proof.
  destruct (_extract_video_info Sample.env SampleFonts.unindexed_video)
    as [v|] eqn:Ev; [|vm_compute in Ev; discriminate].
  assert (Hi : VideoTrack.index v = PNone)
    by (vm_compute in Ev; injection Ev as <-; reflexivity).
  apply (unindexed_stream_dropped Sample.env SampleFonts.blank []
           SampleFonts.unindexed_video [Sample.audio_stream] KVideo (Video v)).
  - reflexivity.
  - cbn [extract]. rewrite Ev. reflexivity.
  - exact Hi.
Defined.

(** ** The font counter *)

Lemma record_track_buckets index ty self self' :
  record_track index ty self = Ok self' →
  MediaInfo._attach_fonts self' = MediaInfo._attach_fonts self
  ∧ ∀ k, bucket k self' = bucket k self.
Proof.
  unfold record_track. unfold mbind, result_bind.
  destruct (Dict.setitem _ _ _); [|discriminate].
  intros [= <-]. split; [reflexivity|]. intros []; reflexivity.
Qed.

Lemma font_attachment_other track ty :
  Py.get track "codec_type" (PStr "Unknown") = Ok ty →
  Py.eq_str ty "attachment" = false →
  font_attachment track = false.
Proof.
  intros Hty H. unfold font_attachment. rewrite Hty, H.
  destruct (Py.get track "index" PNone); [|reflexivity].
  destruct (Py.get track "codec_name" (PStr EmptyString)); reflexivity.
Qed.

Lemma extract_attach_index track v :
  _extract_attach_info track = Ok v →
  Py.get track "index" PNone = Ok (AttachTrack.index v).
Proof.
  unfold _extract_attach_info. unfold mbind, result_bind.
  destruct (Py.get track "tags" _); [|discriminate].
  destruct (Py.get track "index" PNone); [|discriminate].
  repeat match goal with
         | |- match ?x with Ok _ => _ | Raise _ => _ end = _ → _ =>
             destruct x; [|discriminate]
         end.
  intros [= <-]. reflexivity.
Qed.

(** One iteration adds one to the font counter for a font attachment
    and leaves it alone otherwise. *)
Lemma classify_fonts env self track self' :
  classify env self track = Ok self' →
  MediaInfo._attach_fonts self' =
    (MediaInfo._attach_fonts self + if font_attachment track then 1 else 0)%Z.
Proof.
  unfold classify.
  destruct (Py.get track "codec_type" _) as [ty|] eqn:Ety; [|discriminate].
  cbn [mbind result_bind].
  destruct (Py.eq_str ty "video") eqn:E1;
    [|destruct (Py.eq_str ty "audio") eqn:E2;
      [|destruct (Py.eq_str ty "subtitle") eqn:E3;
        [|destruct (Py.eq_str ty "attachment") eqn:E4]]].
  - apply eq_str_true in E1 as ->.
    rewrite (font_attachment_other track _ Ety eq_refl), Z.add_0_r.
    destruct (_extract_video_info env track) as [v|]; [|discriminate].
    cbn [mbind result_bind].
    destruct (Py.is_none (VideoTrack.index v)); [intros [= <-]; reflexivity|].
    destruct (store_first _ _ _); [|discriminate]. cbn [mbind result_bind].
    intros H. apply record_track_buckets in H as [H _]. exact H.
  - apply eq_str_true in E2 as ->.
    rewrite (font_attachment_other track _ Ety eq_refl), Z.add_0_r.
    destruct (_extract_audio_info env track) as [v|]; [|discriminate].
    cbn [mbind result_bind].
    destruct (Py.is_none (AudioTrack.index v)); [intros [= <-]; reflexivity|].
    destruct (store_first _ _ _); [|discriminate]. cbn [mbind result_bind].
    intros H. apply record_track_buckets in H as [H _]. exact H.
  - apply eq_str_true in E3 as ->.
    rewrite (font_attachment_other track _ Ety eq_refl), Z.add_0_r.
    destruct (_extract_subtitle_info env track) as [v|]; [|discriminate].
    cbn [mbind result_bind].
    destruct (Py.is_none (SubtitleTrack.index v)); [intros [= <-]; reflexivity|].
    destruct (store_first _ _ _); [|discriminate]. cbn [mbind result_bind].
    intros H. apply record_track_buckets in H as [H _]. exact H.
  - destruct (_extract_attach_info track) as [v|] eqn:Ev; [|discriminate].
    cbn [mbind result_bind].
    unfold font_attachment.
    rewrite Ety, (extract_attach_index _ _ Ev), E4.
    destruct (Py.is_none (AttachTrack.index v)).
    { intros [= <-].
      destruct (Py.get track "codec_name" _); cbn; lia. }
    destruct (Py.get track "codec_name" _) as [cn|]; [|discriminate].
    cbn [mbind result_bind andb negb].
    destruct (existsb (Py.eq_str cn) font_codecs);
      (destruct (store_first _ _ _); [|discriminate]); cbn [mbind result_bind];
      intros H; apply record_track_buckets in H as [H _]; rewrite H; cbn; lia.
  - intros [= <-]. rewrite (font_attachment_other track _ Ety E4). lia.
Qed.

Lemma loop_fonts env tracks : ∀ self self',
  foldM (classify env) self tracks = Ok self' →
  MediaInfo._attach_fonts self' =
    (MediaInfo._attach_fonts self
     + Z.of_nat (List.length (List.filter font_attachment tracks)))%Z.
Proof.
  induction tracks as [|track tracks IH]; intros self self'; cbn [foldM].
  - intros [= <-]. cbn. lia.
  - unfold mbind, result_bind.
    destruct (classify env self track) as [self1|] eqn:E; [|discriminate].
    intros H. rewrite (IH _ _ H), (classify_fonts _ _ _ _ E).
    cbn [List.filter]. destruct (font_attachment track); cbn [List.length]; lia.
Qed.

(** X13. When [_get_tracks_data] returns on a new instance,
    [total_fonts] is the number of streams that are attachments with
    an index and a font codec name ([ttf], [ttc], [woff], [woff2]):
    each such stream counts, also one whose index an earlier
    attachment has taken. *)
Theorem total_fonts_counts_font_streams env file_path raw fd streams tracks self' :
  Py.get raw "streams" (PList []) = Ok streams →
  py_iter streams = Ok tracks →
  _get_tracks_data env (fresh_instance file_path raw fd) = Ok self' →
  MediaInfo.total_fonts self' =
    Z.of_nat (List.length (List.filter font_attachment tracks)).
Proof.
  intros Hs Ht H. unfold _get_tracks_data in H.
  change (MediaInfo._raw_info (fresh_instance file_path raw fd)) with raw in H.
  rewrite Hs in H. cbn [mbind result_bind] in H. rewrite Ht in H.
  cbn [mbind result_bind] in H. apply loop_fonts in H.
  unfold MediaInfo.total_fonts. rewrite H. reflexivity.
Qed.

Lemma total_fonts_counts_font_streams_witness :
  ∃ self',
    _get_tracks_data Sample.env
      (fresh_instance (PPath Sample.movie)
         (PDict [("streams"%string,
                  PList [SampleFonts.font_a; SampleFonts.font_b])])
         (MediaInfo._format_data SampleFonts.blank)) = Ok self'
    ∧ MediaInfo.total_fonts self' = 2%Z
    ∧ MediaInfo.total_attach_tracks self' = 1%Z.
Proof.
  destruct (_get_tracks_data Sample.env
      (fresh_instance (PPath Sample.movie)
         (PDict [("streams"%string,
                  PList [SampleFonts.font_a; SampleFonts.font_b])])
         (MediaInfo._format_data SampleFonts.blank))) as [self'|] eqn:E;
    [|vm_compute in E; discriminate].
  exists self'. split; [reflexivity|]. split.
  - rewrite (total_fonts_counts_font_streams Sample.env (PPath Sample.movie)
               (PDict [("streams"%string,
                        PList [SampleFonts.font_a; SampleFonts.font_b])])
               (MediaInfo._format_data SampleFonts.blank)
               (PList [SampleFonts.font_a; SampleFonts.font_b])
               [SampleFonts.font_a; SampleFonts.font_b] self'
               eq_refl eq_refl E).
    reflexivity.
  - vm_compute in E. injection E as <-. reflexivity.
Defined.

(** ** The per-type index lists *)

Lemma kind_name_inj k k' : kind_name k = kind_name k' → k = k'.
Proof. destruct k, k'; simpl; congruence. Qed.

Lemma fst_view {V W} (f : V → W) (d : pydict V) :
  (prod_map id f <$> d).*1 = d.*1.
Proof. induction d as [|[k v] d IH]; simpl; [reflexivity|]. f_equal. exact IH. Qed.

Lemma classify_by_type env self track self' :
  classify env self track = Ok self' →
  (∀ k, (bucket k self).*1 `sublist_of`
          default [] (MediaInfo._tracks_by_type self !! kind_name k)) →
  ∀ k, (bucket k self').*1 `sublist_of`
          default [] (MediaInfo._tracks_by_type self' !! kind_name k).
Proof.
  intros H Hinv k.
  destruct (classify_inv _ _ _ _ H) as [->|(k0 & d & Hty & Hex & Hn & Hh)];
    [apply Hinv|].
  destruct (classify_recognised env k0 self track d Hty Hex Hn Hh)
    as (self1 & H1 & Hb & Hother & _ & Hbt).
  rewrite H in H1. injection H1 as <-. rewrite Hbt.
  destruct (decide (k = k0)) as [->|Hne].
  - rewrite lookup_insert_eq. cbn [default]. rewrite Hb.
    destruct (Dict.lookup _ _).
    + apply sublist_inserts_r, Hinv.
    + rewrite fmap_app. apply sublist_app; [apply Hinv|reflexivity].
  - rewrite lookup_insert_ne by (intros E; apply kind_name_inj in E; congruence).
    rewrite (Hother k Hne). apply Hinv.
Qed.

Lemma loop_by_type env tracks : ∀ self self',
  foldM (classify env) self tracks = Ok self' →
  (∀ k, (bucket k self).*1 `sublist_of`
          default [] (MediaInfo._tracks_by_type self !! kind_name k)) →
  ∀ k, (bucket k self').*1 `sublist_of`
          default [] (MediaInfo._tracks_by_type self' !! kind_name k).
Proof.
  induction tracks as [|track tracks IH]; intros self self'; cbn [foldM].
  - intros [= <-] H. exact H.
  - unfold mbind, result_bind.
    destruct (classify env self track) as [self1|] eqn:E; [|discriminate].
    intros H Hinv. apply (IH _ _ H). eapply classify_by_type; eauto.
Qed.

(** X14. When [_get_tracks_data] returns on a new instance, the
    indexes of each type's bucket are, in order, among the type's
    list in [tracks_by_type]; so the list is at least as long as the
    type's total. *)
Theorem bucket_indexes_in_by_type env file_path raw fd self' k :
  _get_tracks_data env (fresh_instance file_path raw fd) = Ok self' →
  (bucket k self').*1 `sublist_of`
    default [] (MediaInfo._tracks_by_type self' !! kind_name k)
  ∧ (total_of k self' ≤
       Z.of_nat (List.length
         (default [] (MediaInfo._tracks_by_type self' !! kind_name k))))%Z.
Proof.
  intros H. apply get_tracks_data_loop in H as (streams & tracks & _ & _ & H).
  assert (Hs : (bucket k self').*1 `sublist_of`
            default [] (MediaInfo._tracks_by_type self' !! kind_name k)).
  { apply (loop_by_type _ _ _ _ H). intros []; cbn; apply sublist_nil_l. }
  split; [exact Hs|].
  rewrite total_of_bucket. apply sublist_length in Hs.
  rewrite length_fmap in Hs. lia.
Qed.

Lemma bucket_indexes_in_by_type_witness :
  ∃ self',
    _get_tracks_data Sample.env
      (fresh_instance (PPath Sample.movie)
         (PDict [("streams"%string,
                  PList [SampleFonts.font_a; SampleFonts.font_b])])
         (MediaInfo._format_data SampleFonts.blank)) = Ok self'
    ∧ (total_of KAttachment self' ≤
         Z.of_nat (List.length
           (default [] (MediaInfo._tracks_by_type self' !! "attachment"%string))))%Z.
Proof.
  destruct (_get_tracks_data Sample.env
      (fresh_instance (PPath Sample.movie)
         (PDict [("streams"%string,
                  PList [SampleFonts.font_a; SampleFonts.font_b])])
         (MediaInfo._format_data SampleFonts.blank))) as [self'|] eqn:E;
    [|vm_compute in E; discriminate].
  exists self'. split; [reflexivity|].
  apply (bucket_indexes_in_by_type _ _ _ _ _ KAttachment E).
Defined.

(** ** Reading tracks back *)

Lemma lookup_app_none {V} k (d d' : pydict V) :
  Dict.lookup k d = None → Dict.lookup k (d ++ d') = Dict.lookup k d'.
Proof.
  induction d as [|[k0 v0] d IH]; simpl; [reflexivity|].
  destruct (Py.key_eq k0 k); [discriminate|exact IH].
Qed.

Lemma lookup_stored {V} k (v : V) (d : pydict V) :
  Py.key_eq k k = true →
  Dict.lookup k
    (match Dict.lookup k d with Some _ => d | None => d ++ [(k, v)] end)
  = Some (default v (Dict.lookup k d)).
Proof.
  intros Hk. destruct (Dict.lookup k d) as [v0|] eqn:E; [exact E|].
  rewrite (lookup_app_none _ _ _ E). simpl. rewrite Hk. reflexivity.
Qed.

(** X15. After the loop has handled a stream of type video, audio or
    subtitle whose index equals itself, [get] on that index returns
    the record the type's bucket had under the index, or else the
    record of this stream; after an attachment it returns [None],
    the attribute [_attachment_tracks] not being one of the object. *)
Theorem classified_track_read_back env k self track d self' :
  Py.get track "codec_type" (PStr "Unknown") = Ok (PStr (kind_name k)) →
  extract env k track = Ok d →
  track_index d ≠ PNone →
  Py.key_eq (track_index d) (track_index d) = true →
  classify env self track = Ok self' →
  MediaInfo_get self' (track_index d) =
    Ok (if decide (k = KAttachment) then None
        else Some (default d (Dict.lookup (track_index d) (bucket k self)))).
Proof.
  intros Hty Hex Hn Hk H.
  destruct (key_eq_hashable _ _ Hk) as (Hh & _ & _).
  destruct (classify_recognised env k self track d Hty Hex Hn Hh)
    as (self1 & H1 & Hb & _ & Ht & _).
  rewrite H in H1. injection H1 as <-.
  unfold MediaInfo_get. rewrite Hh, Ht, (lookup_update_same _ _ _ Hk).
  cbn [default from_option id].
  destruct k; cbn [kind_name]; unfold tracks_attr;
    cbn [String.eqb Ascii.eqb Bool.eqb andb]; try reflexivity;
    rewrite Hb, (lookup_stored _ _ _ Hk); reflexivity.
Qed.

Lemma classified_track_read_back_witness :
  ∃ self' d,
    classify Sample.env SampleFonts.blank Sample.audio_stream = Ok self'
    ∧ extract Sample.env KAudio Sample.audio_stream = Ok d
    ∧ MediaInfo_get self' (track_index d) = Ok (Some d).
Proof.
  destruct (classify Sample.env SampleFonts.blank Sample.audio_stream)
    as [self'|] eqn:E; [|vm_compute in E; discriminate].
  destruct (extract Sample.env KAudio Sample.audio_stream)
    as [d|] eqn:Ed; [|vm_compute in Ed; discriminate].
  exists self', d. split; [reflexivity|]. split; [reflexivity|].
  assert (Hi : track_index d = PInt 1)
    by (vm_compute in Ed; injection Ed as <-; reflexivity).
  apply (classified_track_read_back Sample.env KAudio SampleFonts.blank
           Sample.audio_stream d self' eq_refl Ed).
  - rewrite Hi. discriminate.
  - rewrite Hi. reflexivity.
  - exact E.
Defined.

Lemma update_typed k ty (d : pydict string) :
  Forall (λ kv, ∃ k, kv.2 = kind_name k) d →
  Forall (λ kv, ∃ k, kv.2 = kind_name k)
    (Dict.update k (kind_name ty) d).
Proof.
  induction 1 as [|[k0 v0] d H0 Hd IH]; simpl.
  - constructor; [exists ty; reflexivity|constructor].
  - destruct (Py.key_eq k0 k).
    + constructor; [exists ty; reflexivity|assumption].
    + constructor; assumption.
Qed.

Lemma lookup_typed k (d : pydict string) ty :
  Forall (λ kv, ∃ k, kv.2 = kind_name k) d →
  Dict.lookup k d = Some ty → ∃ k', ty = kind_name k'.
Proof.
  induction 1 as [|[k0 v0] d H0 _ IH]; simpl; [discriminate|].
  destruct (Py.key_eq k0 k); [|exact IH].
  intros [= <-]. exact H0.
Qed.

Lemma classify_typed env self track self' :
  classify env self track = Ok self' → tracks_typed self → tracks_typed self'.
Proof.
  intros H Hinv.
  destruct (classify_inv _ _ _ _ H) as [->|(k0 & d & Hty & Hex & Hn & Hh)];
    [exact Hinv|].
  destruct (classify_recognised env k0 self track d Hty Hex Hn Hh)
    as (self1 & H1 & _ & _ & Ht & _).
  rewrite H in H1. injection H1 as <-.
  unfold tracks_typed. rewrite Ht. apply update_typed, Hinv.
Qed.

Lemma loop_typed env tracks : ∀ self self',
  foldM (classify env) self tracks = Ok self' →
  tracks_typed self → tracks_typed self'.
Proof.
  induction tracks as [|track tracks IH]; intros self self'; cbn [foldM].
  - intros [= <-] H. exact H.
  - unfold mbind, result_bind.
    destruct (classify env self track) as [self1|] eqn:E; [|discriminate].
    intros H Hinv. apply (IH _ _ H). eapply classify_typed; eauto.
Qed.

(** X16. On an instance [_get_tracks_data] has filled, a record
    [get] returns for an index comes from the bucket of the type the
    index map names for it, and that type is video, audio or subtitle:
    [get] never returns an attachment. *)
Theorem get_returns_no_attachment env file_path raw fd self' index r :
  _get_tracks_data env (fresh_instance file_path raw fd) = Ok self' →
  MediaInfo_get self' index = Ok (Some r) →
  (∃ k, k ≠ KAttachment
        ∧ Dict.lookup index (MediaInfo._tracks self') = Some (kind_name k)
        ∧ Dict.lookup index (bucket k self') = Some r)
  ∧ ∀ a, r ≠ Attach a.
Proof.
  intros H Hget.
  apply get_tracks_data_loop in H as (streams & tracks & _ & _ & H).
  assert (Hinv : tracks_typed self').
  { apply (loop_typed _ _ _ _ H). constructor. }
  unfold MediaInfo_get in Hget.
  destruct (Py.hashable index); [|discriminate].
  destruct (Dict.lookup index (MediaInfo._tracks self')) as [ty|] eqn:Et;
    [|discriminate].
  destruct (lookup_typed _ _ _ Hinv Et) as [k ->].
  cbn [default from_option id] in Hget.
  destruct k; cbn [kind_name] in Hget; unfold tracks_attr in Hget;
    cbn [String.eqb Ascii.eqb Bool.eqb andb] in Hget;
    try discriminate; injection Hget as Hget.
  - split; [exists KVideo; repeat apply conj; [discriminate|reflexivity|exact Hget]|].
    intros a ->. cbn [bucket] in Hget. rewrite lookup_view in Hget.
    destruct (Dict.lookup index _); discriminate.
  - split; [exists KAudio; repeat apply conj; [discriminate|reflexivity|exact Hget]|].
    intros a ->. cbn [bucket] in Hget. rewrite lookup_view in Hget.
    destruct (Dict.lookup index _); discriminate.
  - split; [exists KSubtitle; repeat apply conj; [discriminate|reflexivity|exact Hget]|].
    intros a ->. cbn [bucket] in Hget. rewrite lookup_view in Hget.
    destruct (Dict.lookup index _); discriminate.
Qed.

Lemma get_returns_no_attachment_witness :
  ∃ self' r,
    _get_tracks_data Sample.env
      (fresh_instance (PPath Sample.movie)
         (PDict [("streams"%string,
                  PList [Sample.audio_stream; SampleFonts.font_a])])
         (MediaInfo._format_data SampleFonts.blank)) = Ok self'
    ∧ MediaInfo_get self' (PInt 1) = Ok (Some r)
    ∧ MediaInfo_get self' (PInt 3) = Ok None
    ∧ ∀ a, r ≠ Attach a.
Proof.
  destruct (_get_tracks_data Sample.env
      (fresh_instance (PPath Sample.movie)
         (PDict [("streams"%string,
                  PList [Sample.audio_stream; SampleFonts.font_a])])
         (MediaInfo._format_data SampleFonts.blank))) as [self'|] eqn:E;
    [|vm_compute in E; discriminate].
  destruct (MediaInfo_get self' (PInt 1)) as [[r|]|] eqn:Eg;
    [| vm_compute in E; injection E as <-; vm_compute in Eg; discriminate
     | vm_compute in E; injection E as <-; vm_compute in Eg; discriminate].
  exists self', r. split; [reflexivity|]. split; [exact Eg|]. split.
  - clear Eg. vm_compute in E. injection E as <-. reflexivity.
  - apply (get_returns_no_attachment _ _ _ _ _ _ _ E Eg).
Defined.

(** ** The byte counter of a catalogue *)

Lemma catalog_loop_sizes env self files : ∀ extracted data st data' st',
  str_keys (_files st) →
  catalog_loop env self files extracted data st = (Ok data', st') →
  ∃ objs,
    heap st' = heap st ++ (Some <$> objs)
    ∧ MediaInfo._file_path <$> objs = PPath <$> mkv_files files
    ∧ _total_file_size st' = (_total_file_size st + sizes objs)%Z
    ∧ ∀ j : nat, (j < List.length objs)%nat →
        data' !! (extracted + 1 + Z.of_nat j)%Z
        = Some (List.length (heap st) + j)%nat.
Proof.
  induction files as [|file files IH]; intros extracted data st data' st' Hk H.
  - cbn in H. unfold ret in H. injection H as <- <-.
    exists []. cbn. rewrite app_nil_r.
    repeat apply conj; [reflexivity|reflexivity|lia|intros j Hj; lia].
  - cbn [catalog_loop] in H. rewrite mkv_files_cons.
    destruct (String.eqb (PathOps.suffix file) ".mkv"); [|apply (IH _ _ _ _ _ Hk H)].
    unfold bind at 1 in H.
    destruct (MediaInfo_call env (PPath file) (debug self) st)
      as [[ref|e] st1] eqn:E1; [|discriminate].
    destruct (call_on_path _ _ _ _ _ _ Hk E1)
      as (Hk1 & _ & _ & -> & Hp1 & o & Hh1 & Hpath & Htot).
    destruct (catalog_loop_spec _ _ _ _ _ _ _ _ Hk1 H) as (_ & _ & Hkeep).
    destruct (Hkeep data' eq_refl) as (_ & Hle & _ & _).
    destruct (IH _ _ _ _ _ Hk1 H) as (objs & Hh & Hps & Ht & Hd).
    exists (o :: objs). repeat apply conj.
    + rewrite Hh, Hh1, <- app_assoc. reflexivity.
    + cbn [fmap list_fmap]. rewrite Hpath. f_equal. exact Hps.
    + rewrite Ht, Htot. cbn [sizes foldr]. fold (sizes objs). lia.
    + intros [|j] Hj.
      * rewrite Z.add_0_r, Nat.add_0_r, Hle by lia.
        apply lookup_insert_eq.
      * cbn [List.length] in Hj.
        replace (extracted + 1 + Z.of_nat (S j))%Z
          with (extracted + 1 + 1 + Z.of_nat j)%Z by lia.
        rewrite (Hd j) by lia. rewrite Hh1, length_app. cbn [List.length].
        f_equal. lia.
Qed.

(** X17. When [_get_media_info] returns, it has created one instance
    per [.mkv] file of the list, in the list's order and after the
    objects there were; the catalogue's key [j + 1] is the [j]-th of
    them, and the class-wide byte counter has grown by the sum of the
    sizes their format summaries report. *)
Theorem catalog_counts_sizes env self files st data st' :
  str_keys (_files st) →
  _get_media_info env self files st = (Ok data, st') →
  ∃ objs,
    heap st' = heap st ++ (Some <$> objs)
    ∧ MediaInfo._file_path <$> objs = PPath <$> mkv_files files
    ∧ _total_file_size st' = (_total_file_size st + sizes objs)%Z
    ∧ ∀ j : nat, (j < List.length objs)%nat →
        data !! (Z.of_nat j + 1)%Z = Some (List.length (heap st) + j)%nat.
Proof.
  intros Hk H. unfold _get_media_info in H.
  destruct (catalog_loop_sizes _ _ _ _ _ _ _ _ Hk H) as (objs & H1 & H2 & H3 & H4).
  exists objs. repeat apply conj; try assumption.
  intros j Hj. rewrite <- (H4 j Hj). f_equal. lia.
Qed.

Lemma catalog_counts_sizes_witness :
  ∃ data st',
    _get_media_info Sample.env Sample.processor
      [Sample.movie; mkPath "films/notes.txt"; Sample.movie] initial_state
    = (Ok data, st')
    ∧ ∃ objs,
        heap st' = heap initial_state ++ (Some <$> objs)
        ∧ MediaInfo._file_path <$> objs
          = PPath <$> mkv_files
              [Sample.movie; mkPath "films/notes.txt"; Sample.movie]
        ∧ _total_file_size st'
          = (_total_file_size initial_state + sizes objs)%Z
        ∧ ∀ j : nat, (j < List.length objs)%nat →
            data !! (Z.of_nat j + 1)%Z
            = Some (List.length (heap initial_state) + j)%nat.
Proof.
  destruct (_get_media_info Sample.env Sample.processor
      [Sample.movie; mkPath "films/notes.txt"; Sample.movie] initial_state)
    as [[data|e] st'] eqn:E; [|vm_compute in E; discriminate].
  exists data, st'. split; [reflexivity|].
  exact (catalog_counts_sizes Sample.env Sample.processor
           [Sample.movie; mkPath "films/notes.txt"; Sample.movie]
           initial_state data st' (Forall_nil_2 _) E).
Defined.

(** ** The registry *)






Lemma get_raw_data_keeps env file_path st r st' :
  _get_raw_data env file_path st = (r, st') →
  _debug_mode st' = _debug_mode st ∧ _files st' = _files st
  ∧ heap st' = heap st ∧ _total_file_size st' = _total_file_size st.
Proof.
  intros H. destruct (get_raw_data_frame _ _ _ _ _ H) as [[-> | ->] _];
    repeat apply conj; reflexivity.
Qed.

Lemma get_format_data_debug raw st r st' :
  _get_format_data raw st = (r, st') → _debug_mode st' = _debug_mode st.
Proof.
  unfold _get_format_data, _increase_cached_size. unfold_M.
  unfold mbind, result_bind.
  repeat match goal with
         | |- context [match ?x with Ok _ => _ | Raise _ => _ end] =>
             destruct x
         end;
    intros [= <- <-]; auto.
Qed.




(** X19. The debug mode is one flag for the whole class: a
    construction on a [Path] sets it to the [debug] it was given,
    also when the construction raises. *)
Theorem path_construction_sets_debug env p dbg st r st' :
  str_keys (_files st) →
  MediaInfo_call env (PPath p) dbg st = (r, st') →
  _debug_mode st' = dbg.
Proof.
  intros Hk. unfold MediaInfo_call. unfold bind at 1.
  rewrite (new_on_path env p st Hk).
  set (stA := set_files _ _).
  assert (Hl : heap stA !! List.length (heap st) = Some None).
  { cbn. rewrite lookup_app_r by lia. rewrite Nat.sub_diag. reflexivity. }
  unfold __init__, bind, get_state, modify, ret, lift. cbv beta iota.
  rewrite Hl.
  set (stB := set_debug_mode dbg stA).
  assert (HB : _debug_mode stB = dbg) by reflexivity.
  destruct (_get_raw_data env (PPath p) stB) as [[raw|e] stC] eqn:Eraw.
  all: destruct (get_raw_data_keeps _ _ _ _ _ Eraw) as (Hd1 & _).
  2:{ intros [= <- <-]. congruence. }
  destruct (_get_format_data raw stC) as [[fd|e] stD] eqn:Efd.
  all: pose proof (get_format_data_debug _ _ _ _ Efd) as Hd2.
  2:{ intros [= <- <-]. congruence. }
  destruct (_get_tracks_data env _) as [obj|e];
    intros [= <- <-]; cbn [_debug_mode set_heap]; congruence.
Qed.

Lemma path_construction_sets_debug_witness :
  ∃ r st',
    MediaInfo_call Sample.without_tool (PPath Sample.movie) true initial_state
      = (r, st')
    ∧ is_ok r = false ∧ _debug_mode st' = true.
Proof.
  destruct (MediaInfo_call Sample.without_tool (PPath Sample.movie) true
              initial_state) as [r st'] eqn:E.
  exists r, st'. split; [reflexivity|]. split.
  - vm_compute in E. injection E as <- _. reflexivity.
  - exact (path_construction_sets_debug Sample.without_tool Sample.movie true
             initial_state r st' (Forall_nil_2 _) E).
Defined.

(** X20. A construction on a [Path] that raises has all the same
    allocated an object and put it in the registry under the path's
    text: the object stays there without [created], and the registry
    no longer leads to what it held for that text. *)
Theorem failed_construction_stays_registered env p dbg st e st' :
  str_keys (_files st) →
  MediaInfo_call env (PPath p) dbg st = (Raise e, st') →
  heap st' = heap st ++ [None]
  ∧ Dict.lookup (PStr (path_str p)) (_files st') = Some (List.length (heap st)).
Proof.
  intros Hk. unfold MediaInfo_call. unfold bind at 1.
  rewrite (new_on_path env p st Hk).
  set (stA := set_files _ _).
  assert (Hl : heap stA !! List.length (heap st) = Some None).
  { cbn. rewrite lookup_app_r by lia. rewrite Nat.sub_diag. reflexivity. }
  assert (HA : heap stA = heap st ++ [None]
               ∧ Dict.lookup (PStr (path_str p)) (_files stA)
                 = Some (List.length (heap st))).
  { split; [reflexivity|]. cbn.
    apply lookup_update_same, String.eqb_refl. }
  unfold __init__, bind, get_state, modify, ret, lift. cbv beta iota.
  rewrite Hl.
  set (stB := set_debug_mode dbg stA).
  destruct (_get_raw_data env (PPath p) stB) as [[raw|e1] stC] eqn:Eraw.
  all: destruct (get_raw_data_keeps _ _ _ _ _ Eraw) as (_ & Hf1 & Hh1 & _).
  2:{ intros [= <- <-]. rewrite Hf1, Hh1. exact HA. }
  destruct (_get_format_data raw stC) as [[fd|e2] stD] eqn:Efd.
  all: destruct (get_format_data_frame _ _ _ _ Efd) as (Hf2 & Hh2 & _).
  2:{ intros [= <- <-]. rewrite Hf2, Hh2, Hf1, Hh1. exact HA. }
  destruct (_get_tracks_data env _) as [obj|e3]; [discriminate|].
  intros [= <- <-]. rewrite Hf2, Hh2, Hf1, Hh1. exact HA.
Qed.

Lemma failed_construction_stays_registered_witness :
  ∃ e st',
    MediaInfo_call Sample.without_tool (PPath Sample.movie) false initial_state
      = (Raise e, st')
    ∧ heap st' = heap initial_state ++ [None]
    ∧ Dict.lookup (PStr (path_str Sample.movie)) (_files st')
      = Some (List.length (heap initial_state)).
Proof.
  destruct (MediaInfo_call Sample.without_tool (PPath Sample.movie) false
              initial_state) as [[ref|e] st'] eqn:E;
    [vm_compute in E; discriminate|].
  exists e, st'. split; [reflexivity|].
  exact (failed_construction_stays_registered Sample.without_tool Sample.movie
           false initial_state e st' (Forall_nil_2 _) E).
Defined.

(** ** Constructing processors *)

Lemma call_registers env self node rs o rs1 :
  MediaProcessor_call env self node rs = (o, rs1) →
  existsb (String.eqb (task_key self)) (_tasks rs1) = true.
Proof.
  unfold MediaProcessor_call.
  destruct (existsb (String.eqb (task_key self)) (_tasks rs)) eqn:E.
  - intros [= <- <-]. exact E.
  - assert (Hin : existsb (String.eqb (task_key self))
                    (_tasks rs ++ [task_key self]) = true).
    { rewrite existsb_app. cbn. rewrite String.eqb_refl.
      rewrite orb_true_r. reflexivity. }
    destruct (search_from_default self node (default_files rs))
      as [[files|e] defaults].
    + destruct (_get_media_info env self files (media rs)) as [[data|e] st];
        intros [= <- <-]; exact Hin.
    + intros [= <- <-]. exact Hin.
Qed.

(** X21. Whatever a call [MediaProcessor(config)] came to (an object,
    an exception of the walk or of a probe, or a refusal), every later
    call for a configuration of the same path is refused with
    [TaskExistsError] and does nothing else: no walk, no probe; a
    construction that failed cannot be tried again. *)
Theorem second_processor_refused env self node rs o rs1 env' self' node' :
  MediaProcessor_call env self node rs = (o, rs1) →
  path self' = path self →
  MediaProcessor_call env' self' node' rs1 = (TaskExists (task_key self), rs1).
Proof.
  intros H Hp. apply call_registers in H.
  unfold MediaProcessor_call.
  assert (Hk : task_key self' = task_key self)
    by (unfold task_key; rewrite Hp; reflexivity).
  rewrite Hk, H. reflexivity.
Qed.

Lemma second_processor_refused_witness :
  ∃ e rs1,
    MediaProcessor_call Sample.env Sample.processor None initial_run
      = (Failed e, rs1)
    ∧ exc_cls e = FileNotFoundError
    ∧ MediaProcessor_call Sample.env Sample.processor (Some FsFile) rs1
      = (TaskExists (task_key Sample.processor), rs1).
Proof.
  destruct (MediaProcessor_call Sample.env Sample.processor None initial_run)
    as [o rs1] eqn:E.
  destruct o as [obj|e|key];
    [vm_compute in E; discriminate| |vm_compute in E; discriminate].
  exists e, rs1. split; [reflexivity|]. split.
  - vm_compute in E. injection E as <- _. reflexivity.
  - exact (second_processor_refused Sample.env Sample.processor None
             initial_run (Failed e) rs1 Sample.env Sample.processor
             (Some FsFile) E eq_refl).
Defined.

(** X22. A processor that was built counts in [total_files] every
    file of the default list as the walk left it (what earlier
    processors of the run found, then what this walk added), files of
    any suffix; its catalogue has the keys 1 to the number of [.mkv]
    files of that list, which is at most [total_files]. *)
Theorem processor_totals env self node rs obj rs1 :
  str_keys (_files (media rs)) →
  MediaProcessor_call env self node rs = (Built obj, rs1) →
  ∃ n,
    node = Some n
    ∧ default_files rs1 = search_node self (path self) n (default_files rs)
    ∧ _total_files obj = Z.of_nat (List.length (default_files rs1))
    ∧ (∀ k : Z, is_Some (_data obj !! k)
         ↔ (1 ≤ k ≤ Z.of_nat (List.length (mkv_files (default_files rs1))))%Z)
    ∧ (Z.of_nat (List.length (mkv_files (default_files rs1)))
       ≤ _total_files obj)%Z.
Proof.
  intros Hk. unfold MediaProcessor_call.
  destruct (existsb _ _); [discriminate|].
  unfold search_from_default, _search_files.
  destruct node as [n|]; [|discriminate].
  set (files := search_node self (path self) n (default_files rs)).
  destruct (_get_media_info env self files (media rs)) as [[data|e] st] eqn:E;
    [|discriminate].
  intros [= <- <-]. exists n. cbn [default_files _total_files _data].
  split; [reflexivity|]. split; [reflexivity|]. split; [reflexivity|].
  unfold _get_media_info in E.
  destruct (catalog_loop_spec _ _ _ _ _ _ _ _ Hk E) as (_ & _ & Hok).
  destruct (Hok data eq_refl) as (_ & Hle & Hgt & Hin).
  clearbody files. split.
  - intros k. split.
    + intros Hs.
      destruct (decide (k ≤ 0)%Z) as [Hk0|Hk0];
        [rewrite Hle in Hs by lia; rewrite lookup_empty in Hs;
         destruct Hs as [? [=]]|].
      destruct (decide (Z.of_nat (List.length (mkv_files files)) < k)%Z)
        as [Hk1|Hk1];
        [rewrite Hgt in Hs by lia; rewrite lookup_empty in Hs;
         destruct Hs as [? [=]]|].
      lia.
    + intros [H1 H2].
      destruct (lookup_lt_is_Some_2 (mkv_files files) (Z.to_nat (k - 1)))
        as [f Hf]; [lia|].
      destruct (Hin _ _ Hf) as (ref & o & Hd & _).
      replace (0 + 1 + Z.of_nat (Z.to_nat (k - 1)))%Z with k in Hd by lia.
      eauto.
  - unfold _count_files, mkv_files.
    pose proof (List.filter_length_le
      (λ file, String.eqb (PathOps.suffix file) ".mkv") files). lia.
Qed.

Lemma processor_totals_witness :
  ∃ obj rs1,
    MediaProcessor_call Sample.env SampleTree.text_processor
      (Some SampleTree.tree) initial_run = (Built obj, rs1)
    ∧ _total_files obj = 4%Z
    ∧ (∀ k : Z, is_Some (_data obj !! k) ↔ (1 ≤ k ≤ 3)%Z).
Proof.
  destruct (MediaProcessor_call Sample.env SampleTree.text_processor
      (Some SampleTree.tree) initial_run) as [o rs1] eqn:E.
  destruct o as [obj|e|key];
    [|vm_compute in E; discriminate|vm_compute in E; discriminate].
  exists obj, rs1. split; [reflexivity|].
  destruct (processor_totals Sample.env SampleTree.text_processor
              (Some SampleTree.tree) initial_run obj rs1 (Forall_nil_2 _) E)
    as (n & Hn & Hd & Ht & Hkeys & _).
  injection Hn as <-.
  assert (Hfiles : List.length (default_files rs1) = 4%nat)
    by (rewrite Hd; reflexivity).
  assert (Hmkv : List.length (mkv_files (default_files rs1)) = 3%nat)
    by (rewrite Hd; reflexivity).
  split; [rewrite Ht, Hfiles; reflexivity|].
  intros k. rewrite Hkeys, Hmkv. reflexivity.
Defined.

(** ** When the builders fail *)

Lemma language_get_is_ok env key :
  is_ok (language_get env key) = Py.hashable key.
Proof. unfold language_get. destruct (Py.hashable key); reflexivity. Qed.

Lemma language_get_raises env key e :
  language_get env key = Raise e → exc_cls e = TypeError.
Proof.
  unfold language_get. destruct (Py.hashable key); [discriminate|].
  unfold_result. intros [= ?]; subst; reflexivity.
Qed.

(** X23. On a stream that is an object, the audio builder fails only
    for a [language] that is a list or an object ([TypeError]); the
    subtitle builder fails for that, and when [disposition] or [tags]
    is present and no object ([AttributeError]); the attachment builder
    fails only when [tags] is present and no object. *)
Theorem simple_builders_failures env d :
  let language := default (PStr EmptyString) (Py.assoc "language" d) in
  let disposition := default (PDict []) (Py.assoc "disposition" d) in
  let tags := default (PDict []) (Py.assoc "tags" d) in
  (is_ok (_extract_audio_info env (PDict d)) = Py.hashable language
   ∧ ∀ e, _extract_audio_info env (PDict d) = Raise e → exc_cls e = TypeError)
  ∧ (is_ok (_extract_subtitle_info env (PDict d))
       = Py.hashable language && is_dict disposition && is_dict tags
     ∧ ∀ e, _extract_subtitle_info env (PDict d) = Raise e →
            exc_cls e = TypeError ∨ exc_cls e = AttributeError)
  ∧ (is_ok (_extract_attach_info (PDict d)) = is_dict tags
     ∧ ∀ e, _extract_attach_info (PDict d) = Raise e →
            exc_cls e = AttributeError).
Proof.
  intros language disposition tags. repeat apply conj.
  - unfold _extract_audio_info. rewrite !get_dict. cbn [mbind result_bind].
    fold language. pose proof (language_get_is_ok env language) as H.
    destruct (language_get env language); cbn [mbind result_bind];
      rewrite <- H; reflexivity.
  - intros e. unfold _extract_audio_info. rewrite !get_dict.
    cbn [mbind result_bind]. fold language.
    destruct (language_get env language) eqn:E; cbn [mbind result_bind];
      [discriminate|].
    intros [= <-]. eapply language_get_raises, E.
  - unfold _extract_subtitle_info. rewrite !get_dict. cbn [mbind result_bind].
    fold language disposition tags.
    pose proof (language_get_is_ok env language) as H.
    destruct (language_get env language); cbn [mbind result_bind];
      rewrite <- H; [|reflexivity].
    destruct disposition; try reflexivity. rewrite !get_dict.
    cbn [mbind result_bind]. destruct tags; reflexivity.
  - intros e. unfold _extract_subtitle_info. rewrite !get_dict.
    cbn [mbind result_bind]. fold language disposition tags.
    destruct (language_get env language) eqn:E; cbn [mbind result_bind];
      [|intros [= <-]; left; eapply language_get_raises, E].
    destruct disposition;
      try (cbn; unfold_result; intros [= ?]; subst; right; reflexivity).
    rewrite !get_dict. cbn [mbind result_bind].
    destruct tags;
      cbn; unfold_result; intros [= ?]; subst; right; reflexivity.
  - unfold _extract_attach_info. rewrite !get_dict. cbn [mbind result_bind].
    fold tags. destruct tags; reflexivity.
  - intros e. unfold _extract_attach_info. rewrite !get_dict.
    cbn [mbind result_bind]. fold tags.
    destruct tags;
      cbn; unfold_result; intros [= ?]; subst; reflexivity.
Qed.
